(** * Retail sales dashboard: validation, filtering and KPI pipeline

    A shallow embedding of [sales.py].  The dashboard reads a spreadsheet
    into a pandas [DataFrame], validates it, normalises the two date
    columns, filters it by a date range and a category selection and then
    computes indicators, grouped summaries, a forecast and a CSV export.

    Modelling conventions.
    - A [DataFrame] is column oriented, as in pandas: an ordered list of
      named [Series], each with a [dtype] and its cells.
    - Numbers are exact rationals ([Q]); the values the code can produce
      outside the rationals (the NaN of an empty mean or of 0/0, the
      infinities of x/0) are explicit constructors of [fnum].  The
      rounding of float64 and the wrap-around of int64 are not modelled:
      a sum is the exact sum, so nothing is stated below that holds of
      exact sums only.
    - Timestamps are nanoseconds since the epoch ([Z]); calendar dates are
      day numbers since the epoch ([Z]).
    - A missing cell (None, NaN, NaT) is [Null].
    - Exceptions are values of [Exn]; code that can raise returns a
      [result].
    - Text is [string]; a character is one byte.
    - What the page shows is a list of events: the messages
      ([st.success], [st.error], [st.info]), the subheaders, the metrics,
      the charts, the tables and the download.  Messages are given
      without their leading pictograph; a metric carries the value shown,
      not its formatted text.  The calls that lay out and style the page
      ([st.title], [st.markdown], [st.columns], the sidebar widgets, the
      spinners and the progress bar) leave no event. *)

From Stdlib Require Import ZArith QArith Qround List Sorted String Ascii Bool Lia DecimalString.
From stdpp Require Import base list strings sorting.
Import ListNotations.
Open Scope string_scope.

(** ** Exceptions and results *)

Inductive Exn : Type :=
| KeyError (key : string)
| TypeError (msg : string)
| ValueError (msg : string)
| NameError (name : string)
| AttributeError (msg : string)
| ParserError (text : string).

Inductive result (A : Type) : Type :=
| Ok (a : A)
| Raise (e : Exn).
Arguments Ok {A} a.
Arguments Raise {A} e.

Definition rbind {A B} (r : result A) (k : A -> result B) : result B :=
  match r with
  | Ok a => k a
  | Raise e => Raise e
  end.

#[export] Instance result_ret : MRet result := fun A a => Ok a.
#[export] Instance result_bind : MBind result := fun A B k r => rbind r k.

Fixpoint rmapM {A B} (f : A -> result B) (l : list A) : result (list B) :=
  match l with
  | [] => Ok []
  | a :: l' =>
      rbind (f a) (fun b => rbind (rmapM f l') (fun bs => Ok (b :: bs)))
  end.

(** ** Dates and the text of values

    Calendar arithmetic on day numbers, and the text Python gives for
    integers, dates and decimal numbers. *)

Definition NS_PER_DAY : Z := 86400000000000.

Definition days_from_civil (y m d : Z) : Z :=
  let y' := (if m <=? 2 then y - 1 else y)%Z in
  let era := (y' / 400)%Z in
  let yoe := (y' - era * 400)%Z in
  let doy := ((153 * (if m <=? 2 then m + 9 else m - 3) + 2) / 5 + d - 1)%Z in
  let doe := (yoe * 365 + yoe / 4 - yoe / 100 + doy)%Z in
  (era * 146097 + doe - 719468)%Z.

Definition civil_from_days (days : Z) : Z * Z * Z :=
  let z := (days + 719468)%Z in
  let era := (z / 146097)%Z in
  let doe := (z - era * 146097)%Z in
  let yoe := ((doe - doe / 1460 + doe / 36524 - doe / 146096) / 365)%Z in
  let doy := (doe - (365 * yoe + yoe / 4 - yoe / 100))%Z in
  let mp := ((5 * doy + 2) / 153)%Z in
  let d := (doy - (153 * mp + 2) / 5 + 1)%Z in
  let m := (if mp <? 10 then mp + 3 else mp - 9)%Z in
  ((yoe + era * 400 + (if m <=? 2 then 1 else 0))%Z, m, d).

Definition digits (s : string) : option Z :=
  Z.of_uint <$> NilZero.uint_of_string s.

(** Text of the form YYYY-MM-DD, as a timestamp at midnight. *)
Definition iso_datetime (s : string) : option Z :=
  if (String.length s =? 10)%nat
     && String.eqb (substring 4 1 s) "-" && String.eqb (substring 7 1 s) "-"
  then
    y ← digits (substring 0 4 s);
    m ← digits (substring 5 2 s);
    d ← digits (substring 8 2 s);
    if ((1 <=? m) && (m <=? 12) && (1 <=? d) && (d <=? 31))%Z
    then Some (days_from_civil y m d * NS_PER_DAY)%Z
    else None
  else None.

Definition show_Z (z : Z) : string := NilZero.string_of_int (Z.to_int z).

Definition two_digits (z : Z) : string :=
  (if (z <? 10)%Z then "0" else "") +:+ show_Z z.

Definition four_digits (z : Z) : string :=
  (if (z <? 10)%Z then "000" else if (z <? 100)%Z then "00"
   else if (z <? 1000)%Z then "0" else "") +:+ show_Z z.

Definition show_date (days : Z) : string :=
  let '(y, m, d) := civil_from_days days in
  four_digits y +:+ "-" +:+ two_digits m +:+ "-" +:+ two_digits d.

Definition show_timestamp (ns : Z) : string :=
  let secs := ((ns mod NS_PER_DAY) / 1000000000)%Z in
  if (secs =? 0)%Z then show_date (ns / NS_PER_DAY)
  else show_date (ns / NS_PER_DAY) +:+ " " +:+ two_digits (secs / 3600)
       +:+ ":" +:+ two_digits (secs / 60 mod 60) +:+ ":" +:+ two_digits (secs mod 60).

(** The decimal digits of [r / d] for [0 <= r < d], as far as [fuel]
    reaches. *)
Fixpoint fraction_digits (fuel : nat) (r d : Z) : string :=
  match fuel with
  | O => ""
  | S fuel' =>
      if (r =? 0)%Z then ""
      else show_Z (10 * r / d) +:+ fraction_digits fuel' (10 * r mod d) d
  end.

Definition show_Q (q : Q) (point_zero : bool) : string :=
  let n := Qnum q in
  let d := Zpos (Qden q) in
  let whole := (Z.abs n / d)%Z in
  let frac := fraction_digits 17 (Z.abs n mod d) d in
  (if (n <? 0)%Z then "-" else "") +:+ show_Z whole
  +:+ (if String.eqb frac "" then (if point_zero then ".0" else "") else "." +:+ frac).

(** [str(e)] *)
Definition exn_text (e : Exn) : string :=
  match e with
  | KeyError key => "'" +:+ key +:+ "'"
  | TypeError msg | ValueError msg | AttributeError msg => msg
  | NameError name => "name '" +:+ name +:+ "' is not defined"
  | ParserError text => "Unknown datetime string format, unable to parse: " +:+ text
  end.

(** ** Tables *)

(** The dtypes of the columns of a table read from a spreadsheet. *)
Inductive Dtype : Type := int64 | float64 | bool_ | datetime64 | object_.

Inductive Cell : Type :=
| Null
| Num (q : Q)
| Bool (b : bool)
| Time (ns : Z)
| Str (s : string).

Record Series : Type := mkSeries { dtype : Dtype; values : list Cell }.

Record DataFrame : Type := mkDF { cols : list (string * Series); nrows : nat }.

(** [df.columns] *)
Definition columns (df : DataFrame) : list string := map fst (cols df).

(** [len(df)] *)
Definition len (df : DataFrame) : nat := nrows df.

Fixpoint lookup_col (cs : list (string * Series)) (name : string) : option Series :=
  match cs with
  | [] => None
  | (n, s) :: cs' => if String.eqb n name then Some s else lookup_col cs' name
  end.

(** [df[name]]: the column, or [KeyError] *)
Definition getitem (df : DataFrame) (name : string) : result Series :=
  match lookup_col (cols df) name with
  | Some s => Ok s
  | None => Raise (KeyError name)
  end.

Fixpoint set_col (cs : list (string * Series)) (name : string) (s : Series)
  : list (string * Series) :=
  match cs with
  | [] => [(name, s)]
  | (n, s0) :: cs' =>
      if String.eqb n name then (n, s) :: cs' else (n, s0) :: set_col cs' name s
  end.

(** [df[name] = s]: replaces the column where it stands, or appends it *)
Definition setitem (df : DataFrame) (name : string) (s : Series) : DataFrame :=
  mkDF (set_col (cols df) name s) (nrows df).

(** Every column has one cell per row. *)
Definition rectangular (df : DataFrame) : Prop :=
  Forall (fun c => length (values (snd c)) = nrows df) (cols df).

(** [str(c)] *)
Definition cell_text (c : Cell) : string :=
  match c with
  | Null => "nan"
  | Num q => show_Q q false
  | Bool b => if b then "True" else "False"
  | Time ns => show_timestamp ns
  | Str s => s
  end.

(** The table in the upload instructions of [main]. *)
Definition sample_data : DataFrame :=
  mkDF [("Order Date", mkSeries object_ [Str "2023-01-01"; Str "2023-01-02"; Str "2023-01-03"]);
        ("Ship Date", mkSeries object_ [Str "2023-01-02"; Str "2023-01-03"; Str "2023-01-04"]);
        ("Category", mkSeries object_ [Str "Technology"; Str "Furniture"; Str "Office Supplies"]);
        ("Sub-Category", mkSeries object_ [Str "Phones"; Str "Chairs"; Str "Binders"]);
        ("Product Name", mkSeries object_ [Str "iPhone 14"; Str "Office Chair"; Str "Binder Clips"]);
        ("Sales", mkSeries float64 [Num (99999 # 100); Num (29999 # 100); Num (1599 # 100)]);
        ("Discount", mkSeries float64 [Num (1 # 10); Num 0; Num (5 # 100)]);
        ("Profit", mkSeries float64 [Num (19999 # 100); Num (5999 # 100); Num (319 # 100)]);
        ("Quantity", mkSeries int64 [Num 1; Num 1; Num 5])]
       3.

(** ** The pandas operations the validator uses *)

Section Pipeline.

(** The date parser behind [pd.to_datetime] for text cells: the timestamp
    of a text, or [None] where pandas raises.  It reads one text at a
    time; the format pandas 2 infers from the first text of a column is
    part of the parser, so a column is taken to be written in one
    format. *)
Variable parse_datetime : string -> option Z.

(** A number counts nanoseconds; its fraction is cut off. *)
Definition truncate (q : Q) : Z := Z.quot (Qnum q) (Zpos (Qden q)).

Definition to_datetime_cell (c : Cell) : result Cell :=
  match c with
  | Null => Ok Null
  | Time t => Ok (Time t)
  | Num q => Ok (Time (truncate q))
  | Bool _ => Raise (TypeError "<class 'bool'> is not convertible to datetime")
  | Str s =>
      match parse_datetime s with
      | Some t => Ok (Time t)
      | None => Raise (ParserError s)
      end
  end.

(** [pd.to_datetime(s)] *)
Definition to_datetime (s : Series) : result Series :=
  match dtype s with
  | datetime64 => Ok s
  | bool_ => Raise (TypeError "dtype bool cannot be converted to datetime64[ns]")
  | _ => vs ← rmapM to_datetime_cell (values s); Ok (mkSeries datetime64 vs)
  end.

(** [pd.api.types.is_numeric_dtype] *)
Definition is_numeric_dtype (s : Series) : bool :=
  match dtype s with
  | int64 | float64 | bool_ => true
  | datetime64 | object_ => false
  end.

(** ** Schema validation *)

Definition REQUIRED_COLUMNS : list string :=
  ["Order Date"; "Ship Date"; "Category"; "Sub-Category";
   "Product Name"; "Sales"; "Discount"; "Profit"; "Quantity"].

Definition numeric_columns : list string :=
  ["Sales"; "Discount"; "Profit"; "Quantity"].

(** [[col for col in REQUIRED_COLUMNS if col not in df.columns]] *)
Definition missing_columns (df : DataFrame) : list string :=
  List.filter (fun col => negb (bool_decide (col ∈ columns df))) REQUIRED_COLUMNS.

(** The loop over [numeric_columns]: the first column that is not numeric
    ends it. *)
Fixpoint check_numeric (df : DataFrame) (names : list string) : result (bool * string) :=
  match names with
  | [] => Ok (true, "Dataset validation successful")
  | col :: names' =>
      rbind (getitem df col) (fun s =>
        if negb (is_numeric_dtype s)
        then Ok (false, "Column '" +:+ col +:+ "' must contain numeric values")
        else check_numeric df names')
  end.

Definition validate_dataset (df : DataFrame) : result (bool * string) :=
  let missing := missing_columns df in
  match missing with
  | _ :: _ =>
      Ok (false, "Missing required columns: " +:+ String.concat ", " missing)
  | [] =>
      let try_dates : result Series :=
        _ ← getitem df "Order Date" ≫= to_datetime;
        getitem df "Ship Date" ≫= to_datetime in
      match try_dates with
      | Ok _ => check_numeric df numeric_columns
      | Raise _ => Ok (false, "Order Date and Ship Date must be valid date formats")
      end
  end.

(** ** Numbers with the non-finite values of float arithmetic *)

Inductive fnum : Type := Fin (q : Q) | PInf | NInf | NaN.

Definition Qltb (x y : Q) : bool := negb (Qle_bool y x).

(** Division as numpy performs it on a numpy scalar: a zero divisor gives
    NaN or an infinity, never an exception. *)
Definition np_divide (a b : Q) : fnum :=
  if Qeq_bool b 0%Q then
    if Qeq_bool a 0%Q then NaN else if Qltb 0%Q a then PInf else NInf
  else Fin (a / b)%Q.

(** [x * k] for a positive finite [k] *)
Definition fnum_scale (x : fnum) (k : Q) : fnum :=
  match x with
  | Fin q => Fin (q * k)%Q
  | other => other
  end.

(** ** Column operations *)

(** The numeric value of a cell in a sum: missing cells are skipped
    ([skipna]), booleans count as 0 and 1.  A text cell raises.  pandas
    adds the cells of an object column as Python does: text next to a
    number raises there too, and the texts of a column of text only are
    joined.  A joined total is no number; [calculate_kpis] raises when it
    compares one with 0 or divides one, and hands it on only as the total
    of profit when the total of sales is not positive.  The totals of the
    model are numbers, so it raises in that case as well; no column that
    passes [validate_dataset] holds text. *)
Definition cell_number (c : Cell) : result (option Q) :=
  match c with
  | Null => Ok None
  | Num q => Ok (Some q)
  | Bool b => Ok (Some (if b then 1%Q else 0%Q))
  | Time _ => Raise (TypeError "datetime64 type does not support sum operations")
  | Str _ => Raise (TypeError "unsupported operand type(s): 'str'")
  end.

Fixpoint cells_sum_count (vs : list Cell) : result (Q * nat) :=
  match vs with
  | [] => Ok (0%Q, O)
  | c :: vs' =>
      x ← cell_number c;
      '(total, n) ← cells_sum_count vs';
      Ok (match x with
          | Some q => ((q + total)%Q, S n)
          | None => (total, n)
          end)
  end.

(** pandas refuses the sum of a column of timestamps by its dtype,
    whatever its rows. *)
Definition sum_allowed (s : Series) : result unit :=
  match dtype s with
  | datetime64 => Raise (TypeError "datetime64 type does not support sum operations")
  | _ => Ok tt
  end.

(** [s.sum()] *)
Definition series_sum (s : Series) : result Q :=
  _ ← sum_allowed s;
  '(total, _) ← cells_sum_count (values s); Ok total.

(** [s.mean()]: NaN when there is no value to average *)
Definition series_mean (s : Series) : result fnum :=
  '(total, n) ← cells_sum_count (values s);
  Ok (match n with
      | O => NaN
      | S _ => Fin (total / inject_Z (Z.of_nat n))%Q
      end).

Definition cell_day (c : Cell) : option Z :=
  match c with
  | Time t => Some (t / NS_PER_DAY)%Z
  | _ => None
  end.

(** [s.dt.date]: the calendar day of each timestamp, [None] for NaT *)
Definition dt_date (s : Series) : result (list (option Z)) :=
  match dtype s with
  | datetime64 => Ok (map cell_day (values s))
  | _ => Raise (AttributeError "Can only use .dt accessor with datetimelike values")
  end.

(** Equality of cells as [isin] and [groupby] see it: numbers by value,
    missing cells equal to each other. *)
Definition cell_eqb (a b : Cell) : bool :=
  match a, b with
  | Null, Null => true
  | Num x, Num y => Qeq_bool x y
  | Bool x, Bool y => Bool.eqb x y
  | Time x, Time y => Z.eqb x y
  | Str x, Str y => String.eqb x y
  | _, _ => false
  end.

(** [s.isin(items)] *)
Definition isin (s : Series) (items : list Cell) : list bool :=
  map (fun c => existsb (cell_eqb c) items) (values s).

(** [dates >= d] and [dates <= d] on a column of days; a comparison with
    NaT is false. *)
Definition date_ge (dates : list (option Z)) (d : Z) : list bool :=
  map (fun x => match x with Some v => (d <=? v)%Z | None => false end) dates.

Definition date_le (dates : list (option Z)) (d : Z) : list bool :=
  map (fun x => match x with Some v => (v <=? d)%Z | None => false end) dates.

(** [m1 & m2] *)
Definition mask_and (m1 m2 : list bool) : list bool := zip_with andb m1 m2.

(** The cells of a column at the positions where the mask is true. *)
Fixpoint select {A} (mask : list bool) (vs : list A) : list A :=
  match mask, vs with
  | b :: mask', v :: vs' => if b then v :: select mask' vs' else select mask' vs'
  | _, _ => []
  end.

Definition count_true (mask : list bool) : nat := length (List.filter id mask).

(** [df[mask]]: a new table with the rows at which the mask is true *)
Definition bool_index (df : DataFrame) (mask : list bool) : DataFrame :=
  mkDF (map (fun c => (fst c, mkSeries (dtype (snd c)) (select mask (values (snd c)))))
            (cols df))
       (count_true mask).

(** [df.iloc[idxs]]: a new table with the rows at the given positions *)
Definition take_rows (df : DataFrame) (idxs : list nat) : DataFrame :=
  mkDF (map (fun c => (fst c, mkSeries (dtype (snd c))
                                (map (fun i => nth i (values (snd c)) Null) idxs)))
            (cols df))
       (length idxs).

(** Row [i] of a table, and the table as a sequence of rows. *)
Definition row (df : DataFrame) (i : nat) : list Cell :=
  map (fun c => nth i (values (snd c)) Null) (cols df).

Definition rows (df : DataFrame) : list (list Cell) :=
  map (row df) (seq 0 (nrows df)).

(** ** Filtering (the mask of [show_analysis]) *)

(** [(df['Order Date'].dt.date >= date_range[0])
     & (df['Order Date'].dt.date <= date_range[1])
     & (df['Category'].isin(categories))] *)
Definition filter_mask (df : DataFrame) (date_range : Z * Z) (categories : list Cell)
  : result (list bool) :=
  dates ← getitem df "Order Date" ≫= dt_date;
  dates' ← getitem df "Order Date" ≫= dt_date;
  cat ← getitem df "Category";
  Ok (mask_and (mask_and (date_ge dates (fst date_range))
                         (date_le dates' (snd date_range)))
               (isin cat categories)).

(** [filtered_df = df[mask]] *)
Definition filtered_df (df : DataFrame) (date_range : Z * Z) (categories : list Cell)
  : result DataFrame :=
  mask ← filter_mask df date_range categories;
  Ok (bool_index df mask).

(** ** Key performance indicators *)

Record KPIs : Type := mkKPIs {
  total_sales : Q;
  total_profit : Q;
  profit_margin : Q;
  avg_order_value : fnum;
  total_orders : nat
}.

Definition calculate_kpis (df : DataFrame) : result KPIs :=
  total_sales ← getitem df "Sales" ≫= series_sum;
  total_profit ← getitem df "Profit" ≫= series_sum;
  let profit_margin :=
    if Qltb 0%Q total_sales then ((total_profit / total_sales) * 100)%Q else 0%Q in
  avg_order_value ← getitem df "Sales" ≫= series_mean;
  let total_orders := len df in
  Ok (mkKPIs total_sales total_profit profit_margin avg_order_value total_orders).

(** ** Grouped summaries *)

Definition kind_rank (c : Cell) : nat :=
  match c with
  | Bool _ => 0
  | Num _ => 1
  | Time _ => 2
  | Str _ => 3
  | Null => 4
  end.

(** The order of group keys and of sorted values.  Cells of one kind are
    ordered by value (text by code point); the order between kinds only
    matters for columns of mixed content and is fixed by [kind_rank]. *)
Definition cell_ltb (a b : Cell) : bool :=
  match a, b with
  | Num x, Num y => Qltb x y
  | Bool x, Bool y => negb x && y
  | Time x, Time y => (x <? y)%Z
  | Str x, Str y => String.ltb x y
  | _, _ => (kind_rank a <? kind_rank b)%nat
  end.

Fixpoint insert_key (k : Cell) (ks : list Cell) : list Cell :=
  match ks with
  | [] => [k]
  | k' :: ks' =>
      if cell_eqb k k' then ks
      else if cell_ltb k k' then k :: ks
      else k' :: insert_key k ks'
  end.

(** The distinct keys of a grouping, sorted; rows with a missing key are
    dropped. *)
Definition group_keys (keys : list Cell) : list Cell :=
  fold_right insert_key [] (List.filter (fun k => negb (cell_eqb k Null)) keys).

Definition group_cells (k : Cell) (keys vals : list Cell) : list Cell :=
  select (map (cell_eqb k) keys) vals.

Inductive Agg : Type := agg_sum | agg_mean.

Definition aggregate (a : Agg) (vs : list Cell) : result Cell :=
  '(total, n) ← cells_sum_count vs;
  Ok (match a, n with
      | agg_sum, _ => Num total
      | agg_mean, O => Null
      | agg_mean, S _ => Num (total / inject_Z (Z.of_nat n))%Q
      end).

Definition agg_dtype (a : Agg) (d : Dtype) : Dtype :=
  match a, d with
  | agg_sum, bool_ => int64
  | agg_sum, _ => d
  | agg_mean, _ => float64
  end.

(** [df.groupby(key).agg({name: agg, ...}).reset_index()]; with one pair
    it is [df.groupby(key)[name].agg().reset_index()]. *)
Definition groupby_agg (df : DataFrame) (key : string) (specs : list (string * Agg))
  : result DataFrame :=
  ks ← getitem df key;
  let gkeys := group_keys (values ks) in
  outs ← rmapM (fun spec : string * Agg =>
                  s ← getitem df (fst spec);
                  _ ← match snd spec with
                      | agg_sum => sum_allowed s
                      | agg_mean => Ok tt
                      end;
                  cells ← rmapM (fun k => aggregate (snd spec)
                                            (group_cells k (values ks) (values s))) gkeys;
                  Ok (fst spec, mkSeries (agg_dtype (snd spec) (dtype s)) cells))
               specs;
  Ok (mkDF ((key, mkSeries (dtype ks) gkeys) :: outs) (length gkeys)).

(** [df.rename(columns={old: new})] *)
Definition rename (df : DataFrame) (old new : string) : DataFrame :=
  mkDF (map (fun c => (if String.eqb (fst c) old then new else fst c, snd c)) (cols df))
       (nrows df).

(** ** Sorting and ranking *)

Fixpoint insert_by {A} (before : A -> A -> bool) (x : A) (l : list A) : list A :=
  match l with
  | [] => [x]
  | y :: l' => if before y x then y :: insert_by before x l' else x :: y :: l'
  end.

(** Stable sort: of two elements neither of which goes [before] the other
    the earlier stays first. *)
Definition sort_by {A} (before : A -> A -> bool) (l : list A) : list A :=
  fold_right (insert_by before) [] l.

(** Largest first, missing cells last. *)
Definition desc_before (a b : Cell) : bool :=
  match a, b with
  | Null, _ => false
  | _, Null => true
  | _, _ => cell_ltb b a
  end.

(** Smallest first, missing cells last. *)
Definition asc_before (a b : Cell) : bool :=
  match a, b with
  | Null, _ => false
  | _, Null => true
  | _, _ => cell_ltb a b
  end.

Definition sorted_positions (before : Cell -> Cell -> bool) (s : Series) : list nat :=
  sort_by (fun i j => before (nth i (values s) Null) (nth j (values s) Null))
          (seq 0 (length (values s))).

(** [df.nlargest(n, name)] *)
Definition nlargest (df : DataFrame) (n : nat) (name : string) : result DataFrame :=
  s ← getitem df name;
  Ok (take_rows df (take n (sorted_positions desc_before s))).

(** [df.nsmallest(n, name)] *)
Definition nsmallest (df : DataFrame) (n : nat) (name : string) : result DataFrame :=
  s ← getitem df name;
  Ok (take_rows df (take n (sorted_positions asc_before s))).

(** [df.sort_values(name, ascending=False)] *)
Definition sort_values_desc (df : DataFrame) (name : string) : result DataFrame :=
  s ← getitem df name;
  Ok (take_rows df (sorted_positions desc_before s)).

(** [s.idxmax()] of a grouped sum: the key of the first largest value *)
Fixpoint argmax_from (best_key best : Cell) (keys vals : list Cell) : Cell :=
  match keys, vals with
  | k :: keys', v :: vals' =>
      if cell_ltb best v then argmax_from k v keys' vals'
      else argmax_from best_key best keys' vals'
  | _, _ => best_key
  end.

Definition idxmax (keys vals : list Cell) : result Cell :=
  match keys, vals with
  | k :: keys', v :: vals' => Ok (argmax_from k v keys' vals')
  | _, _ => Raise (ValueError "attempt to get argmax of an empty sequence")
  end.

(** ** Display names of products *)

Definition is_text (c : Cell) : bool :=
  match c with Str _ => true | _ => false end.

(** Whether an object column has the [.str] accessor: pandas infers what
    the cells that are not missing hold, and refuses a column of numbers
    only, of booleans only or of timestamps only.  A column without such
    cells, one that holds text and one of mixed content pass. *)
Definition str_accessor (vs : list Cell) : bool :=
  match List.filter (fun c => negb (cell_eqb c Null)) vs with
  | [] => true
  | c :: present =>
      existsb is_text (c :: present)
      || existsb (fun c' => negb (kind_rank c' =? kind_rank c)%nat) present
  end.

(** [s.str[:n] + suffix]; a cell that is no text becomes missing *)
Definition str_prefix_plus (s : Series) (n : nat) (suffix : string) : result Series :=
  match dtype s with
  | object_ =>
      if str_accessor (values s) then
        Ok (mkSeries object_
              (map (fun c => match c with
                             | Str t => Str (substring 0 n t +:+ suffix)
                             | _ => Null
                             end) (values s)))
      else Raise (AttributeError "Can only use .str accessor with string values")
  | _ => Raise (AttributeError "Can only use .str accessor with string values")
  end.

(** [top_products['Product Name'].str[:30] + '...'] *)
Definition short_name (product_name : Series) : result Series :=
  str_prefix_plus product_name 30 "...".

(** ** Insight ratios *)

(** [s < 0] *)
Definition lt_zero (s : Series) : result (list bool) :=
  rmapM (fun c => match c with
                  | Null => Ok false
                  | Num q => Ok (Qltb q 0%Q)
                  | Bool _ => Ok false
                  | Time _ => Raise (TypeError "Invalid comparison between dtype=datetime64[ns] and int")
                  | Str _ => Raise (TypeError "'<' not supported between instances of 'str' and 'int'")
                  end) (values s).

Definition Qnat (n : nat) : Q := inject_Z (Z.of_nat n).

(** [(filtered_df['Profit'] < 0).sum() / len(filtered_df) * 100] *)
Definition negative_profit_pct (filtered : DataFrame) : result fnum :=
  negative ← getitem filtered "Profit" ≫= lt_zero;
  Ok (fnum_scale (np_divide (Qnat (count_true negative)) (Qnat (len filtered))) 100%Q).

(** [x > k] on floats: false for NaN *)
Definition fnum_gtb (x : fnum) (k : Q) : bool :=
  match x with
  | Fin q => Qltb k q
  | PInf => true
  | NInf | NaN => false
  end.

(** ** CSV export *)

(** The text pandas writes for one field of a column of the given dtype
    (number and date formats, quoting). *)
Variable csv_field : Dtype -> Cell -> string.

Definition newline : string := String (ascii_of_nat 10) EmptyString.

Definition csv_line (fields : list string) : string :=
  String.concat "," fields +:+ newline.

Definition csv_header (df : DataFrame) : string :=
  csv_line (map (fun name => csv_field object_ (Str name)) (columns df)).

Definition csv_record (df : DataFrame) (r : list Cell) : string :=
  csv_line (zip_with csv_field (map (fun c => dtype (snd c)) (cols df)) r).

(** [df.to_csv(index=False)]: the header, then the rows as they stand *)
Definition to_csv (df : DataFrame) : string :=
  String.concat "" (csv_header df :: map (csv_record df) (rows df)).

(** ** The dashboard run: objects, output and exceptions

    A table the program holds is an object: a position in the [heap].
    Assigning a column writes to the object; every other operation
    allocates its result.  What the page shows is the list [out]. *)

Inductive Shown : Type :=
| ShownQ (q : Q)
| ShownF (x : fnum)
| ShownN (n : nat)
| ShownCell (c : Cell)
| ShownText (text : string).

Inductive Event : Type :=
| st_success (msg : string)
| st_error (msg : string)
| st_info (msg : string)
| st_subheader (title : string)
| st_metric (label : string) (value : Shown)
| st_plotly_chart (title : string)
| st_dataframe (table : DataFrame)
| st_download_button (label : string) (data : string) (file_name : string).

Record State : Type := mkState { heap : list DataFrame; out : list Event }.

Definition M (A : Type) : Type := State -> State * result A.

#[export] Instance M_ret : MRet M := fun A a st => (st, Ok a).
#[export] Instance M_bind : MBind M := fun A B k m st =>
  match m st with
  | (st', Ok a) => k a st'
  | (st', Raise e) => (st', Raise e)
  end.

Definition lift {A} (r : result A) : M A := fun st => (st, r).

Definition raise {A} (e : Exn) : M A := fun st => (st, Raise e).

Definition emit (e : Event) : M unit :=
  fun st => (mkState (heap st) (out st ++ [e]), Ok tt).

(** A new object. *)
Definition alloc (d : DataFrame) : M nat :=
  fun st => (mkState (heap st ++ [d]) (out st), Ok (length (heap st))).

Definition load (l : nat) : M DataFrame :=
  fun st => (st, match heap st !! l with
                 | Some d => Ok d
                 | None => Raise (NameError "unbound table")
                 end).

Definition store (l : nat) (d : DataFrame) : M unit :=
  fun st => (mkState (<[l := d]> (heap st)) (out st), Ok tt).

(** [try: body]: the exception of the body becomes a value; what the
    body did before raising stays done. *)
Definition try_ {A} (body : M A) : M (result A) :=
  fun st => let '(st', r) := body st in (st', Ok r).

(** [obj[name] = value] on the object at [l] *)
Definition assign_column (l : nat) (name : string) (s : Series) : M unit :=
  d ← load l; store l (setitem d name s).

(** ** The environment of a run *)

Record Env : Type := mkEnv {
  PLOTLY_AVAILABLE : bool;
  PROPHET_AVAILABLE : bool;
  (** [Prophet(...).fit(history)] followed by [predict] over the history
      and [periods] further days *)
  prophet_forecast : DataFrame -> nat -> result DataFrame
}.

Inductive ViewType : Type := Top10Profitable | Bottom10Products.

(** What the sidebar and the controls of the page return. *)
Record Widgets : Type := mkWidgets {
  date_range : Z * Z;
  categories : list Cell;
  view_type : ViewType;
  forecast_days : nat;
  show_components : bool
}.

Variable env : Env.

(** A name of the plotting library is bound only if its import
    succeeded. *)
Definition plotly (name : string) : M unit :=
  if PLOTLY_AVAILABLE env then mret tt else raise (NameError name).

Definition create_sales_forecast (df : nat) (periods : nat)
  : M (option nat * option nat) :=
  if negb (PROPHET_AVAILABLE env) then
    _ ← emit (st_error "Prophet is not available. Forecasting disabled.");
    mret (None, None)
  else
    d ← load df;
    grouped ← lift (groupby_agg d "Order Date" [("Sales", agg_sum)]);
    sales_data ← alloc (rename (rename grouped "Order Date" "ds") "Sales" "y");
    history ← load sales_data;
    predicted ← lift (prophet_forecast env history periods);
    forecast ← alloc predicted;
    mret (Some sales_data, Some forecast).

(** [obj[name]] where [obj] may be [None] *)
Definition subscript (obj : option nat) (name : string) : M Series :=
  match obj with
  | None => raise (TypeError "'NoneType' object is not subscriptable")
  | Some l => d ← load l; lift (getitem d name)
  end.

(** [s.min()] and [s.max()] of a column of timestamps; NaT when there is
    none. *)
Definition times (s : Series) : list Z :=
  omap (fun c => match c with Time t => Some t | _ => None end) (values s).

Definition series_min (s : Series) : option Z :=
  match times s with
  | [] => None
  | t :: ts => Some (fold_right Z.min t ts)
  end.

Definition series_max (s : Series) : option Z :=
  match times s with
  | [] => None
  | t :: ts => Some (fold_right Z.max t ts)
  end.

(** [timestamp.date()] *)
Definition date_of (t : option Z) : result Z :=
  match t with
  | Some ns => Ok (ns / NS_PER_DAY)%Z
  | None => Raise (ValueError "NaTType does not support date")
  end.

(** [s > t] on timestamps; false for NaT on either side *)
Definition time_gt (s : Series) (t : option Z) : list bool :=
  map (fun c => match c, t with
                | Time x, Some y => (y <? x)%Z
                | _, _ => false
                end) (values s).

(** ** [show_analysis], panel by panel *)

(** Lines 270-277: the two date columns are converted where they stand. *)
Definition convert_dates (df : nat) : M unit :=
  d ← load df;
  order_date ← lift (getitem d "Order Date" ≫= to_datetime);
  _ ← assign_column df "Order Date" order_date;
  d ← load df;
  ship_date ← lift (getitem d "Ship Date" ≫= to_datetime);
  assign_column df "Ship Date" ship_date.

(** Lines 283-292: the bounds offered by the date filter. *)
Definition date_bounds (df : nat) : M (Z * Z) :=
  d ← load df;
  min_date ← lift (s ← getitem d "Order Date"; date_of (series_min s));
  d ← load df;
  max_date ← lift (s ← getitem d "Order Date"; date_of (series_max s));
  mret (min_date, max_date).

(** Lines 304-309: the filtered table is a new object. *)
Definition filter_data (w : Widgets) (df : nat) : M nat :=
  d ← load df;
  selected ← lift (filtered_df d (date_range w) (categories w));
  alloc selected.

(** Lines 311-351 *)
Definition kpi_panel (filtered : nat) : M unit :=
  f ← load filtered;
  kpis ← lift (calculate_kpis f);
  _ ← emit (st_subheader "Key Performance Indicators");
  _ ← emit (st_metric "Total Sales" (ShownQ (total_sales kpis)));
  _ ← emit (st_metric "Total Profit" (ShownQ (total_profit kpis)));
  _ ← emit (st_metric "Profit Margin" (ShownQ (profit_margin kpis)));
  _ ← emit (st_metric "Avg Order Value" (ShownF (avg_order_value kpis)));
  emit (st_metric "Total Orders" (ShownN (total_orders kpis))).

(** Lines 355-393: sales over time and profit by category. *)
Definition first_charts (filtered : nat) : M unit :=
  _ ← emit (st_subheader "Data Visualizations");
  _ ← emit (st_subheader "Sales Over Time");
  f ← load filtered;
  daily_sales ← lift (groupby_agg f "Order Date" [("Sales", agg_sum)]) ≫= alloc;
  _ ← (if PLOTLY_AVAILABLE env then
         emit (st_plotly_chart "Daily Sales Trend")
       else
         _ ← emit (st_error "Plotly not available. Charts disabled.");
         shown ← load daily_sales;
         emit (st_dataframe shown));
  _ ← emit (st_subheader "Profit by Category");
  f ← load filtered;
  category_profit ← lift (groupby_agg f "Category" [("Profit", agg_sum)]) ≫= alloc;
  _ ← plotly "px";
  emit (st_plotly_chart "Profit by Category").

(** Lines 399-448: discount impact and the product ranking. *)
Definition second_charts (w : Widgets) (filtered : nat) : M unit :=
  _ ← emit (st_subheader "Discount Impact Analysis");
  f ← load filtered;
  discount_impact ←
    lift (groupby_agg f "Discount" [("Profit", agg_mean); ("Sales", agg_mean)]) ≫= alloc;
  _ ← plotly "px";
  _ ← emit (st_plotly_chart "Discount vs Profit Analysis");
  _ ← emit (st_subheader "Top/Bottom Products");
  f ← load filtered;
  product_analysis ← lift (groupby_agg f "Product Name" [("Profit", agg_sum)]) ≫= alloc;
  p ← load product_analysis;
  top_products ←
    match view_type w with
    | Top10Profitable => lift (nlargest p 10 "Profit") ≫= alloc
    | Bottom10Products => lift (nsmallest p 10 "Profit") ≫= alloc
    end;
  t ← load top_products;
  short ← lift (getitem t "Product Name" ≫= short_name);
  _ ← assign_column top_products "Short Name" short;
  _ ← plotly "px";
  emit (st_plotly_chart match view_type w with
                        | Top10Profitable => "Top 10 Profitable"
                        | Bottom10Products => "Bottom 10 Products"
                        end).

(** Lines 450-537: the forecast chart and its components. *)
Definition forecast_panel (w : Widgets) (filtered : nat) : M unit :=
  _ ← emit (st_subheader "Sales Forecasting");
  '(sales_data, forecast) ← create_sales_forecast filtered (forecast_days w);
  _ ← plotly "go";
  _ ← subscript sales_data "ds";
  _ ← subscript sales_data "y";
  forecast_ds ← subscript forecast "ds";
  history_ds ← subscript sales_data "ds";
  fc ← match forecast with
       | Some l => load l
       | None => raise (TypeError "'NoneType' object is not subscriptable")
       end;
  future_data ← alloc (bool_index fc (time_gt forecast_ds (series_max history_ds)));
  _ ← subscript (Some future_data) "ds";
  _ ← subscript (Some future_data) "yhat";
  _ ← subscript (Some future_data) "ds";
  _ ← subscript (Some future_data) "yhat_upper";
  _ ← subscript (Some future_data) "ds";
  _ ← subscript (Some future_data) "yhat_lower";
  _ ← emit (st_plotly_chart ("Sales Forecast - Next "
                             +:+ show_Z (Z.of_nat (forecast_days w)) +:+ " Days"));
  if show_components w then
    _ ← emit (st_subheader "Forecast Components");
    _ ← plotly "make_subplots";
    _ ← subscript forecast "ds";
    _ ← subscript forecast "trend";
    _ ← subscript forecast "ds";
    _ ← subscript forecast "yearly";
    emit (st_plotly_chart "Forecast Components")
  else mret tt.

(** Lines 539-567 *)
Definition insights_panel (filtered : nat) : M unit :=
  _ ← emit (st_subheader "Business Insights");
  f ← load filtered;
  avg_discount ← lift (getitem f "Discount" ≫= series_mean);
  _ ← emit (st_metric "Average Discount" (ShownF avg_discount));
  _ ← (if fnum_gtb avg_discount (2 # 10)
       then emit (st_error "High average discount may be impacting profitability")
       else emit (st_success "Discount levels appear reasonable"));
  f ← load filtered;
  pct ← lift (negative_profit_pct f);
  _ ← emit (st_metric "Orders with Negative Profit" (ShownF pct));
  _ ← (if fnum_gtb pct 15%Q
       then emit (st_error "High percentage of unprofitable orders")
       else emit (st_success "Most orders are profitable"));
  f ← load filtered;
  by_category ← lift (groupby_agg f "Category" [("Profit", agg_sum)]);
  best_category ← lift (keys ← getitem by_category "Category";
                        sums ← getitem by_category "Profit";
                        idxmax (values keys) (values sums));
  _ ← emit (st_metric "Most Profitable Category" (ShownCell best_category));
  emit (st_info ("Focus marketing efforts on " +:+ cell_text best_category)).

(** Lines 569-583: the sorted view and the download. *)
Definition raw_data_panel (w : Widgets) (filtered : nat) : M unit :=
  f ← load filtered;
  sorted ← lift (sort_values_desc f "Order Date");
  _ ← emit (st_dataframe sorted);
  f ← load filtered;
  let csv := to_csv f in
  emit (st_download_button "Download filtered data as CSV" csv
          ("retail_data_" +:+ show_date (fst (date_range w)) +:+ "_"
           +:+ show_date (snd (date_range w)) +:+ ".csv")).

Definition show_analysis (w : Widgets) (df : nat) : M unit :=
  _ ← emit (st_success "Data uploaded successfully! Here's your analysis:");
  converted ← try_ (convert_dates df);
  match converted with
  | Raise e => emit (st_error ("Error converting dates: " +:+ exn_text e))
  | Ok _ =>
      bounds ← try_ (date_bounds df);
      match bounds with
      | Raise e => emit (st_error ("Error setting up date filter: " +:+ exn_text e))
      | Ok _ =>
          filtered ← filter_data w df;
          _ ← kpi_panel filtered;
          _ ← first_charts filtered;
          _ ← second_charts w filtered;
          _ ← forecast_panel w filtered;
          _ ← insights_panel filtered;
          _ ← raw_data_panel w filtered;
          emit (st_success "Dashboard analysis completed successfully!")
      end
  end.

(** ** Loading an upload and the entry point *)

(** [timestamp.strftime('%Y-%m-%d')] *)
Definition strftime_day (t : option Z) : result string :=
  match t with
  | Some ns => Ok (show_date (ns / NS_PER_DAY))
  | None => Raise (ValueError "NaTType does not support strftime")
  end.

(** [df.empty] *)
Definition empty (df : DataFrame) : bool :=
  (nrows df =? 0)%nat || (length (cols df) =? 0)%nat.

(** [uploaded_file] is [None] when nothing was uploaded, and otherwise
    what [pd.read_excel] makes of the file. *)
Definition load_uploaded_data (uploaded_file : option (result DataFrame))
  : M (option nat) :=
  match uploaded_file with
  | None => mret None
  | Some read_excel =>
      outcome ← try_ (
        df ← lift read_excel ≫= alloc;
        d ← load df;
        '(is_valid, message) ← lift (validate_dataset d);
        if is_valid : bool then
          normalised ← try_ (
            _ ← convert_dates df;
            _ ← emit (st_success "Dataset uploaded and validated successfully!");
            d ← load df;
            _ ← emit (st_metric "Total Records" (ShownN (len d)));
            first ← lift (s ← getitem d "Order Date"; strftime_day (series_min s));
            last ← lift (s ← getitem d "Order Date"; strftime_day (series_max s));
            _ ← emit (st_metric "Date Range" (ShownText (first +:+ " to " +:+ last)));
            category ← lift (getitem d "Category");
            emit (st_metric "Categories"
                    (ShownN (length (group_keys (values category))))));
          match normalised with
          | Ok _ => mret (Some df)
          | Raise date_error =>
              _ ← emit (st_error ("Error converting dates: " +:+ exn_text date_error));
              mret None
          end
        else
          _ ← emit (st_error ("Dataset validation failed: " +:+ message));
          _ ← emit (st_info ("Required columns: " +:+ String.concat ", " REQUIRED_COLUMNS));
          mret None);
      match outcome with
      | Ok loaded => mret loaded
      | Raise e => _ ← emit (st_error ("Error reading file: " +:+ exn_text e)); mret None
      end
  end.

(** [uploaded_file] is what [create_file_upload_component] returns: the
    file the uploader holds, if any; the component itself only styles the
    page. *)
Definition main (uploaded_file : option (result DataFrame)) (w : Widgets) : M unit :=
  _ ← emit (st_subheader "Data Upload");
  match uploaded_file with
  | Some _ =>
      df ← load_uploaded_data uploaded_file;
      match df with
      | Some l =>
          d ← load l;
          if negb (empty d) then show_analysis w l
          else emit (st_error "Please upload a valid dataset to see the analysis.")
      | None => emit (st_error "Please upload a valid dataset to see the analysis.")
      end
  | None =>
      _ ← emit (st_info "Please upload an Excel file (.xlsx) with the same structure as Global Superstore to begin analysis.");
      emit (st_dataframe sample_data)
  end.

End Pipeline.

(** ** A concrete instance of the library functions

    The properties below hold for every date parser, field format and
    forecaster.  To run the model on tables, this section fixes one of
    each: ISO calendar dates, plain decimal fields and a forecaster that
    repeats the mean of the history. *)

Definition double_quote : ascii := ascii_of_nat 34.

Fixpoint needs_quoting (s : string) : bool :=
  match s with
  | EmptyString => false
  | String c s' =>
      Ascii.eqb c "," || Ascii.eqb c double_quote || Ascii.eqb c (ascii_of_nat 10)
      || Ascii.eqb c (ascii_of_nat 13) || needs_quoting s'
  end.

Fixpoint escape_quotes (s : string) : string :=
  match s with
  | EmptyString => EmptyString
  | String c s' =>
      if Ascii.eqb c double_quote
      then String c (String c (escape_quotes s'))
      else String c (escape_quotes s')
  end.

Definition plain_field (d : Dtype) (c : Cell) : string :=
  match c with
  | Null => ""
  | Num q => show_Q q (match d with float64 => true | _ => false end)
  | Bool b => if b then "True" else "False"
  | Time ns => show_timestamp ns
  | Str s =>
      if needs_quoting s
      then String double_quote (escape_quotes s) +:+ String double_quote EmptyString
      else s
  end.

(** A stand-in for the forecasting library: it refuses a history of fewer
    than two rows and otherwise predicts the mean of the history for
    every day of the history and of the horizon. *)
Definition mean_forecast (history : DataFrame) (periods : nat) : result DataFrame :=
  ds ← getitem history "ds";
  y ← getitem history "y";
  if (length (values ds) <? 2)%nat
  then Raise (ValueError "Dataframe has less than 2 non-NaN rows.")
  else
    level ← series_mean y;
    last ← match series_max ds with
           | Some t => Ok t
           | None => Raise (ValueError "Dataframe has less than 2 non-NaN rows.")
           end;
    let future := map (fun k => Time (last + Z.of_nat k * NS_PER_DAY)%Z) (seq 1 periods) in
    let dates := (values ds ++ future)%list in
    let flat := map (fun _ => match level with Fin q => Num q | _ => Null end) dates in
    Ok (mkDF [("ds", mkSeries datetime64 dates);
              ("trend", mkSeries float64 flat);
              ("yhat_lower", mkSeries float64 flat);
              ("yhat_upper", mkSeries float64 flat);
              ("yearly", mkSeries float64 (map (fun _ => Num 0%Q) dates));
              ("yhat", mkSeries float64 flat)]
             (length dates)).

Definition env_full : Env := mkEnv true true mean_forecast.

(** The import of the forecasting library failed. *)
Definition env_no_prophet : Env :=
  mkEnv true false (fun _ _ => Raise (NameError "Prophet")).

Definition all_categories : list Cell :=
  [Str "Technology"; Str "Furniture"; Str "Office Supplies"].

Definition day (y m d : Z) : Z := days_from_civil y m d.

Definition sample_widgets : Widgets :=
  mkWidgets (day 2023 1 1, day 2023 1 3) all_categories Top10Profitable 90 false.

Definition run {A} (m : M A) : State * result A := m (mkState [] []).

(** ** Notions used in the statements *)

(** A cell a column of the given dtype can hold. *)
Definition cell_has_dtype (d : Dtype) (c : Cell) : bool :=
  match d, c with
  | int64, Num _ => true
  | float64, (Num _ | Null) => true
  | bool_, Bool _ => true
  | datetime64, (Time _ | Null) => true
  | object_, _ => true
  | _, _ => false
  end.

Definition well_typed (df : DataFrame) : Prop :=
  Forall (fun c => Forall (fun v => cell_has_dtype (dtype (snd c)) v = true)
                          (values (snd c)))
         (cols df).

(** The two date columns hold timestamps: the state of a table after
    [load_uploaded_data]. *)
Definition normalized (df : DataFrame) : Prop :=
  exists order_date ship_date,
    lookup_col (cols df) "Order Date" = Some order_date
    /\ dtype order_date = datetime64
    /\ lookup_col (cols df) "Ship Date" = Some ship_date
    /\ dtype ship_date = datetime64.

(** The upload passes validation. *)
Definition accepted (parse_datetime : string -> option Z) (df : DataFrame) : Prop :=
  validate_dataset parse_datetime df = Ok (true, "Dataset validation successful").

(** A sheet with the nine headers and no row, as [pd.read_excel] returns
    it: every column has dtype object. *)
Definition header_only : DataFrame :=
  mkDF (map (fun name => (name, mkSeries object_ [])) REQUIRED_COLUMNS) 0.

(** No row, and the numeric columns typed. *)
Definition typed_no_rows : DataFrame :=
  mkDF [("Order Date", mkSeries datetime64 []); ("Ship Date", mkSeries datetime64 []);
        ("Category", mkSeries object_ []); ("Sub-Category", mkSeries object_ []);
        ("Product Name", mkSeries object_ []); ("Sales", mkSeries float64 []);
        ("Discount", mkSeries float64 []); ("Profit", mkSeries float64 []);
        ("Quantity", mkSeries int64 [])]
       0.

(** A sheet of returns: the sale amounts are negative. *)
Definition refunds : DataFrame :=
  mkDF [("Order Date", mkSeries object_ [Str "2023-02-01"]);
        ("Ship Date", mkSeries object_ [Str "2023-02-02"]);
        ("Category", mkSeries object_ [Str "Furniture"]);
        ("Sub-Category", mkSeries object_ [Str "Chairs"]);
        ("Product Name", mkSeries object_ [Str "Office Chair"]);
        ("Sales", mkSeries float64 [Num (-10)]);
        ("Discount", mkSeries float64 [Num 0]);
        ("Profit", mkSeries float64 [Num 5]);
        ("Quantity", mkSeries int64 [Num 1])]
       1.

(** The names listed in a text, where a comma and a space separate
    them. *)
Fixpoint split_names (current text : string) : list string :=
  match text with
  | EmptyString => [current]
  | String c rest =>
      match c, rest with
      | ","%char, String " "%char rest' => current :: split_names "" rest'
      | _, _ => split_names (current +:+ String c EmptyString) rest
      end
  end.

Definition names_in (text : string) : list string :=
  match text with
  | EmptyString => []
  | _ => split_names "" text
  end.

(** The sublists of a list, as [sublist] has them. *)
Fixpoint sublists {A} (l : list A) : list (list A) :=
  match l with
  | [] => [[]]
  | x :: l' => (map (cons x) (sublists l') ++ sublists l')%list
  end.

(** The sample without its two amount columns. *)
Definition without_amounts : DataFrame :=
  mkDF (List.filter (fun c => negb (String.eqb (fst c) "Sales" || String.eqb (fst c) "Profit"))
                    (cols sample_data))
       3.

Definition numeric_cell (c : Cell) : Prop :=
  match c with
  | Null | Num _ | Bool _ => True
  | Time _ | Str _ => False
  end.

(** The calendar day of the order of row [i], if the row has one. *)
Definition order_day (df : DataFrame) (i : nat) : option Z :=
  s ← lookup_col (cols df) "Order Date";
  c ← values s !! i;
  cell_day c.

(** The category of row [i]. *)
Definition category_at (df : DataFrame) (i : nat) : option Cell :=
  s ← lookup_col (cols df) "Category";
  values s !! i.

(** Membership in the selection of categories. *)
Definition selected (c : Cell) (categories : list Cell) : Prop :=
  exists x, x ∈ categories /\ cell_eqb c x = true.

(** The predicate of the filter on row [i]: the order day lies in the
    range, ends included, and the category is one of the selected. *)
Definition kept (df : DataFrame) (date_range : Z * Z) (categories : list Cell) (i : nat)
  : Prop :=
  exists d c,
    order_day df i = Some d
    /\ category_at df i = Some c
    /\ (fst date_range <= d <= snd date_range)%Z
    /\ selected c categories.

(** The positions at which a mask is true, counted from [k]. *)
Fixpoint true_positions (k : nat) (mask : list bool) : list nat :=
  match mask with
  | [] => []
  | b :: mask' =>
      if b then k :: true_positions (S k) mask' else true_positions (S k) mask'
  end.

(** The sample after [load_uploaded_data]: the dates are timestamps. *)
Definition midnight (y m d : Z) : Cell := Time (day y m d * NS_PER_DAY).

Definition sample_dataset : DataFrame :=
  setitem
    (setitem sample_data "Order Date"
       (mkSeries datetime64 [midnight 2023 1 1; midnight 2023 1 2; midnight 2023 1 3]))
    "Ship Date"
    (mkSeries datetime64 [midnight 2023 1 2; midnight 2023 1 3; midnight 2023 1 4]).

(** The mask of the filter, row by row. *)
Definition keep_cells (date_range : Z * Z) (categories : list Cell) (date category : Cell)
  : bool :=
  match cell_day date with
  | Some d => (fst date_range <=? d)%Z && (d <=? snd date_range)%Z
  | None => false
  end && existsb (cell_eqb category) categories.

(** What a computation guarantees under an invariant of the state: from
    a state in which [I] holds it ends in a state in which [I] holds, and
    a value it returns satisfies [Q]. *)
Definition keeps {A} (I : State -> Prop) (m : M A) (Q : A -> Prop) : Prop :=
  forall st, I st -> I (fst (m st)) /\ forall a, snd (m st) = Ok a -> Q a.

(** The objects of [h0] are all there, unchanged; what else the heap
    holds was allocated later. *)
Definition frame (h0 : list DataFrame) (st : State) : Prop :=
  exists fresh, heap st = (h0 ++ fresh)%list.

(** The forecasting library is not there, or it fails on every history. *)
Definition forecast_unavailable (env : Env) : Prop :=
  PROPHET_AVAILABLE env = false
  \/ forall history periods, exists e, prophet_forecast env history periods = Raise e.

(** What the page shows after the forecast: the insights, the download
    and the closing message. *)
Definition past_forecast (e : Event) : Prop :=
  e = st_subheader "Business Insights"
  \/ (exists label data file_name, e = st_download_button label data file_name)
  \/ e = st_success "Dashboard analysis completed successfully!".

(** The output since [out0] consists of events that satisfy [P]. *)
Definition shows_only (P : Event -> Prop) (out0 : list Event) (st : State) : Prop :=
  exists events, out st = (out0 ++ events)%list /\ Forall P events.

(** The order days of the records of [to_csv], in the order in which
    they are written. *)
Definition exported_order_days (df : DataFrame) : list (option Z) :=
  map (order_day df) (seq 0 (nrows df)).

(** Latest first; a record without a date is not constrained. *)
Definition descending (days : list (option Z)) : Prop :=
  StronglySorted (fun a b => match a, b with
                             | Some x, Some y => (y <= x)%Z
                             | _, _ => True
                             end) days.

(** The widgets with no category selected. *)
Definition nothing_selected : Widgets :=
  mkWidgets (day 2023 1 1, day 2023 1 3) [] Top10Profitable 90 false.

(** [a] may stand before [b] in a column sorted latest first. *)
Definition may_precede (a b : Cell) : Prop := desc_before b a = false.

(** The sample with its discounts typed as text. *)
Definition text_discount : DataFrame :=
  setitem sample_data "Discount" (mkSeries object_ [Str "10%"; Str "0%"; Str "5%"]).

(** The sample with a ship date that is no date, and its discounts typed
    as text. *)
Definition bad_ship_date : DataFrame :=
  setitem text_discount "Ship Date"
    (mkSeries object_ [Str "2023-01-02"; Str "soon"; Str "2023-01-04"]).

(** The two conversions of the [try] block of [validate_dataset]. *)
Definition dates_convert (parse_datetime : string -> option Z) (df : DataFrame) : Prop :=
  (exists s, getitem df "Order Date" ≫= to_datetime parse_datetime = Ok s)
  /\ (exists s, getitem df "Ship Date" ≫= to_datetime parse_datetime = Ok s).

(** The Sales and the Profit column of the sample. *)
Definition sample_sales : Series :=
  mkSeries float64 [Num (99999 # 100); Num (29999 # 100); Num (1599 # 100)].

Definition sample_profit : Series :=
  mkSeries float64 [Num (19999 # 100); Num (5999 # 100); Num (319 # 100)].

(** A cell of a column of timestamps. *)
Definition time_cell (c : Cell) : Prop := c = Null \/ exists t, c = Time t.

(** The order dates of the normalised sample. *)
Definition sample_order_dates : Series :=
  mkSeries datetime64 [midnight 2023 1 1; midnight 2023 1 2; midnight 2023 1 3].

(** The import of the charting library failed. *)
Definition env_no_plotly : Env := mkEnv false true mean_forecast.

(** A chart, and what the page shows after the first row of charts. *)
Definition past_first_charts (e : Event) : Prop :=
  (exists title, e = st_plotly_chart title)
  \/ e = st_subheader "Discount Impact Analysis"
  \/ e = st_subheader "Top/Bottom Products"
  \/ e = st_subheader "Sales Forecasting"
  \/ past_forecast e.


(** The metric of the share of orders with a negative profit. *)
Definition negative_profit_metric (e : Event) : Prop :=
  exists shown, e = st_metric "Orders with Negative Profit" shown.

(** The forecasting library raises on a history without a day, as
    Prophet does on fewer than two rows. *)
Definition forecast_needs_history (env : Env) : Prop :=
  forall history periods,
    (forall ds, getitem history "ds" = Ok ds -> values ds = []) ->
    exists e, prophet_forecast env history periods = Raise e.

(** The objects of [h0] stay as they are, and the metric of the share has
    not been shown since [out0]. *)
Definition before_ratio (h0 : list DataFrame) (out0 : list Event) (st : State) : Prop :=
  frame h0 st /\ shows_only (fun e => ~ negative_profit_metric e) out0 st.

(** The normalised sample with no row selected. *)
Definition sample_without_rows : DataFrame :=
  bool_index sample_dataset [false; false; false].

(** * Properties *)

(** Decidable goals on closed terms, by evaluation. *)
Ltac decide_true :=
  match goal with
  | |- ?P => apply (bool_decide_eq_true_1 P); vm_compute; reflexivity
  end.

Ltac decide_false :=
  match goal with
  | |- ~ ?P => apply (bool_decide_eq_false_1 P); vm_compute; reflexivity
  | |- ?x ∉ ?l => apply (bool_decide_eq_false_1 (x ∈ l)); vm_compute; reflexivity
  end.

(** ** Lookups *)

Lemma lookup_col_Some_columns cs name s :
  lookup_col cs name = Some s -> name ∈ map fst cs.
Proof.
  induction cs as [|[n s0] cs IH]; simpl; [discriminate|].
  destruct (String.eqb_spec n name) as [->|Hne]; intros H.
  - apply list_elem_of_here.
  - apply list_elem_of_further, IH, H.
Qed.

Lemma lookup_col_columns cs name :
  name ∈ map fst cs -> exists s, lookup_col cs name = Some s.
Proof.
  induction cs as [|[n s0] cs IH]; simpl; intros H.
  - apply elem_of_nil in H. contradiction.
  - destruct (String.eqb_spec n name) as [->|Hne]; [eauto|].
    apply elem_of_cons in H as [H|H]; [congruence|auto].
Qed.

Lemma lookup_col_In cs name s :
  lookup_col cs name = Some s -> (name, s) ∈ cs.
Proof.
  induction cs as [|[n s0] cs IH]; simpl; [discriminate|].
  destruct (String.eqb_spec n name) as [->|Hne]; intros H.
  - injection H as ->. apply list_elem_of_here.
  - apply list_elem_of_further, IH, H.
Qed.

Lemma getitem_columns df name :
  name ∈ columns df -> exists s, getitem df name = Ok s /\ lookup_col (cols df) name = Some s.
Proof.
  intros H. apply lookup_col_columns in H as [s Hs].
  exists s. unfold getitem. rewrite Hs. auto.
Qed.

Lemma getitem_Ok df name s :
  getitem df name = Ok s <-> lookup_col (cols df) name = Some s.
Proof.
  unfold getitem. destruct (lookup_col (cols df) name); split; congruence.
Qed.

Lemma set_col_same cs name s :
  lookup_col cs name = Some s -> set_col cs name s = cs.
Proof.
  induction cs as [|[n s0] cs IH]; simpl; [discriminate|].
  destruct (String.eqb_spec n name) as [->|Hne]; intros H.
  - congruence.
  - rewrite IH; auto.
Qed.

Lemma setitem_same df name s :
  lookup_col (cols df) name = Some s -> setitem df name s = df.
Proof.
  intros H. unfold setitem. rewrite set_col_same by exact H. destruct df; reflexivity.
Qed.

(** ** Validation *)

Lemma missing_columns_spec df c :
  c ∈ missing_columns df <-> c ∈ REQUIRED_COLUMNS /\ c ∉ columns df.
Proof.
  unfold missing_columns. rewrite list_elem_of_In, filter_In, <- list_elem_of_In.
  rewrite negb_true_iff, bool_decide_eq_false. reflexivity.
Qed.

Lemma filter_sublist {A} (f : A -> bool) (l : list A) : sublist (List.filter f l) l.
Proof.
  induction l as [|a l IH]; simpl; [constructor|].
  destruct (f a); [apply sublist_skip | apply sublist_cons]; exact IH.
Qed.

Lemma sublist_in_sublists {A} (m l : list A) : sublist m l -> In m (sublists l).
Proof.
  induction 1 as [|x m l _ IH|x m l _ IH]; simpl.
  - left. reflexivity.
  - apply in_or_app. left. apply in_map, IH.
  - apply in_or_app. right. exact IH.
Qed.

(** The names of required columns can be read back from their listing. *)
Lemma names_in_listing missing :
  sublist missing REQUIRED_COLUMNS -> names_in (String.concat ", " missing) = missing.
Proof.
  intros H. apply sublist_in_sublists in H.
  assert (Hall : forallb (fun m => bool_decide (names_in (String.concat ", " m) = m))
                         (sublists REQUIRED_COLUMNS) = true)
    by (vm_compute; reflexivity).
  rewrite forallb_forall in Hall. apply Hall in H.
  apply bool_decide_eq_true_1 in H. exact H.
Qed.

(** C2. A table that lacks a required column is rejected, and the message
    lists the lacking columns, each once, separated by a comma and a
    space, in the order of [REQUIRED_COLUMNS]; the names read back from
    the listing are those columns. *)
Theorem validate_reports_missing_columns (parse_datetime : string -> option Z) (df : DataFrame) :
  (exists c, c ∈ REQUIRED_COLUMNS /\ c ∉ columns df) ->
  exists missing,
    validate_dataset parse_datetime df
    = Ok (false, "Missing required columns: " +:+ String.concat ", " missing)
    /\ names_in (String.concat ", " missing) = missing
    /\ (forall c, c ∈ missing <-> c ∈ REQUIRED_COLUMNS /\ c ∉ columns df)
    /\ sublist missing REQUIRED_COLUMNS.
Proof.
  intros [c Hc]. exists (missing_columns df). split; [|split; [|split]].
  - apply missing_columns_spec in Hc. unfold validate_dataset.
    destruct (missing_columns df) as [|m ms]; [|reflexivity].
    apply elem_of_nil in Hc. contradiction.
  - apply names_in_listing, filter_sublist.
  - apply missing_columns_spec.
  - apply filter_sublist.
Qed.

Lemma validate_reports_missing_columns_witness :
  (exists c, c ∈ REQUIRED_COLUMNS /\ c ∉ columns without_amounts)
  /\ exists missing,
       validate_dataset iso_datetime without_amounts
       = Ok (false, "Missing required columns: " +:+ String.concat ", " missing)
       /\ names_in (String.concat ", " missing) = missing
       /\ (forall c, c ∈ missing <-> c ∈ REQUIRED_COLUMNS /\ c ∉ columns without_amounts)
       /\ sublist missing REQUIRED_COLUMNS.
Proof.
  assert (H : exists c, c ∈ REQUIRED_COLUMNS /\ c ∉ columns without_amounts).
  { exists "Sales". split.
    - decide_true.
    - decide_false. }
  split; [exact H|].
  exact (validate_reports_missing_columns iso_datetime without_amounts H).
Defined.

Example missing_amounts_message :
  validate_dataset iso_datetime without_amounts
  = Ok (false, "Missing required columns: Sales, Profit").
Proof. vm_compute. reflexivity. Qed.

Lemma missing_columns_nil df :
  (forall c, c ∈ REQUIRED_COLUMNS -> c ∈ columns df) -> missing_columns df = [].
Proof.
  intros H. destruct (missing_columns df) as [|m ms] eqn:E; [reflexivity|].
  assert (Hm : m ∈ missing_columns df) by (rewrite E; apply list_elem_of_here).
  apply missing_columns_spec in Hm as [Hr Hn]. destruct (Hn (H m Hr)).
Qed.

Lemma check_numeric_spec df names :
  (forall name, name ∈ names -> name ∈ columns df) ->
  exists r, check_numeric df names = Ok r
    /\ (r = (true, "Dataset validation successful")
        <-> forall name s, name ∈ names -> getitem df name = Ok s -> is_numeric_dtype s = true).
Proof.
  induction names as [|n names IH]; intros Hin; simpl.
  - eexists. split; [reflexivity|]. split; [|reflexivity].
    intros _ name s H. apply elem_of_nil in H. contradiction.
  - destruct (getitem_columns df n) as (s & Hs & _).
    { apply Hin, list_elem_of_here. }
    rewrite Hs. simpl. destruct (is_numeric_dtype s) eqn:En; simpl.
    + destruct IH as (r & Hr & Hiff).
      { intros name H. apply Hin, list_elem_of_further, H. }
      exists r. split; [exact Hr|]. rewrite Hiff. split.
      * intros H name s' Hname Hget. apply elem_of_cons in Hname as [->|Hname].
        -- congruence.
        -- eapply H; eauto.
      * intros H name s' Hname. apply H, list_elem_of_further, Hname.
    + eexists. split; [reflexivity|]. split; [discriminate|].
      intros H. specialize (H n s (list_elem_of_here _ _) Hs). congruence.
Qed.

Lemma to_datetime_no_rows parse_datetime s :
  values s = [] ->
  (exists s', to_datetime parse_datetime s = Ok s') <-> dtype s <> bool_.
Proof.
  intros Hv. unfold to_datetime. rewrite Hv.
  destruct (dtype s); simpl; split; try congruence; eauto.
  intros [s' H]. discriminate.
Qed.

Lemma no_rows_values df name s :
  rectangular df -> nrows df = 0%nat -> getitem df name = Ok s -> values s = [].
Proof.
  intros Hrect Hn Hget. apply getitem_Ok, lookup_col_In in Hget.
  unfold rectangular in Hrect. rewrite Forall_forall in Hrect.
  specialize (Hrect _ Hget). simpl in Hrect. rewrite Hn in Hrect.
  destruct (values s); [reflexivity | discriminate].
Qed.

(** C5, as the code has it.  A table with the nine columns and no row is
    accepted exactly when neither date column has dtype bool and the four
    numeric columns have a numeric dtype; validation always returns a
    verdict. *)
Theorem validate_zero_rows (parse_datetime : string -> option Z) (df : DataFrame) :
  (forall c, c ∈ REQUIRED_COLUMNS -> c ∈ columns df) ->
  rectangular df ->
  nrows df = 0%nat ->
  (exists ok message, validate_dataset parse_datetime df = Ok (ok, message))
  /\ (accepted parse_datetime df
      <-> (forall name s, name ∈ ["Order Date"; "Ship Date"] ->
                          getitem df name = Ok s -> dtype s <> bool_)
          /\ (forall name s, name ∈ numeric_columns ->
                             getitem df name = Ok s -> is_numeric_dtype s = true)).
Proof.
  intros Hall Hrect Hrows.
  assert (Hreq : forall c, c ∈ REQUIRED_COLUMNS -> exists s, getitem df c = Ok s).
  { intros c Hc. destruct (getitem_columns df c (Hall c Hc)) as (s & Hs & _). eauto. }
  destruct (Hreq "Order Date") as [od Hod].
  { decide_true. }
  destruct (Hreq "Ship Date") as [sd Hsd].
  { decide_true. }
  destruct (check_numeric_spec df numeric_columns) as (r & Hr & Hiff).
  { intros name Hname. apply Hall.
    unfold numeric_columns in Hname. unfold REQUIRED_COLUMNS.
    repeat (apply elem_of_cons in Hname as [->|Hname];
            [decide_true|]).
    apply elem_of_nil in Hname. contradiction. }
  pose proof (to_datetime_no_rows parse_datetime od
                (no_rows_values df _ od Hrect Hrows Hod)) as Hcod.
  pose proof (to_datetime_no_rows parse_datetime sd
                (no_rows_values df _ sd Hrect Hrows Hsd)) as Hcsd.
  assert (Hdates : (forall name s, name ∈ ["Order Date"; "Ship Date"] ->
                       getitem df name = Ok s -> dtype s <> bool_)
                   <-> dtype od <> bool_ /\ dtype sd <> bool_).
  { split.
    - intros H. split; eapply H; eauto.
      + apply list_elem_of_here.
      + apply list_elem_of_further, list_elem_of_here.
    - intros [H1 H2] name s Hname Hget.
      apply elem_of_cons in Hname as [->|Hname]; [congruence|].
      apply elem_of_cons in Hname as [->|Hname]; [congruence|].
      apply elem_of_nil in Hname. contradiction. }
  unfold accepted, validate_dataset.
  rewrite (missing_columns_nil df Hall), Hod, Hsd.
  unfold mbind, result_bind, rbind.
  rewrite Hdates, <- Hiff, <- Hcod, <- Hcsd.
  destruct (to_datetime parse_datetime od) as [od'|e1].
  - destruct (to_datetime parse_datetime sd) as [sd'|e2].
    + rewrite Hr. destruct r as [ok message]. split; [eauto|].
      split.
      * intros H. injection H as -> ->. eauto.
      * intros [_ H]. rewrite H. reflexivity.
    + split; [eauto|]. split; [discriminate|].
      intros [[_ [s' H]] _]. discriminate.
  - split; [eauto|]. split; [discriminate|].
    intros [[[s' H] _] _]. discriminate.
Qed.

Lemma validate_zero_rows_witness :
  ((forall c, c ∈ REQUIRED_COLUMNS -> c ∈ columns typed_no_rows)
   /\ rectangular typed_no_rows
   /\ nrows typed_no_rows = 0%nat)
  /\ (exists ok message, validate_dataset iso_datetime typed_no_rows = Ok (ok, message))
  /\ (accepted iso_datetime typed_no_rows
      <-> (forall name s, name ∈ ["Order Date"; "Ship Date"] ->
                          getitem typed_no_rows name = Ok s -> dtype s <> bool_)
          /\ (forall name s, name ∈ numeric_columns ->
                             getitem typed_no_rows name = Ok s -> is_numeric_dtype s = true)).
Proof.
  assert (H1 : forall c, c ∈ REQUIRED_COLUMNS -> c ∈ columns typed_no_rows).
  { intros c Hc. exact Hc. }
  assert (H2 : rectangular typed_no_rows).
  { unfold rectangular. simpl. repeat constructor. }
  assert (H3 : nrows typed_no_rows = 0%nat) by reflexivity.
  split; [auto|].
  exact (validate_zero_rows iso_datetime typed_no_rows H1 H2 H3).
Defined.

Example typed_no_rows_accepted : accepted iso_datetime typed_no_rows.
Proof. vm_compute. reflexivity. Qed.

(** C5, counterexample.  The header-only sheet has the nine columns and no
    row, and it is rejected: its Sales column is not of a numeric dtype. *)
Lemma header_only_rejected :
  (forall c, c ∈ REQUIRED_COLUMNS -> c ∈ columns header_only)
  /\ rectangular header_only
  /\ nrows header_only = 0%nat
  /\ validate_dataset iso_datetime header_only
     = Ok (false, "Column 'Sales' must contain numeric values").
Proof.
  split; [intros c Hc; exact Hc|].
  split; [unfold rectangular; simpl; repeat constructor|].
  split; [reflexivity|].
  vm_compute. reflexivity.
Qed.

(** ** Key performance indicators *)

Lemma Qltb_lt x y : Qltb x y = true <-> (x < y)%Q.
Proof.
  unfold Qltb. rewrite negb_true_iff. split.
  - intros H. apply Qnot_le_lt. intros Hle. apply Qle_bool_iff in Hle. congruence.
  - intros H. destruct (Qle_bool y x) eqn:E; [|reflexivity].
    apply Qle_bool_iff in E. apply Qlt_not_le in H. contradiction.
Qed.

Lemma Qltb_ge x y : Qltb x y = false <-> (y <= x)%Q.
Proof.
  unfold Qltb. rewrite negb_false_iff. apply Qle_bool_iff.
Qed.

Lemma cells_sum_count_total vs :
  Forall numeric_cell vs -> exists total n, cells_sum_count vs = Ok (total, n).
Proof.
  induction 1 as [|c vs Hc _ IH]; simpl; [eauto|].
  destruct IH as (total & n & ->).
  destruct c; simpl in *; try contradiction; eauto.
Qed.

Lemma numeric_dtype_cells df name s :
  well_typed df -> getitem df name = Ok s -> is_numeric_dtype s = true ->
  Forall numeric_cell (values s).
Proof.
  intros Hwt Hget Hnum. apply getitem_Ok, lookup_col_In in Hget.
  unfold well_typed in Hwt. rewrite Forall_forall in Hwt.
  specialize (Hwt _ Hget). simpl in Hwt.
  eapply Forall_impl; [exact Hwt|].
  intros c Hc. unfold is_numeric_dtype in Hnum.
  destruct (dtype s), c; simpl in *; auto; discriminate.
Qed.

Lemma accepted_columns parse_datetime df c :
  accepted parse_datetime df -> c ∈ REQUIRED_COLUMNS -> c ∈ columns df.
Proof.
  unfold accepted, validate_dataset. intros H Hc.
  destruct (missing_columns df) as [|m ms] eqn:E; [|discriminate].
  destruct (decide (c ∈ columns df)) as [Hin|Hout]; [exact Hin|].
  assert (Hm : c ∈ missing_columns df) by (apply missing_columns_spec; auto).
  rewrite E in Hm. apply elem_of_nil in Hm. contradiction.
Qed.

Lemma accepted_numeric parse_datetime df name :
  accepted parse_datetime df -> name ∈ numeric_columns ->
  exists s, getitem df name = Ok s /\ is_numeric_dtype s = true.
Proof.
  intros Hacc Hname.
  assert (Hcols : forall n, n ∈ numeric_columns -> n ∈ columns df).
  { intros n Hn. apply (accepted_columns parse_datetime); [exact Hacc|].
    unfold numeric_columns in Hn. unfold REQUIRED_COLUMNS.
    repeat (apply elem_of_cons in Hn as [->|Hn]; [decide_true|]).
    apply elem_of_nil in Hn. contradiction. }
  destruct (getitem_columns df name (Hcols name Hname)) as (s & Hs & _).
  exists s. split; [exact Hs|].
  destruct (check_numeric_spec df numeric_columns Hcols) as (r & Hr & Hiff).
  unfold accepted, validate_dataset in Hacc.
  destruct (missing_columns df); [|discriminate].
  destruct (_ ← getitem df "Order Date" ≫= to_datetime parse_datetime;
            getitem df "Ship Date" ≫= to_datetime parse_datetime); [|discriminate].
  rewrite Hr in Hacc. injection Hacc as ->.
  eapply Hiff; eauto.
Qed.

Lemma sum_allowed_numeric s : is_numeric_dtype s = true -> sum_allowed s = Ok tt.
Proof. unfold is_numeric_dtype, sum_allowed. destruct (dtype s); intros H; congruence. Qed.

(** C1, as the code has it.  On an accepted table the indicators are
    computed, the margin is total_profit / total_sales * 100 when the
    total of sales is positive, and it is 0 when the total is zero or
    negative. *)
Theorem profit_margin_guard (parse_datetime : string -> option Z) (df : DataFrame) :
  well_typed df ->
  accepted parse_datetime df ->
  exists k, calculate_kpis df = Ok k
    /\ ((0 < total_sales k)%Q ->
        profit_margin k = (total_profit k / total_sales k * 100)%Q)
    /\ ((total_sales k <= 0)%Q -> profit_margin k = 0%Q).
Proof.
  intros Hwt Hacc.
  destruct (accepted_numeric parse_datetime df "Sales" Hacc) as (sales & Hsales & Hns);
    [decide_true|].
  destruct (accepted_numeric parse_datetime df "Profit" Hacc) as (profit & Hprofit & Hnp);
    [decide_true|].
  destruct (cells_sum_count_total (values sales)
              (numeric_dtype_cells df _ _ Hwt Hsales Hns)) as (ts & ns & Hts).
  destruct (cells_sum_count_total (values profit)
              (numeric_dtype_cells df _ _ Hwt Hprofit Hnp)) as (tp & np & Htp).
  unfold calculate_kpis, series_sum, series_mean.
  rewrite Hsales, Hprofit. unfold mbind, result_bind, rbind.
  rewrite (sum_allowed_numeric _ Hns), (sum_allowed_numeric _ Hnp).
  rewrite Hts, Htp. eexists. split; [reflexivity|]. simpl.
  destruct (Qltb 0 ts) eqn:E.
  - split; [reflexivity|]. intros Hle.
    apply Qltb_lt in E. apply Qlt_not_le in E. contradiction.
  - split; [|reflexivity]. intros Hlt.
    apply Qltb_ge in E. apply Qlt_not_le in Hlt. contradiction.
Qed.

Lemma sample_data_well_typed : well_typed sample_data.
Proof. unfold well_typed. simpl. repeat constructor. Qed.

Lemma profit_margin_guard_witness :
  (well_typed sample_data /\ accepted iso_datetime sample_data)
  /\ exists k, calculate_kpis sample_data = Ok k
       /\ ((0 < total_sales k)%Q ->
           profit_margin k = (total_profit k / total_sales k * 100)%Q)
       /\ ((total_sales k <= 0)%Q -> profit_margin k = 0%Q).
Proof.
  assert (H1 : well_typed sample_data) by exact sample_data_well_typed.
  assert (H2 : accepted iso_datetime sample_data) by (vm_compute; reflexivity).
  split; [auto|].
  exact (profit_margin_guard iso_datetime sample_data H1 H2).
Defined.

(** C1, counterexample.  The sheet of returns is accepted; its total of
    sales is -10, not zero, and the margin is 0 rather than
    total_profit / total_sales * 100 = -50. *)
Lemma refunds_margin_is_zero :
  accepted iso_datetime refunds
  /\ exists k, calculate_kpis refunds = Ok k
       /\ ~ (total_sales k == 0)%Q
       /\ profit_margin k = 0%Q
       /\ ~ (profit_margin k == total_profit k / total_sales k * 100)%Q.
Proof.
  split; [vm_compute; reflexivity|].
  eexists. split; [vm_compute; reflexivity|].
  cbn [total_sales total_profit profit_margin].
  split; [|split]; [| reflexivity |]; unfold Qeq; simpl; lia.
Qed.

(** Where no total of sales is negative the margin is as the
    specification words it: the quotient when the total is not zero, and
    0 when it is. *)
Lemma profit_margin_nonnegative_sales df k :
  calculate_kpis df = Ok k ->
  (0 <= total_sales k)%Q ->
  (~ (total_sales k == 0)%Q ->
   profit_margin k = (total_profit k / total_sales k * 100)%Q)
  /\ ((total_sales k == 0)%Q -> profit_margin k = 0%Q).
Proof.
  unfold calculate_kpis, mbind, result_bind, rbind. intros H Hnonneg.
  destruct (getitem df "Sales") as [sales|]; [|discriminate].
  destruct (series_sum sales) as [ts|]; [|discriminate].
  destruct (getitem df "Profit") as [profit|]; [|discriminate].
  destruct (series_sum profit) as [tp|]; [|discriminate].
  destruct (series_mean sales) as [avg|]; [|discriminate].
  injection H as <-. simpl in *.
  destruct (Qltb 0 ts) eqn:E.
  - apply Qltb_lt in E. split; [reflexivity|].
    intros Hz. rewrite Hz in E. apply Qlt_irrefl in E. contradiction.
  - apply Qltb_ge in E. split; [|reflexivity].
    intros Hz. destruct Hz. apply Qle_antisym; assumption.
Qed.

(** ** Selecting rows by a mask *)

Lemma lookup_map {A B} (f : A -> B) (l : list A) (i : nat) :
  map f l !! i = f <$> (l !! i).
Proof.
  revert i. induction l as [|a l IH]; intros [|i]; simpl; auto.
Qed.

Lemma true_positions_ge k mask i : i ∈ true_positions k mask -> (k <= i)%nat.
Proof.
  revert k. induction mask as [|b mask IH]; intros k H; simpl in H.
  - apply elem_of_nil in H. contradiction.
  - destruct b.
    + apply elem_of_cons in H as [->|H]; [lia|]. apply IH in H. lia.
    + apply IH in H. lia.
Qed.

Lemma true_positions_spec k mask i :
  i ∈ true_positions k mask <-> (k <= i)%nat /\ mask !! (i - k)%nat = Some true.
Proof.
  revert k. induction mask as [|b mask IH]; intros k; simpl.
  - split; [intros H; apply elem_of_nil in H; contradiction | intros [_ H]; discriminate].
  - assert (Hstep : i ∈ true_positions (S k) mask
                    <-> (k < i)%nat /\ (b :: mask) !! (i - k)%nat = Some true).
    { rewrite IH. split; intros [Hle H]; (split; [lia|]).
      - replace (i - k)%nat with (S (i - S k)) by lia. exact H.
      - replace (i - k)%nat with (S (i - S k)) in H by lia. exact H. }
    destruct b.
    + rewrite elem_of_cons, Hstep. split.
      * intros [->|[Hlt H]]; [|split; [lia|exact H]].
        split; [lia|]. replace (k - k)%nat with 0%nat by lia. reflexivity.
      * intros [Hle H]. destruct (decide (i = k)) as [->|Hne]; [auto|].
        right. split; [lia|exact H].
    + rewrite Hstep. split.
      * intros [Hlt H]. split; [lia|exact H].
      * intros [Hle H]. split; [|exact H].
        destruct (decide (i = k)) as [->|Hne]; [|lia].
        replace (k - k)%nat with 0%nat in H by lia. discriminate.
Qed.

Lemma true_positions_sorted k mask : StronglySorted lt (true_positions k mask).
Proof.
  revert k. induction mask as [|b mask IH]; intros k; simpl; [constructor|].
  destruct b; [|apply IH].
  constructor; [apply IH|].
  apply Forall_forall. intros i Hi. apply true_positions_ge in Hi. lia.
Qed.

Lemma true_positions_length k mask :
  length (true_positions k mask) = count_true mask.
Proof.
  revert k. unfold count_true.
  induction mask as [|b mask IH]; intros k; simpl; [reflexivity|].
  destruct b; simpl; rewrite IH; reflexivity.
Qed.

Lemma select_positions {A} (d : A) k mask (vs : list A) :
  length vs = length mask ->
  select mask vs = map (fun i => nth (i - k) vs d) (true_positions k mask).
Proof.
  revert k vs. induction mask as [|b mask IH]; intros k [|v vs] Hlen;
    simpl in *; try reflexivity; try discriminate.
  injection Hlen as Hlen.
  assert (Htail : map (fun i => nth (i - S k) vs d) (true_positions (S k) mask)
                  = map (fun i => nth (i - k) (v :: vs) d) (true_positions (S k) mask)).
  { apply map_ext_in. intros i Hi.
    rewrite <- list_elem_of_In in Hi. apply true_positions_ge in Hi.
    replace (i - k)%nat with (S (i - S k)) by lia. reflexivity. }
  destruct b; simpl.
  - replace (k - k)%nat with 0%nat by lia. f_equal.
    rewrite (IH (S k) vs Hlen). exact Htail.
  - rewrite (IH (S k) vs Hlen). exact Htail.
Qed.

Lemma map_nth_positions {A} (l : list A) (d : A) :
  map (fun j => nth j l d) (seq 0 (length l)) = l.
Proof.
  induction l as [|a l IH]; simpl; [reflexivity|].
  f_equal. rewrite <- seq_shift, map_map. exact IH.
Qed.

Lemma nth_select_positions mask (vs : list Cell) j :
  length vs = length mask ->
  nth j (select mask vs) Null
  = nth (nth j (true_positions 0 mask) (length vs)) vs Null.
Proof.
  intros Hlen. rewrite (select_positions Null 0 mask vs Hlen).
  rewrite (map_ext (fun i => nth (i - 0) vs Null) (fun i => nth i vs Null))
    by (intros i; rewrite Nat.sub_0_r; reflexivity).
  rewrite <- (map_nth (fun i => nth i vs Null) _ (length vs)).
  rewrite (nth_overflow vs Null) by lia.
  reflexivity.
Qed.

(** The rows of [df[mask]] are the rows of [df] at the positions where
    the mask is true, in their order. *)
Lemma rows_bool_index df mask :
  rectangular df -> length mask = nrows df ->
  rows (bool_index df mask) = map (row df) (true_positions 0 mask).
Proof.
  intros Hrect Hlen. unfold rows. cbn [nrows bool_index].
  rewrite <- (true_positions_length 0 mask).
  rewrite <- (map_nth_positions (true_positions 0 mask) (nrows df)) at 2.
  rewrite map_map. apply map_ext. intros j.
  unfold row. cbn [cols bool_index]. rewrite map_map. apply map_ext_in.
  intros c Hc. cbn [snd values].
  unfold rectangular in Hrect. rewrite Forall_forall in Hrect.
  rewrite <- list_elem_of_In in Hc.
  specialize (Hrect c Hc). simpl in Hrect.
  rewrite nth_select_positions by congruence.
  rewrite Hrect. reflexivity.
Qed.

Lemma select_zip_with {A B C} (f : A -> B -> C) mask (l : list A) (k : list B) :
  select mask (zip_with f l k) = zip_with f (select mask l) (select mask k).
Proof.
  revert l k. induction mask as [|b mask IH]; intros [|x l] [|y k]; simpl; auto.
  - destruct b; simpl; try reflexivity. destruct (select mask l); reflexivity.
  - destruct b; simpl; rewrite IH; reflexivity.
Qed.

Lemma select_select {A} m1 m2 (vs : list A) :
  select (select m1 m2) (select m1 vs) = select (zip_with andb m1 m2) vs.
Proof.
  revert m2 vs. induction m1 as [|b m1 IH]; intros [|c m2] [|v vs]; simpl; auto.
  - destruct (if b then c :: select m1 m2 else select m1 m2); reflexivity.
  - destruct b; simpl; [destruct c|]; rewrite IH; reflexivity.
Qed.

Lemma count_true_select m1 m2 :
  count_true (select m1 m2) = count_true (zip_with andb m1 m2).
Proof.
  unfold count_true. revert m2.
  induction m1 as [|b m1 IH]; intros [|c m2]; simpl; auto.
  destruct b; simpl; [destruct c; simpl|]; rewrite IH; reflexivity.
Qed.

Lemma bool_index_twice df m1 m2 :
  bool_index (bool_index df m1) (select m1 m2) = bool_index df (zip_with andb m1 m2).
Proof.
  unfold bool_index. cbn [cols nrows]. rewrite count_true_select. f_equal.
  rewrite map_map. apply map_ext. intros [name s]. cbn [fst snd dtype values].
  rewrite select_select. reflexivity.
Qed.

Lemma lookup_col_bool_index df mask name :
  lookup_col (cols (bool_index df mask)) name
  = (fun s => mkSeries (dtype s) (select mask (values s))) <$> lookup_col (cols df) name.
Proof.
  unfold bool_index. cbn [cols].
  induction (cols df) as [|[n s] cs IH]; simpl; [reflexivity|].
  destruct (String.eqb n name); [reflexivity | exact IH].
Qed.

Lemma mask_as_zip (date_range : Z * Z) categories (dates cats : list Cell) :
  mask_and (mask_and (date_ge (map cell_day dates) (fst date_range))
                     (date_le (map cell_day dates) (snd date_range)))
           (map (fun x => existsb (cell_eqb x) categories) cats)
  = zip_with (keep_cells date_range categories) dates cats.
Proof.
  unfold mask_and, date_ge, date_le.
  revert cats. induction dates as [|d dates IH]; intros [|c cats]; simpl; auto.
  rewrite IH. unfold keep_cells. destruct (cell_day d); reflexivity.
Qed.

(** ** Filtering *)

Lemma filter_mask_Ok df date_range categories order_date category :
  lookup_col (cols df) "Order Date" = Some order_date ->
  dtype order_date = datetime64 ->
  lookup_col (cols df) "Category" = Some category ->
  filter_mask df date_range categories
  = Ok (zip_with (keep_cells date_range categories) (values order_date) (values category)).
Proof.
  intros Hod Hdt Hcat. unfold filter_mask, getitem, dt_date.
  rewrite Hod, Hcat. unfold mbind, result_bind, rbind. rewrite Hdt.
  unfold isin. rewrite mask_as_zip. reflexivity.
Qed.

Lemma filtered_df_Ok df date_range categories order_date category :
  lookup_col (cols df) "Order Date" = Some order_date ->
  dtype order_date = datetime64 ->
  lookup_col (cols df) "Category" = Some category ->
  filtered_df df date_range categories
  = Ok (bool_index df (zip_with (keep_cells date_range categories)
                                (values order_date) (values category))).
Proof.
  intros Hod Hdt Hcat. unfold filtered_df.
  rewrite (filter_mask_Ok df date_range categories _ _ Hod Hdt Hcat). reflexivity.
Qed.

Lemma selected_existsb c categories :
  existsb (cell_eqb c) categories = true <-> selected c categories.
Proof.
  unfold selected. rewrite existsb_exists. split; intros (x & Hx & Heq); exists x.
  - rewrite list_elem_of_In. auto.
  - rewrite <- list_elem_of_In. auto.
Qed.

(** The mask is true at a row exactly when the filter predicate holds of
    the row. *)
Lemma mask_lookup_kept df date_range categories order_date category i :
  lookup_col (cols df) "Order Date" = Some order_date ->
  lookup_col (cols df) "Category" = Some category ->
  zip_with (keep_cells date_range categories) (values order_date) (values category) !! i
  = Some true
  <-> kept df date_range categories i.
Proof.
  intros Hod Hcat. unfold kept, order_day, category_at. rewrite Hod, Hcat. simpl.
  rewrite lookup_zip_with.
  destruct (values order_date !! i) as [date|]; simpl;
    [|split; [discriminate | intros (d & c & H & _); discriminate]].
  destruct (values category !! i) as [cat|]; simpl;
    [|split; [discriminate | intros (d & c & _ & H & _); discriminate]].
  unfold keep_cells. destruct (cell_day date) as [d|]; simpl.
  - split.
    + intros H. injection H as H.
      apply andb_true_iff in H as [H Hsel]. apply andb_true_iff in H as [H1 H2].
      exists d, cat. repeat split; auto; try lia.
      apply selected_existsb, Hsel.
    + intros (d' & c & Hd & Hc & [H1 H2] & Hsel).
      injection Hd as <-. injection Hc as <-.
      apply selected_existsb in Hsel. rewrite Hsel.
      replace (fst date_range <=? d)%Z with true by (symmetry; lia).
      replace (d <=? snd date_range)%Z with true by (symmetry; lia).
      reflexivity.
  - split; [discriminate | intros (d & c & H & _); discriminate].
Qed.

Lemma mask_length df date_range categories order_date category :
  rectangular df ->
  lookup_col (cols df) "Order Date" = Some order_date ->
  lookup_col (cols df) "Category" = Some category ->
  length (zip_with (keep_cells date_range categories)
                   (values order_date) (values category)) = nrows df.
Proof.
  intros Hrect Hod Hcat. unfold rectangular in Hrect. rewrite Forall_forall in Hrect.
  pose proof (Hrect _ (lookup_col_In _ _ _ Hod)) as H1.
  pose proof (Hrect _ (lookup_col_In _ _ _ Hcat)) as H2.
  simpl in H1, H2. rewrite length_zip_with. lia.
Qed.

(** C3. On a normalised table the filter returns the rows at exactly
    the positions where the order day lies in the range, ends included,
    and the category is among the selected; the rows keep their order and
    none is repeated. *)
Theorem filter_keeps_exactly (df : DataFrame) (date_range : Z * Z) (categories : list Cell) :
  rectangular df ->
  normalized df ->
  "Category" ∈ columns df ->
  exists out positions,
    filtered_df df date_range categories = Ok out
    /\ rows out = map (row df) positions
    /\ StronglySorted lt positions
    /\ forall i, i ∈ positions <-> kept df date_range categories i.
Proof.
  intros Hrect (od & sd & Hod & Hdt & _ & _) Hcat.
  apply lookup_col_columns in Hcat as [cat Hcat].
  set (mask := zip_with (keep_cells date_range categories) (values od) (values cat)).
  exists (bool_index df mask), (true_positions 0 mask).
  split; [apply filtered_df_Ok; assumption|].
  split; [apply rows_bool_index; [assumption | eapply mask_length; eassumption]|].
  split; [apply true_positions_sorted|].
  intros i. rewrite true_positions_spec, Nat.sub_0_r.
  rewrite <- (mask_lookup_kept df date_range categories od cat i Hod Hcat).
  fold mask. split; [intros [_ H]; exact H | intros H; split; [lia | exact H]].
Qed.

Lemma sample_dataset_rectangular : rectangular sample_dataset.
Proof. unfold rectangular. simpl. repeat constructor. Qed.

Lemma sample_dataset_normalized : normalized sample_dataset.
Proof. unfold normalized. simpl. eexists _, _. repeat split. Qed.

Lemma filter_keeps_exactly_witness :
  (rectangular sample_dataset /\ normalized sample_dataset
   /\ "Category" ∈ columns sample_dataset)
  /\ exists out positions,
       filtered_df sample_dataset (day 2023 1 2, day 2023 1 3)
                   [Str "Furniture"; Str "Technology"] = Ok out
       /\ rows out = map (row sample_dataset) positions
       /\ StronglySorted lt positions
       /\ forall i, i ∈ positions
                    <-> kept sample_dataset (day 2023 1 2, day 2023 1 3)
                             [Str "Furniture"; Str "Technology"] i.
Proof.
  assert (H3 : "Category" ∈ columns sample_dataset) by decide_true.
  split; [auto using sample_dataset_rectangular, sample_dataset_normalized|].
  exact (filter_keeps_exactly sample_dataset _ _
           sample_dataset_rectangular sample_dataset_normalized H3).
Defined.

Example filter_sample_rows :
  rows <$> (match filtered_df sample_dataset (day 2023 1 2, day 2023 1 3)
                              [Str "Furniture"; Str "Technology"] with
            | Ok out => Some out
            | Raise _ => None
            end)
  = Some [row sample_dataset 1].
Proof. vm_compute. reflexivity. Qed.

(** C4. Filtering by a range and then by a range within it gives the
    table that one filter by the intersection of the two ranges gives,
    which is the filter by the inner range. *)
Theorem narrowing_filters_compose (df : DataFrame) (outer inner : Z * Z)
    (categories : list Cell) :
  normalized df ->
  "Category" ∈ columns df ->
  (fst outer <= fst inner)%Z ->
  (snd inner <= snd outer)%Z ->
  exists out,
    (first ← filtered_df df outer categories; filtered_df first inner categories) = Ok out
    /\ filtered_df df (Z.max (fst outer) (fst inner), Z.min (snd outer) (snd inner))
                   categories = Ok out
    /\ filtered_df df inner categories = Ok out.
Proof.
  intros (od & sd & Hod & Hdt & _ & _) Hcat Hlo Hhi.
  apply lookup_col_columns in Hcat as [cat Hcat].
  exists (bool_index df (zip_with (keep_cells inner categories) (values od) (values cat))).
  assert (Hboth : forall date c,
             keep_cells outer categories date c && keep_cells inner categories date c
             = keep_cells inner categories date c).
  { intros date c. unfold keep_cells. destruct (cell_day date) as [d|]; simpl; [|reflexivity].
    destruct (existsb (cell_eqb c) categories); rewrite ?andb_false_r; [|reflexivity].
    rewrite !andb_true_r.
    destruct (fst inner <=? d)%Z eqn:E1, (d <=? snd inner)%Z eqn:E2;
      rewrite ?andb_false_r; try reflexivity.
    replace (fst outer <=? d)%Z with true by (symmetry; lia).
    replace (d <=? snd outer)%Z with true by (symmetry; lia).
    reflexivity. }
  split; [|split].
  - rewrite (filtered_df_Ok df outer categories od cat Hod Hdt Hcat).
    cbn [mbind result_bind rbind].
    set (m1 := zip_with (keep_cells outer categories) (values od) (values cat)).
    rewrite (filtered_df_Ok (bool_index df m1) inner categories
               (mkSeries (dtype od) (select m1 (values od)))
               (mkSeries (dtype cat) (select m1 (values cat)))).
    + cbn [values]. rewrite <- select_zip_with, bool_index_twice.
      do 2 f_equal. unfold m1.
      generalize (values od) (values cat).
      induction l as [|x l IH]; intros [|y k]; simpl; auto.
      rewrite IH, Hboth. reflexivity.
    + rewrite lookup_col_bool_index, Hod. reflexivity.
    + exact Hdt.
    + rewrite lookup_col_bool_index, Hcat. reflexivity.
  - rewrite (filtered_df_Ok df _ categories od cat Hod Hdt Hcat).
    do 2 f_equal. apply zip_with_ext; auto.
    intros date c. unfold keep_cells. cbn [fst snd].
    rewrite Z.max_r, Z.min_r by lia. reflexivity.
  - apply filtered_df_Ok; assumption.
Qed.

Lemma narrowing_filters_compose_witness :
  (normalized sample_dataset /\ "Category" ∈ columns sample_dataset
   /\ (fst (day 2023 1 1, day 2023 1 3) <= fst (day 2023 1 2, day 2023 1 3))%Z
   /\ (snd (day 2023 1 2, day 2023 1 3) <= snd (day 2023 1 1, day 2023 1 3))%Z)
  /\ exists out,
       (first ← filtered_df sample_dataset (day 2023 1 1, day 2023 1 3) all_categories;
        filtered_df first (day 2023 1 2, day 2023 1 3) all_categories) = Ok out
       /\ filtered_df sample_dataset
            (Z.max (fst (day 2023 1 1, day 2023 1 3)) (fst (day 2023 1 2, day 2023 1 3)),
             Z.min (snd (day 2023 1 1, day 2023 1 3)) (snd (day 2023 1 2, day 2023 1 3)))
            all_categories = Ok out
       /\ filtered_df sample_dataset (day 2023 1 2, day 2023 1 3) all_categories = Ok out.
Proof.
  assert (H2 : "Category" ∈ columns sample_dataset) by decide_true.
  assert (H3 : (fst (day 2023 1 1, day 2023 1 3) <= fst (day 2023 1 2, day 2023 1 3))%Z)
    by (vm_compute; discriminate).
  assert (H4 : (snd (day 2023 1 2, day 2023 1 3) <= snd (day 2023 1 1, day 2023 1 3))%Z)
    by (vm_compute; discriminate).
  split; [auto using sample_dataset_normalized|].
  exact (narrowing_filters_compose sample_dataset _ _ all_categories
           sample_dataset_normalized H2 H3 H4).
Defined.

(** ** Reasoning about a run *)

Section Keeps.
Context {I : State -> Prop}.

Lemma keeps_ret {A} (a : A) (Q : A -> Prop) : Q a -> keeps I (mret a) Q.
Proof. intros H st HI. split; [exact HI|]. intros a' E. injection E as <-. exact H. Qed.

Lemma keeps_bind {A B} (m : M A) (k : A -> M B) (Q : A -> Prop) (R : B -> Prop) :
  keeps I m Q -> (forall a, Q a -> keeps I (k a) R) -> keeps I (m ≫= k) R.
Proof.
  intros Hm Hk st HI. destruct (Hm st HI) as [HI' Hq].
  unfold mbind, M_bind. destruct (m st) as [st' [a|e]]; simpl in *.
  - apply (Hk a (Hq a eq_refl) st' HI').
  - split; [exact HI'|]. intros b E. discriminate.
Qed.

Lemma keeps_weaken {A} (m : M A) (Q Q' : A -> Prop) :
  keeps I m Q -> (forall a, Q a -> Q' a) -> keeps I m Q'.
Proof.
  intros Hm Himp st HI. destruct (Hm st HI) as [HI' Hq]. split; auto.
Qed.

Lemma keeps_lift {A} (r : result A) (Q : A -> Prop) :
  (forall a, r = Ok a -> Q a) -> keeps I (lift r) Q.
Proof. intros H st HI. split; [exact HI | exact H]. Qed.

Lemma keeps_raise {A} (e : Exn) (Q : A -> Prop) : keeps I (raise e) Q.
Proof. intros st HI. split; [exact HI|]. intros a E. discriminate. Qed.

Lemma keeps_emit (e : Event) (Q : unit -> Prop) :
  (forall st, I st -> I (mkState (heap st) (out st ++ [e]))) -> Q tt ->
  keeps I (emit e) Q.
Proof.
  intros H HQ st HI. split; [apply H, HI|]. intros [] _. exact HQ.
Qed.

Lemma keeps_alloc (d : DataFrame) (Q : nat -> Prop) :
  (forall st, I st -> I (mkState (heap st ++ [d]) (out st)) /\ Q (length (heap st))) ->
  keeps I (alloc d) Q.
Proof.
  intros H st HI. destruct (H st HI) as [HI' HQ]. split; [exact HI'|].
  intros a E. injection E as <-. exact HQ.
Qed.

Lemma keeps_load (l : nat) (Q : DataFrame -> Prop) :
  (forall st d, I st -> heap st !! l = Some d -> Q d) -> keeps I (load l) Q.
Proof.
  intros H st HI. split; [exact HI|]. unfold load. simpl.
  intros a E. destruct (heap st !! l) as [d|] eqn:El; [|discriminate].
  injection E as <-. eapply H; eauto.
Qed.

Lemma keeps_store (l : nat) (d : DataFrame) (Q : unit -> Prop) :
  (forall st, I st -> I (mkState (<[l := d]> (heap st)) (out st))) -> Q tt ->
  keeps I (store l d) Q.
Proof.
  intros H HQ st HI. split; [apply H, HI|]. intros [] _. exact HQ.
Qed.

Lemma keeps_try {A} (m : M A) (Q : A -> Prop) (R : result A -> Prop) :
  keeps I m Q -> (forall r, (forall a, r = Ok a -> Q a) -> R r) -> keeps I (try_ m) R.
Proof.
  intros Hm HR st HI. destruct (Hm st HI) as [HI' Hq].
  unfold try_. destruct (m st) as [st' r]; simpl in *.
  split; [exact HI'|]. intros r' E. injection E as <-. apply HR, Hq.
Qed.

End Keeps.

(** Steps with the postcondition they establish by themselves. *)
Lemma keeps_lift_eq {I : State -> Prop} {A} (r : result A) :
  keeps I (lift r) (fun a => r = Ok a).
Proof. apply keeps_lift. auto. Qed.

Lemma keeps_raise_False {I : State -> Prop} {A} (e : Exn) :
  keeps I (raise e : M A) (fun _ => False).
Proof. apply keeps_raise. Qed.

Lemma keeps_try_result {I : State -> Prop} {A} (m : M A) (Q : A -> Prop) :
  keeps I m Q -> keeps I (try_ m) (fun r => forall a, r = Ok a -> Q a).
Proof. intros H. eapply keeps_try; [exact H | auto]. Qed.

(** ** The source table is left as it was *)

Lemma frame_emit h0 e st :
  frame h0 st -> frame h0 (mkState (heap st) (out st ++ [e])).
Proof. intros H. exact H. Qed.

Lemma frame_alloc h0 d st :
  frame h0 st ->
  frame h0 (mkState (heap st ++ [d]) (out st)) /\ (length h0 <= length (heap st))%nat.
Proof.
  intros [fresh H]. split.
  - exists (fresh ++ [d])%list. simpl. rewrite H, app_assoc. reflexivity.
  - rewrite H, length_app. lia.
Qed.

Lemma frame_store_fresh h0 l d st :
  (length h0 <= l)%nat -> frame h0 st ->
  frame h0 (mkState (<[l := d]> (heap st)) (out st)).
Proof.
  intros Hl [fresh H]. exists (<[(l - length h0)%nat := d]> fresh). simpl.
  rewrite H. apply insert_app_r_alt. exact Hl.
Qed.

Lemma frame_lookup h0 l d st :
  h0 !! l = Some d -> frame h0 st -> heap st !! l = Some d.
Proof.
  intros Hl [fresh H]. rewrite H. apply lookup_app_l_Some. exact Hl.
Qed.

Lemma frame_store_same h0 l d st :
  h0 !! l = Some d -> frame h0 st ->
  frame h0 (mkState (<[l := d]> (heap st)) (out st)).
Proof.
  intros Hl Hf. destruct Hf as [fresh H]. exists fresh. simpl.
  rewrite list_insert_id; [exact H|].
  rewrite H. apply lookup_app_l_Some. exact Hl.
Qed.

Lemma keeps_frame_emit h0 e : keeps (frame h0) (emit e) (fun _ => True).
Proof. apply keeps_emit; [intros; apply frame_emit; assumption | exact I]. Qed.

Lemma keeps_frame_alloc h0 d :
  keeps (frame h0) (alloc d) (fun l => (length h0 <= l)%nat).
Proof. apply keeps_alloc. intros st H. apply frame_alloc, H. Qed.

Lemma keeps_frame_load h0 l : keeps (frame h0) (load l) (fun _ => True).
Proof. apply keeps_load. auto. Qed.

Lemma keeps_frame_load_old h0 l d :
  h0 !! l = Some d -> keeps (frame h0) (load l) (fun d' => d' = d).
Proof.
  intros Hl. apply keeps_load. intros st d' Hf Hd'.
  rewrite (frame_lookup h0 l d st Hl Hf) in Hd'. congruence.
Qed.

(** Assigning a column of an object allocated during the run. *)
Lemma keeps_frame_assign_fresh h0 l name s :
  (length h0 <= l)%nat -> keeps (frame h0) (assign_column l name s) (fun _ => True).
Proof.
  intros Hl. unfold assign_column.
  eapply keeps_bind; [apply keeps_frame_load|]. intros d _.
  apply keeps_store; [|exact I]. intros st. apply frame_store_fresh, Hl.
Qed.

(** Assigning to a column of the source table the column it already
    has. *)
Lemma keeps_frame_assign_same h0 l d name s :
  h0 !! l = Some d -> lookup_col (cols d) name = Some s ->
  keeps (frame h0) (assign_column l name s) (fun _ => True).
Proof.
  intros Hl Hs. unfold assign_column.
  eapply keeps_bind; [apply (keeps_frame_load_old h0 l d Hl)|]. intros d' ->.
  rewrite (setitem_same d name s Hs).
  apply keeps_store; [|exact I]. intros st. apply frame_store_same, Hl.
Qed.

Lemma to_datetime_normalized parse_datetime d name s s' :
  lookup_col (cols d) name = Some s -> dtype s = datetime64 ->
  getitem d name ≫= to_datetime parse_datetime = Ok s' -> s' = s.
Proof.
  intros Hs Hdt. unfold getitem. rewrite Hs. cbn [mbind result_bind rbind].
  unfold to_datetime. rewrite Hdt. congruence.
Qed.

Lemma convert_dates_frame parse_datetime h0 df d :
  h0 !! df = Some d -> normalized d ->
  keeps (frame h0) (convert_dates parse_datetime df) (fun _ => True).
Proof.
  intros Hdf (od & sd & Hod & Hodt & Hsd & Hsdt). unfold convert_dates.
  eapply keeps_bind; [apply (keeps_frame_load_old h0 df d Hdf)|]. intros d' ->.
  eapply keeps_bind; [apply keeps_lift_eq|]. intros s Hs.
  apply (to_datetime_normalized parse_datetime d _ od) in Hs; [subst s | assumption..].
  eapply keeps_bind; [apply (keeps_frame_assign_same h0 df d _ od Hdf Hod)|]. intros _ _.
  eapply keeps_bind; [apply (keeps_frame_load_old h0 df d Hdf)|]. intros d' ->.
  eapply keeps_bind; [apply keeps_lift_eq|]. intros s Hs.
  apply (to_datetime_normalized parse_datetime d _ sd) in Hs; [subst s | assumption..].
  apply (keeps_frame_assign_same h0 df d _ sd Hdf Hsd).
Qed.

Lemma keeps_lift_any {I : State -> Prop} {A} (r : result A) :
  keeps I (lift r) (fun _ => True).
Proof. apply keeps_lift. auto. Qed.

Lemma keeps_ret_any {I : State -> Prop} {A} (a : A) :
  keeps I (mret a) (fun _ => True).
Proof. apply keeps_ret. constructor. Qed.

(** One step of a run under [frame]: the rule for the construct at the
    head of the computation.  Only an allocation tells something of the
    value it returns: the object is new. *)
Ltac frame_primitive :=
  first [ apply keeps_frame_emit
        | apply keeps_frame_alloc
        | apply keeps_frame_load
        | apply keeps_frame_assign_fresh; assumption
        | apply keeps_lift_any
        | apply keeps_ret_any ].

Ltac frame_walk :=
  repeat
    lazymatch goal with
    | |- keeps _ (mbind _ _) _ => eapply keeps_bind; [ | intros ? ? ]
    | |- keeps _ (raise _) _ => apply keeps_raise
    | |- keeps _ (try_ _) _ =>
        eapply keeps_weaken; [ apply keeps_try_result | intros ? ?; exact I ]
    | |- keeps _ (convert_dates _ _) _ =>
        eapply keeps_weaken;
        [ eapply convert_dates_frame; eassumption | intros ? ?; exact I ]
    | |- keeps _ (match ?x with _ => _ end) _ => destruct x
    | |- keeps _ _ _ =>
        eapply keeps_weaken;
        [ frame_primitive
        | first [ intros ? ?; eassumption | intros; exact I ] ]
    end.

Lemma show_analysis_frame parse_datetime csv_field env w h0 df d :
  h0 !! df = Some d -> normalized d ->
  keeps (frame h0) (show_analysis parse_datetime csv_field env w df) (fun _ => True).
Proof.
  intros Hdf Hnorm.
  unfold show_analysis, date_bounds, filter_data, kpi_panel, first_charts, second_charts,
    forecast_panel, insights_panel, raw_data_panel, create_sales_forecast, subscript, plotly.
  frame_walk.
Qed.

(** C8. A run of [show_analysis] on a normalised table leaves the table
    as it was: after the run, whatever its outcome, the heap is the heap
    before the run followed by the objects the run allocated, so the
    filtered table, the summaries and the forecast are new objects and
    the source table has the rows and columns it had. *)
Theorem show_analysis_leaves_dataset (parse_datetime : string -> option Z)
    (csv_field : Dtype -> Cell -> string) (env : Env) (w : Widgets)
    (st : State) (df : nat) (d : DataFrame) :
  heap st !! df = Some d ->
  normalized d ->
  heap (fst (show_analysis parse_datetime csv_field env w df st)) !! df = Some d
  /\ exists fresh,
       heap (fst (show_analysis parse_datetime csv_field env w df st))
       = (heap st ++ fresh)%list.
Proof.
  intros Hdf Hnorm.
  destruct (show_analysis_frame parse_datetime csv_field env w (heap st) df d Hdf Hnorm st)
    as [Hframe _].
  { exists []. rewrite app_nil_r. reflexivity. }
  split; [|exact Hframe].
  eapply frame_lookup; eassumption.
Qed.

Lemma show_analysis_leaves_dataset_witness :
  (heap (mkState [sample_dataset] []) !! 0%nat = Some sample_dataset
   /\ normalized sample_dataset)
  /\ heap (fst (show_analysis iso_datetime plain_field env_full sample_widgets 0
                  (mkState [sample_dataset] []))) !! 0%nat = Some sample_dataset
  /\ exists fresh,
       heap (fst (show_analysis iso_datetime plain_field env_full sample_widgets 0
                    (mkState [sample_dataset] [])))
       = (heap (mkState [sample_dataset] []) ++ fresh)%list.
Proof.
  assert (H1 : heap (mkState [sample_dataset] []) !! 0%nat = Some sample_dataset)
    by reflexivity.
  split; [auto using sample_dataset_normalized|].
  exact (show_analysis_leaves_dataset iso_datetime plain_field env_full sample_widgets
           (mkState [sample_dataset] []) 0 sample_dataset H1 sample_dataset_normalized).
Defined.

(** The hypothesis matters: on a table whose dates are still text the
    first step of [show_analysis] rewrites the two date columns of the
    table it was given. *)
Example show_analysis_converts_text_dates :
  heap (fst (show_analysis iso_datetime plain_field env_full sample_widgets 0
               (mkState [sample_data] []))) !! 0%nat = Some sample_dataset.
Proof. vm_compute. reflexivity. Qed.

Example show_analysis_run_completes :
  snd (show_analysis iso_datetime plain_field env_full sample_widgets 0
         (mkState [sample_dataset] [])) = Ok tt
  /\ length (heap (fst (show_analysis iso_datetime plain_field env_full sample_widgets 0
                          (mkState [sample_dataset] [])))) = 10%nat.
Proof. split; vm_compute; reflexivity. Qed.

(** ** A failing forecast ends the run *)

Lemma shows_only_emit (P : Event -> Prop) out0 e st :
  P e -> shows_only P out0 st ->
  shows_only P out0 (mkState (heap st) (out st ++ [e])).
Proof.
  intros He (events & Hout & Hall). exists (events ++ [e])%list. simpl. split.
  - rewrite Hout, app_assoc. reflexivity.
  - apply Forall_app. split; [exact Hall | repeat constructor; exact He].
Qed.

Lemma keeps_shows_emit (P : Event -> Prop) out0 e :
  P e -> keeps (shows_only P out0) (emit e) (fun _ => True).
Proof.
  intros He. apply keeps_emit; [|exact Logic.I].
  intros st. apply shows_only_emit, He.
Qed.

Lemma keeps_shows_alloc (P : Event -> Prop) out0 d :
  keeps (shows_only P out0) (alloc d) (fun _ => True).
Proof. apply keeps_alloc. intros st H. split; [exact H | exact Logic.I]. Qed.

Lemma keeps_shows_load (P : Event -> Prop) out0 l :
  keeps (shows_only P out0) (load l) (fun _ => True).
Proof. apply keeps_load. auto. Qed.

Lemma keeps_shows_store (P : Event -> Prop) out0 l d :
  keeps (shows_only P out0) (store l d) (fun _ => True).
Proof. apply keeps_store; [|exact Logic.I]. intros st H. exact H. Qed.

Ltac not_past_forecast :=
  let H := fresh in
  intros [H | [(? & ? & ? & H) | H]]; discriminate H.

Ltac shows_primitive :=
  first [ apply keeps_shows_emit; not_past_forecast
        | apply keeps_shows_alloc
        | apply keeps_shows_load
        | apply keeps_shows_store
        | apply keeps_lift_eq
        | apply keeps_ret_any ].

Ltac shows_walk :=
  repeat
    (try contradiction;
     lazymatch goal with
     | |- keeps _ (mbind _ _) _ => eapply keeps_bind; [ | intros ? ? ]
     | |- keeps _ (raise _) _ => first [ apply keeps_raise_False | apply keeps_raise ]
     | |- keeps _ (try_ _) _ =>
         eapply keeps_weaken; [ apply keeps_try_result | intros ? ?; exact Logic.I ]
     | |- keeps _ (match ?x with _ => _ end) _ => destruct x
     | |- keeps _ _ _ =>
         eapply keeps_weaken;
         [ shows_primitive
         | first [ intros ? ?; eassumption | intros; exact Logic.I ] ]
     end).

(** The forecast step does not return when the forecast is unavailable:
    either [create_sales_forecast] hands back [None] and the first
    subscript of it raises, or the library raises. *)
Lemma forecast_panel_raises env w filtered out0 :
  forecast_unavailable env ->
  keeps (shows_only (fun e => ~ past_forecast e) out0)
        (forecast_panel env w filtered) (fun _ => False).
Proof.
  intros Hun. unfold forecast_panel.
  eapply keeps_bind; [apply keeps_shows_emit; not_past_forecast|]. intros _ _.
  assert (Hcreate :
            keeps (shows_only (fun e => ~ past_forecast e) out0)
                  (create_sales_forecast env filtered (forecast_days w))
                  (fun r => r = (None, None))).
  { unfold create_sales_forecast.
    destruct (PROPHET_AVAILABLE env) eqn:Eprophet; cbn [negb].
    - destruct Hun as [Hun|Hun]; [congruence|].
      eapply keeps_bind; [apply keeps_shows_load|]. intros d _.
      eapply keeps_bind; [apply keeps_lift_eq|]. intros grouped _.
      eapply keeps_bind; [apply keeps_shows_alloc|]. intros sales_data _.
      eapply keeps_bind; [apply keeps_shows_load|]. intros history _.
      eapply keeps_bind; [apply keeps_lift_eq|]. intros predicted Hp.
      destruct (Hun history (forecast_days w)) as [e He]. congruence.
    - eapply keeps_bind; [apply keeps_shows_emit; not_past_forecast|]. intros _ _.
      apply keeps_ret. reflexivity. }
  eapply keeps_bind; [exact Hcreate|].
  intros [sales_data forecast] E. injection E as -> ->.
  eapply keeps_bind with (Q := fun _ => True).
  { unfold plotly. destruct (PLOTLY_AVAILABLE env);
      [apply keeps_ret_any | apply keeps_raise]. }
  intros _ _.
  eapply keeps_bind with (Q := fun _ => False).
  { unfold subscript. apply keeps_raise. }
  intros s [].
Qed.

Lemma show_analysis_stops_at_forecast parse_datetime csv_field env w df out0 :
  forecast_unavailable env ->
  keeps (shows_only (fun e => ~ past_forecast e) out0)
        (show_analysis parse_datetime csv_field env w df) (fun _ => True).
Proof.
  intros Hun.
  unfold show_analysis, convert_dates, date_bounds, filter_data, kpi_panel, first_charts,
    second_charts, assign_column, plotly.
  repeat
    (lazymatch goal with
     | |- keeps _ (mbind _ (forecast_panel _ _ _)) _ =>
         eapply keeps_bind;
         [ apply forecast_panel_raises; exact Hun
         | let a := fresh in let F := fresh in intros a F; exact (False_ind _ F) ]
     | |- keeps _ (mbind _ _) _ => eapply keeps_bind; [ | intros ? ? ]
     | |- keeps _ (raise _) _ => apply keeps_raise
     | |- keeps _ (try_ _) _ =>
         eapply keeps_weaken; [ apply keeps_try_result | intros ? ?; exact Logic.I ]
     | |- keeps _ (match ?x with _ => _ end) _ => destruct x
     | |- keeps _ _ _ =>
         eapply keeps_weaken;
         [ shows_primitive
         | first [ intros ? ?; eassumption | intros; exact Logic.I ] ]
     end).
Qed.

(** C6, as the code behaves.  When the forecasting library is missing or
    fails on every history, a run of [show_analysis] shows nothing of what
    follows the forecast: no insights, no download of the filtered rows,
    no closing message. *)
Theorem forecast_failure_stops_the_page (parse_datetime : string -> option Z)
    (csv_field : Dtype -> Cell -> string) (env : Env) (w : Widgets)
    (df : nat) (st : State) :
  forecast_unavailable env ->
  exists events,
    out (fst (show_analysis parse_datetime csv_field env w df st))
    = (out st ++ events)%list
    /\ Forall (fun e => ~ past_forecast e) events.
Proof.
  intros Hun.
  destruct (show_analysis_stops_at_forecast parse_datetime csv_field env w df (out st) Hun st)
    as [H _]; [|exact H].
  exists []. split; [rewrite app_nil_r; reflexivity | constructor].
Qed.

Lemma forecast_failure_stops_the_page_witness :
  forecast_unavailable env_no_prophet
  /\ exists events,
       out (fst (show_analysis iso_datetime plain_field env_no_prophet sample_widgets 0
                   (mkState [sample_dataset] [])))
       = (out (mkState [sample_dataset] []) ++ events)%list
       /\ Forall (fun e => ~ past_forecast e) events.
Proof.
  assert (H : forecast_unavailable env_no_prophet) by (left; reflexivity).
  split; [exact H|].
  exact (forecast_failure_stops_the_page iso_datetime plain_field env_no_prophet
           sample_widgets 0 (mkState [sample_dataset] []) H).
Defined.

(** The run on the sample without the forecasting library: the message of
    [create_sales_forecast] is the last thing shown, and the run ends in
    the exception raised by [sales_data['ds']]. *)
Example no_prophet_run_raises :
  snd (show_analysis iso_datetime plain_field env_no_prophet sample_widgets 0
         (mkState [sample_dataset] []))
  = Raise (TypeError "'NoneType' object is not subscriptable")
  /\ last (out (fst (show_analysis iso_datetime plain_field env_no_prophet sample_widgets 0
                       (mkState [sample_dataset] []))))
     = Some (st_error "Prophet is not available. Forecasting disabled.").
Proof. split; vm_compute; reflexivity. Qed.

(** With the library the same run shows the insights and the download. *)
Example full_run_shows_insights :
  Exists past_forecast
    (out (fst (show_analysis iso_datetime plain_field env_full sample_widgets 0
                 (mkState [sample_dataset] [])))).
Proof.
  apply Exists_exists. exists (st_subheader "Business Insights"). split.
  - apply list_elem_of_In. vm_compute. repeat (first [left; reflexivity | right]).
  - left. reflexivity.
Qed.

(** ** The export *)

Lemma columns_bool_index df mask : columns (bool_index df mask) = columns df.
Proof.
  unfold columns, bool_index. cbn [cols]. rewrite map_map. reflexivity.
Qed.

Lemma csv_header_bool_index csv_field df mask :
  csv_header csv_field (bool_index df mask) = csv_header csv_field df.
Proof. unfold csv_header. rewrite columns_bool_index. reflexivity. Qed.

Lemma csv_record_bool_index csv_field df mask r :
  csv_record csv_field (bool_index df mask) r = csv_record csv_field df r.
Proof.
  unfold csv_record, bool_index. cbn [cols]. rewrite map_map. reflexivity.
Qed.

(** C7, as the code has it.  The export of the filtered table is the
    header of the table's columns followed by one record for each row the
    filter keeps, in the order of the rows in the table. *)
Theorem export_follows_table_order (csv_field : Dtype -> Cell -> string)
    (df : DataFrame) (date_range : Z * Z) (categories : list Cell) :
  rectangular df ->
  normalized df ->
  "Category" ∈ columns df ->
  exists out positions,
    filtered_df df date_range categories = Ok out
    /\ StronglySorted lt positions
    /\ (forall i, i ∈ positions <-> kept df date_range categories i)
    /\ to_csv csv_field out
       = String.concat ""
           (csv_header csv_field df
            :: map (fun i => csv_record csv_field df (row df i)) positions).
Proof.
  intros Hrect (od & sd & Hod & Hdt & _ & _) Hcat.
  apply lookup_col_columns in Hcat as [cat Hcat].
  set (mask := zip_with (keep_cells date_range categories) (values od) (values cat)).
  exists (bool_index df mask), (true_positions 0 mask).
  split; [apply filtered_df_Ok; assumption|].
  split; [apply true_positions_sorted|].
  split.
  - intros i. rewrite true_positions_spec, Nat.sub_0_r.
    rewrite <- (mask_lookup_kept df date_range categories od cat i Hod Hcat).
    fold mask. split; [intros [_ H]; exact H | intros H; split; [lia | exact H]].
  - unfold to_csv. rewrite csv_header_bool_index.
    rewrite rows_bool_index by (try assumption; eapply mask_length; eassumption).
    rewrite map_map. do 2 f_equal. apply map_ext. intros i.
    apply csv_record_bool_index.
Qed.

Lemma export_follows_table_order_witness :
  (rectangular sample_dataset /\ normalized sample_dataset
   /\ "Category" ∈ columns sample_dataset)
  /\ exists out positions,
       filtered_df sample_dataset (day 2023 1 1, day 2023 1 3) all_categories = Ok out
       /\ StronglySorted lt positions
       /\ (forall i, i ∈ positions
                     <-> kept sample_dataset (day 2023 1 1, day 2023 1 3) all_categories i)
       /\ to_csv plain_field out
          = String.concat ""
              (csv_header plain_field sample_dataset
               :: map (fun i => csv_record plain_field sample_dataset
                                  (row sample_dataset i)) positions).
Proof.
  assert (H3 : "Category" ∈ columns sample_dataset) by decide_true.
  split; [auto using sample_dataset_rectangular, sample_dataset_normalized|].
  exact (export_follows_table_order plain_field sample_dataset _ _
           sample_dataset_rectangular sample_dataset_normalized H3).
Defined.

(** C7, counterexample.  The export of the sample lists the orders of
    1, 2 and 3 January in that order: earliest first. *)
Lemma export_is_not_sorted_descending :
  exists out,
    filtered_df sample_dataset (day 2023 1 1, day 2023 1 3) all_categories = Ok out
    /\ to_csv plain_field out
       = "Order Date,Ship Date,Category,Sub-Category,Product Name,Sales,Discount,Profit,Quantity
2023-01-01,2023-01-02,Technology,Phones,iPhone 14,999.99,0.1,199.99,1
2023-01-02,2023-01-03,Furniture,Chairs,Office Chair,299.99,0.0,59.99,1
2023-01-03,2023-01-04,Office Supplies,Binders,Binder Clips,15.99,0.05,3.19,5
"
    /\ exported_order_days out
       = [Some (day 2023 1 1); Some (day 2023 1 2); Some (day 2023 1 3)]
    /\ ~ descending (exported_order_days out).
Proof.
  eexists. split; [vm_compute; reflexivity|].
  split; [vm_compute; reflexivity|].
  split; [vm_compute; reflexivity|].
  intros H. vm_compute in H.
  inversion H as [|a l Hrest Hall]; subst.
  inversion Hall as [|b l' Hab _]; subst.
  apply Hab. reflexivity.
Qed.

(** ** Ratios on a table without rows *)

Lemma negative_profit_pct_without_rows df profit :
  getitem df "Profit" = Ok profit -> values profit = [] -> len df = 0%nat ->
  negative_profit_pct df = Ok NaN.
Proof.
  intros Hp Hv Hlen. unfold negative_profit_pct.
  rewrite Hp. cbn [mbind result_bind rbind]. unfold lt_zero. rewrite Hv. cbn.
  rewrite Hlen. reflexivity.
Qed.

(** The ratios, each by itself, at a table without rows.  With no
    category selected the filtered table has no row; the guarded margin
    is 0, and the share of orders with a negative profit would be 0/0,
    NaN, as would the average order value. *)
Example unguarded_ratios_without_rows :
  exists out,
    filtered_df sample_dataset (date_range nothing_selected) (categories nothing_selected)
    = Ok out
    /\ len out = 0%nat
    /\ negative_profit_pct out = Ok NaN
    /\ exists k, calculate_kpis out = Ok k
         /\ profit_margin k = 0%Q
         /\ avg_order_value k = NaN.
Proof.
  eexists. split; [vm_compute; reflexivity|].
  split; [reflexivity|].
  split; [vm_compute; reflexivity|].
  eexists. split; [vm_compute; reflexivity|].
  split; reflexivity.
Qed.

(** In a run the share is not computed for such a table: the forecast
    comes first, and the forecaster refuses a history of fewer than two
    days.  The last part of the file shows it for every table. *)
Example no_rows_run_raises :
  snd (show_analysis iso_datetime plain_field env_full nothing_selected 0
         (mkState [sample_dataset] []))
  = Raise (ValueError "Dataframe has less than 2 non-NaN rows.").
Proof. vm_compute. reflexivity. Qed.

(** ** Display names *)

Lemma substring_whole n t : (String.length t <= n)%nat -> substring 0 n t = t.
Proof.
  revert n. induction t as [|c t IH]; intros [|n] H; simpl in *; try reflexivity; try lia.
  rewrite IH by lia. reflexivity.
Qed.

Lemma str_accessor_texts names : str_accessor (map Str names) = true.
Proof. destruct names; reflexivity. Qed.

(** Every name gets the three dots, the short ones after the whole
    name. *)
Lemma short_name_of_short_names names :
  Forall (fun t => (String.length t <= 30)%nat) names ->
  short_name (mkSeries object_ (map Str names))
  = Ok (mkSeries object_ (map (fun t => Str (t +:+ "...")) names)).
Proof.
  intros H. unfold short_name, str_prefix_plus. cbn [dtype values].
  rewrite str_accessor_texts. do 2 f_equal. rewrite map_map. apply map_ext_in. intros t Ht.
  rewrite Forall_forall in H. rewrite <- list_elem_of_In in Ht.
  rewrite (substring_whole 30 t (H t Ht)). reflexivity.
Qed.

Lemma short_name_truncates t :
  short_name (mkSeries object_ [Str t])
  = Ok (mkSeries object_ [Str (substring 0 30 t +:+ "...")]).
Proof. reflexivity. Qed.

(** C10, the code at a short name.  The nine characters of "iPhone 14"
    come out with the three dots appended, and so do the names of the
    sample in the ranking of the page. *)
Theorem short_name_appends_dots_to_short_names :
  short_name (mkSeries object_ [Str "iPhone 14"])
  = Ok (mkSeries object_ [Str "iPhone 14..."])
  /\ (d ← heap (fst (show_analysis iso_datetime plain_field env_full sample_widgets 0
                       (mkState [sample_dataset] []))) !! 6%nat;
      lookup_col (cols d) "Short Name")
     = Some (mkSeries object_
               [Str "iPhone 14..."; Str "Office Chair..."; Str "Binder Clips..."]).
Proof. split; vm_compute; reflexivity. Qed.

Example short_name_of_a_long_name :
  short_name (mkSeries object_ [Str "Fellowes PB500 Electric Punch Plastic Comb Binding Machine"])
  = Ok (mkSeries object_ [Str "Fellowes PB500 Electric Punch ..."]).
Proof. vm_compute. reflexivity. Qed.

(** ** The upload is normalised before it is analysed *)

Lemma lookup_set_col_same cs name s : lookup_col (set_col cs name s) name = Some s.
Proof.
  induction cs as [|[n s0] cs IH]; simpl.
  - rewrite String.eqb_refl. reflexivity.
  - destruct (String.eqb n name) eqn:E; simpl; rewrite E; auto.
Qed.

Lemma lookup_set_col_other cs name name' s :
  name <> name' -> lookup_col (set_col cs name s) name' = lookup_col cs name'.
Proof.
  intros Hne. induction cs as [|[n s0] cs IH]; simpl.
  - destruct (String.eqb_spec name name'); [contradiction|reflexivity].
  - destruct (String.eqb_spec n name) as [->|Hn]; simpl.
    + destruct (String.eqb_spec name name'); [contradiction|reflexivity].
    + destruct (String.eqb n name'); auto.
Qed.

Lemma to_datetime_dtype parse_datetime s s' : to_datetime parse_datetime s = Ok s' -> dtype s' = datetime64.
Proof.
  unfold to_datetime. destruct (dtype s) eqn:E; try discriminate;
    try (destruct (rmapM _ _); simpl; [intros H; injection H as <-; reflexivity | discriminate]).
  intros H. injection H as <-. exact E.
Qed.

(** After [convert_dates] has returned, the table is normalised. *)
Lemma convert_dates_normalizes parse_datetime df st st' :
  convert_dates parse_datetime df st = (st', Ok tt) ->
  out st' = out st /\
  exists d, heap st' !! df = Some d /\ normalized d.
Proof.
  unfold convert_dates, assign_column, load, store, lift, mbind, M_bind. simpl.
  destruct (heap st !! df) as [d|] eqn:Hd; [|intros [=]].
  assert (Hlt : (df < length (heap st))%nat) by (eapply lookup_lt_Some; eauto).
  destruct (getitem d "Order Date") as [od0|] eqn:Hod0; simpl; [|intros [=]].
  destruct (to_datetime parse_datetime od0) as [od|] eqn:Hod; simpl; [|intros [=]].
  rewrite list_lookup_insert_eq by exact Hlt.
  destruct (getitem (setitem d "Order Date" od) "Ship Date") as [sd0|] eqn:Hsd0; simpl;
    [|intros [=]].
  destruct (to_datetime parse_datetime sd0) as [sd|] eqn:Hsd; simpl; [|intros [=]].
  intros H. injection H as <-. simpl.
  split; [reflexivity|].
  rewrite list_insert_insert_eq.
  rewrite list_lookup_insert_eq by exact Hlt.
  eexists. split; [reflexivity|].
  exists od, sd. unfold setitem. cbn [cols].
  rewrite lookup_set_col_other by discriminate. rewrite !lookup_set_col_same.
  repeat split; eapply to_datetime_dtype; eauto.
Qed.

(** Reading a normal return backwards. *)
Lemma bind_returns {A B} (m : M A) (k : A -> M B) st st' b :
  (m ≫= k) st = (st', Ok b) ->
  exists a s, m st = (s, Ok a) /\ k a s = (st', Ok b).
Proof.
  unfold mbind, M_bind. destruct (m st) as [s [a|e]]; [eauto | intros [=]].
Qed.

Lemma emit_returns e st st' u :
  emit e st = (st', Ok u) -> heap st' = heap st.
Proof. intros [= <-]. reflexivity. Qed.

Lemma load_returns l st st' d :
  load l st = (st', Ok d) -> st' = st.
Proof. unfold load. intros [= <-]. reflexivity. Qed.

Lemma lift_returns {A} (r : result A) st st' a :
  lift r st = (st', Ok a) -> st' = st /\ r = Ok a.
Proof. unfold lift. intros [= <- ->]. auto. Qed.

Lemma try_returns {A} (m : M A) st st' r :
  try_ m st = (st', Ok r) -> m st = (st', r).
Proof. unfold try_. destruct (m st) as [s r']. intros [= -> ->]. reflexivity. Qed.

Lemma load_uploaded_data_normalized parse_datetime file st st' l :
  load_uploaded_data parse_datetime file st = (st', Ok (Some l)) ->
  exists d, heap st' !! l = Some d /\ normalized d.
Proof.
  unfold load_uploaded_data. destruct file as [read_excel|]; [|intros [=]].
  intros H. apply bind_returns in H as (outcome & s & Hbody & H).
  destruct outcome as [loaded|e]; [injection H as -> -> | ]; cycle 1.
  { apply bind_returns in H as (? & ? & _ & [=]). }
  apply try_returns in Hbody as Hrun.
  apply bind_returns in Hrun as (df & s1 & _ & Hrun).
  apply bind_returns in Hrun as (d0 & s2 & _ & Hrun).
  apply bind_returns in Hrun as ([[|] message] & s3 & _ & Hrun); cycle 1.
  { apply bind_returns in Hrun as (? & ? & _ & Hrun).
    apply bind_returns in Hrun as (? & ? & _ & [=]). }
  apply bind_returns in Hrun as (normalised & s4 & Hinner & Hrun).
  destruct normalised as [[]|e]; [injection Hrun as -> -> | ]; cycle 1.
  { apply bind_returns in Hrun as (? & ? & _ & [=]). }
  apply try_returns in Hinner as Htail.
  apply bind_returns in Htail as ([] & s5 & Hconv & Htail).
  apply convert_dates_normalizes in Hconv as (_ & d & Hd & Hnorm).
  exists d. split; [|exact Hnorm]. rewrite <- Hd. f_equal.
  repeat (let Hstep := fresh "Hstep" in
          apply bind_returns in Htail as (? & ? & Hstep & Htail);
          first [ apply emit_returns in Hstep
                | apply load_returns in Hstep
                | apply lift_returns in Hstep as [Hstep _] ]).
  apply emit_returns in Htail. congruence.
Qed.

(** In [main] the table that reaches [show_analysis] is normalised, and the
    run leaves it as it was loaded. *)
Corollary uploaded_dataset_is_left_alone parse_datetime csv_field env w file st s l :
  load_uploaded_data parse_datetime file st = (s, Ok (Some l)) ->
  exists d,
    heap s !! l = Some d
    /\ normalized d
    /\ heap (fst (show_analysis parse_datetime csv_field env w l s)) !! l = Some d.
Proof.
  intros Hload.
  destruct (load_uploaded_data_normalized _ _ _ _ _ Hload) as (d & Hd & Hnorm).
  exists d. split; [exact Hd|]. split; [exact Hnorm|].
  destruct (show_analysis_frame parse_datetime csv_field env w (heap s) l d Hd Hnorm s)
    as [Hframe _].
  { exists []. rewrite app_nil_r. reflexivity. }
  eapply frame_lookup; eassumption.
Qed.

(** ** The sample of the upload instructions, end to end *)

Example sample_kpis :
  exists k, calculate_kpis sample_data = Ok k
    /\ (total_sales k == 131597 # 100)%Q
    /\ (total_profit k == 26317 # 100)%Q
    /\ (profit_margin k == 2631700 # 131597)%Q
    /\ total_orders k = 3%nat
    /\ exists avg, avg_order_value k = Fin avg /\ (avg == 131597 # 300)%Q.
Proof.
  eexists. split; [vm_compute; reflexivity|].
  cbn [total_sales total_profit profit_margin total_orders avg_order_value].
  repeat split; try reflexivity.
  eexists. split; reflexivity.
Qed.

Example sample_upload_runs_to_the_end :
  snd (run (main iso_datetime plain_field env_full (Some (Ok sample_data)) sample_widgets))
  = Ok tt
  /\ last (out (fst (run (main iso_datetime plain_field env_full
                            (Some (Ok sample_data)) sample_widgets))))
     = Some (st_success "Dashboard analysis completed successfully!").
Proof. split; vm_compute; reflexivity. Qed.

Example header_only_upload_is_refused :
  out (fst (run (main iso_datetime plain_field env_full (Some (Ok header_only))
                   sample_widgets)))
  = [st_subheader "Data Upload";
     st_error "Dataset validation failed: Column 'Sales' must contain numeric values";
     st_info "Required columns: Order Date, Ship Date, Category, Sub-Category, Product Name, Sales, Discount, Profit, Quantity";
     st_error "Please upload a valid dataset to see the analysis."].
Proof. vm_compute. reflexivity. Qed.

(** ** The sorted view of the raw data *)

Lemma cell_ltb_asym a b : cell_ltb a b = true -> cell_ltb b a = false.
Proof.
  destruct a, b; simpl; try discriminate; try reflexivity; intros H.
  - apply Qltb_ge. apply Qltb_lt in H. apply Qlt_le_weak, H.
  - destruct b, b0; simpl in *; congruence.
  - apply Z.ltb_ge. apply Z.ltb_lt in H. lia.
  - unfold String.ltb in *. rewrite String.compare_antisym.
    destruct (String.compare s s0); simpl; congruence.
Qed.

Lemma desc_before_asym a b : desc_before a b = true -> desc_before b a = false.
Proof.
  unfold desc_before.
  destruct a, b; cbv beta iota; try discriminate; try reflexivity;
    apply cell_ltb_asym.
Qed.

Lemma insert_by_sorted {A} (before : A -> A -> bool) x l :
  (forall a b, before a b = true -> before b a = false) ->
  Sorted (fun a b => before b a = false) l ->
  Sorted (fun a b => before b a = false) (insert_by before x l).
Proof.
  intros Hasym. induction 1 as [|y l Hl IH Hhd]; simpl; [repeat constructor|].
  destruct (before y x) eqn:E.
  - constructor; [exact IH|].
    destruct l as [|z l]; simpl.
    + constructor. apply Hasym, E.
    + destruct (before z x); constructor.
      * inversion Hhd; assumption.
      * apply Hasym, E.
  - constructor; [constructor; assumption|]. constructor. exact E.
Qed.

Lemma sort_by_sorted {A} (before : A -> A -> bool) l :
  (forall a b, before a b = true -> before b a = false) ->
  Sorted (fun a b => before b a = false) (sort_by before l).
Proof.
  intros Hasym. unfold sort_by. induction l as [|x l IH]; simpl; [constructor|].
  apply insert_by_sorted; assumption.
Qed.

Lemma insert_by_perm {A} (before : A -> A -> bool) x l :
  Permutation (insert_by before x l) (x :: l).
Proof.
  induction l as [|y l IH]; simpl; [reflexivity|].
  destruct (before y x); [|reflexivity].
  rewrite IH. apply perm_swap.
Qed.

Lemma sort_by_perm {A} (before : A -> A -> bool) l : Permutation (sort_by before l) l.
Proof.
  unfold sort_by. induction l as [|x l IH]; simpl; [reflexivity|].
  rewrite insert_by_perm, IH. reflexivity.
Qed.

Lemma Sorted_map {A B} (f : A -> B) (R : B -> B -> Prop) l :
  Sorted (fun a b => R (f a) (f b)) l -> Sorted R (map f l).
Proof.
  induction 1 as [|x l Hl IH Hhd]; simpl; constructor; [exact IH|].
  destruct Hhd; simpl; constructor; assumption.
Qed.

Lemma lookup_col_take_rows df idxs name :
  lookup_col (cols (take_rows df idxs)) name
  = (fun s => mkSeries (dtype s) (map (fun i => nth i (values s) Null) idxs))
      <$> lookup_col (cols df) name.
Proof.
  unfold take_rows. cbn [cols].
  induction (cols df) as [|[n s] cs IH]; simpl; [reflexivity|].
  destruct (String.eqb n name); [reflexivity | exact IH].
Qed.

(** What the page displays is the filtered table with its rows permuted
    so that the order dates go from the latest to the earliest, the
    missing ones last. *)
Lemma sort_values_desc_sorted df name s :
  getitem df name = Ok s ->
  exists positions sorted,
    sort_values_desc df name = Ok (take_rows df positions)
    /\ Permutation positions (seq 0 (length (values s)))
    /\ getitem (take_rows df positions) name = Ok sorted
    /\ Sorted may_precede (values sorted).
Proof.
  intros Hs. exists (sorted_positions desc_before s). eexists.
  unfold sort_values_desc. rewrite Hs. cbn [mbind result_bind rbind].
  split; [reflexivity|].
  split; [apply sort_by_perm|].
  apply getitem_Ok in Hs.
  split; [apply getitem_Ok; rewrite lookup_col_take_rows, Hs; reflexivity|].
  cbn [values]. apply Sorted_map. unfold sorted_positions.
  apply (sort_by_sorted (fun i j => desc_before (nth i (values s) Null)
                                                (nth j (values s) Null))).
  intros a b. apply desc_before_asym.
Qed.

Example sorted_view_of_the_sample :
  (sorted ← sort_values_desc sample_dataset "Order Date";
   s ← getitem sorted "Order Date";
   Ok (map cell_text (values s)))
  = Ok ["2023-01-03"; "2023-01-02"; "2023-01-01"].
Proof. vm_compute. reflexivity. Qed.

(** * Further properties of the code *)

(** ** The verdict of the validator *)

Lemma missing_columns_nil_inv df c :
  missing_columns df = [] -> c ∈ REQUIRED_COLUMNS -> c ∈ columns df.
Proof.
  intros E Hc. destruct (decide (c ∈ columns df)) as [Hin|Hout]; [exact Hin|].
  assert (Hm : c ∈ missing_columns df) by (apply missing_columns_spec; auto).
  rewrite E in Hm. apply elem_of_nil in Hm. contradiction.
Qed.

Lemma numeric_columns_required name : name ∈ numeric_columns -> name ∈ REQUIRED_COLUMNS.
Proof.
  intros Hn. unfold numeric_columns in Hn. unfold REQUIRED_COLUMNS.
  repeat (apply elem_of_cons in Hn as [->|Hn]; [decide_true|]).
  apply elem_of_nil in Hn. contradiction.
Qed.

Lemma check_numeric_true df names message :
  check_numeric df names = Ok (true, message) ->
  message = "Dataset validation successful".
Proof.
  induction names as [|n names IH]; simpl.
  - intros [= <-]. reflexivity.
  - destruct (getitem df n) as [s|]; simpl; [|discriminate].
    destruct (is_numeric_dtype s); simpl; [exact IH | discriminate].
Qed.

(** X1. [validate_dataset] never raises.  Its verdict is true exactly when
    the nine columns are there, both date columns convert and the four
    numeric columns have a numeric dtype; the message of a true verdict
    is the message of success. *)
Theorem validate_dataset_verdict (parse_datetime : string -> option Z) (df : DataFrame) :
  exists ok message,
    validate_dataset parse_datetime df = Ok (ok, message)
    /\ (ok = true
        <-> (forall c, c ∈ REQUIRED_COLUMNS -> c ∈ columns df)
            /\ dates_convert parse_datetime df
            /\ (forall name s, name ∈ numeric_columns ->
                               getitem df name = Ok s -> is_numeric_dtype s = true))
    /\ (ok = true -> message = "Dataset validation successful").
Proof.
  unfold validate_dataset, dates_convert.
  destruct (missing_columns df) as [|m ms] eqn:Emiss.
  - assert (Hall : forall c, c ∈ REQUIRED_COLUMNS -> c ∈ columns df)
      by (intros c; apply missing_columns_nil_inv, Emiss).
    destruct (check_numeric_spec df numeric_columns) as (r & Hr & Hiff).
    { intros name Hn. apply Hall, numeric_columns_required, Hn. }
    destruct (getitem df "Order Date" ≫= to_datetime parse_datetime) as [od|e1];
      destruct (getitem df "Ship Date" ≫= to_datetime parse_datetime) as [sd|e2];
      unfold mbind at 1, result_bind at 1, rbind at 1.
    + rewrite Hr. destruct r as [ok message]. exists ok, message.
      split; [reflexivity|]. split.
      * split.
        -- intros ->. repeat split; eauto. apply Hiff.
           rewrite (check_numeric_true _ _ _ Hr). reflexivity.
        -- intros (_ & _ & Hnum). apply Hiff in Hnum. congruence.
      * intros ->. apply (check_numeric_true _ _ _ Hr).
    + exists false, "Order Date and Ship Date must be valid date formats".
      split; [reflexivity|]. split; [|discriminate].
      split; [discriminate|]. intros (_ & [_ [s Hs]] & _). discriminate.
    + exists false, "Order Date and Ship Date must be valid date formats".
      split; [reflexivity|]. split; [|discriminate].
      split; [discriminate|]. intros (_ & [[s Hs] _] & _). discriminate.
    + exists false, "Order Date and Ship Date must be valid date formats".
      split; [reflexivity|]. split; [|discriminate].
      split; [discriminate|]. intros (_ & [[s Hs] _] & _). discriminate.
  - exists false, ("Missing required columns: " +:+ String.concat ", " (m :: ms)).
    split; [reflexivity|]. split; [|discriminate].
    split; [discriminate|]. intros (Hall & _).
    assert (Hm : m ∈ missing_columns df) by (rewrite Emiss; apply list_elem_of_here).
    apply missing_columns_spec in Hm as [Hreq Hout]. destruct (Hout (Hall m Hreq)).
Qed.

Lemma validate_dataset_verdict_examples :
  validate_dataset iso_datetime sample_data = Ok (true, "Dataset validation successful")
  /\ validate_dataset iso_datetime bad_ship_date
     = Ok (false, "Order Date and Ship Date must be valid date formats").
Proof. split; vm_compute; reflexivity. Qed.

Lemma check_numeric_first df before name after :
  (forall n s, n ∈ before -> getitem df n = Ok s -> is_numeric_dtype s = true) ->
  (forall n, n ∈ before -> n ∈ columns df) ->
  (exists s, getitem df name = Ok s /\ is_numeric_dtype s = false) ->
  check_numeric df (before ++ name :: after)
  = Ok (false, "Column '" +:+ name +:+ "' must contain numeric values").
Proof.
  intros Hnum Hcols (s & Hs & Hfalse).
  induction before as [|n before IH]; simpl.
  - rewrite Hs. simpl. rewrite Hfalse. reflexivity.
  - destruct (getitem_columns df n) as (s' & Hs' & _).
    { apply Hcols, list_elem_of_here. }
    rewrite Hs'. simpl.
    rewrite (Hnum n s' (list_elem_of_here _ _) Hs'). simpl.
    apply IH.
    + intros n' s'' Hn'. apply Hnum, list_elem_of_further, Hn'.
    + intros n' Hn'. apply Hcols, list_elem_of_further, Hn'.
Qed.

(** X2. When the columns are there and the dates convert, the message
    names the first of Sales, Discount, Profit, Quantity whose dtype is
    not numeric, whatever the columns after it hold. *)
Theorem validate_names_first_text_column (parse_datetime : string -> option Z)
    (df : DataFrame) (before : list string) (name : string) (after : list string) :
  (forall c, c ∈ REQUIRED_COLUMNS -> c ∈ columns df) ->
  dates_convert parse_datetime df ->
  numeric_columns = (before ++ name :: after)%list ->
  (forall n s, n ∈ before -> getitem df n = Ok s -> is_numeric_dtype s = true) ->
  (exists s, getitem df name = Ok s /\ is_numeric_dtype s = false) ->
  validate_dataset parse_datetime df
  = Ok (false, "Column '" +:+ name +:+ "' must contain numeric values").
Proof.
  intros Hall [[od Hod] [sd Hsd]] Hsplit Hbefore Hname.
  unfold validate_dataset. rewrite (missing_columns_nil df Hall).
  rewrite Hod. rewrite Hsd. unfold mbind at 1, result_bind at 1, rbind at 1.
  rewrite Hsplit. apply check_numeric_first; [exact Hbefore | | exact Hname].
  intros n Hn. apply Hall, numeric_columns_required. rewrite Hsplit.
  apply elem_of_app. left. exact Hn.
Qed.

Lemma validate_names_first_text_column_witness :
  ((forall c, c ∈ REQUIRED_COLUMNS -> c ∈ columns text_discount)
   /\ dates_convert iso_datetime text_discount
   /\ numeric_columns = (["Sales"] ++ "Discount" :: ["Profit"; "Quantity"])%list
   /\ (forall n s, n ∈ ["Sales"] -> getitem text_discount n = Ok s ->
                   is_numeric_dtype s = true)
   /\ (exists s, getitem text_discount "Discount" = Ok s /\ is_numeric_dtype s = false))
  /\ validate_dataset iso_datetime text_discount
     = Ok (false, "Column '" +:+ "Discount" +:+ "' must contain numeric values").
Proof.
  assert (H1 : forall c, c ∈ REQUIRED_COLUMNS -> c ∈ columns text_discount).
  { intros c Hc. exact Hc. }
  assert (H2 : dates_convert iso_datetime text_discount).
  { split; eexists; vm_compute; reflexivity. }
  assert (H3 : numeric_columns = (["Sales"] ++ "Discount" :: ["Profit"; "Quantity"])%list)
    by reflexivity.
  assert (H4 : forall n s, n ∈ ["Sales"] -> getitem text_discount n = Ok s ->
                           is_numeric_dtype s = true).
  { intros n s Hn. apply elem_of_cons in Hn as [->|Hn].
    - vm_compute. intros [= <-]. reflexivity.
    - apply elem_of_nil in Hn. contradiction. }
  assert (H5 : exists s, getitem text_discount "Discount" = Ok s
                         /\ is_numeric_dtype s = false).
  { eexists. split; vm_compute; reflexivity. }
  split; [auto|].
  exact (validate_names_first_text_column iso_datetime text_discount
           ["Sales"] "Discount" ["Profit"; "Quantity"] H1 H2 H3 H4 H5).
Defined.

(** ** Dates that do not parse *)

Lemma rmapM_raises {A B} (f : A -> result B) (l : list A) a :
  a ∈ l -> (exists e, f a = Raise e) -> exists e, rmapM f l = Raise e.
Proof.
  intros Hin [e He]. induction l as [|x l IH].
  - apply elem_of_nil in Hin. contradiction.
  - simpl. apply elem_of_cons in Hin as [<-|Hin].
    + rewrite He. simpl. eauto.
    + destruct (f x); simpl; [|eauto].
      destruct (IH Hin) as [e' ->]. simpl. eauto.
Qed.

Lemma to_datetime_unparsed parse_datetime s text :
  dtype s <> datetime64 -> Str text ∈ values s -> parse_datetime text = None ->
  exists e, to_datetime parse_datetime s = Raise e.
Proof.
  intros Hdt Hin Hparse. unfold to_datetime.
  destruct (rmapM_raises (to_datetime_cell parse_datetime) (values s) (Str text) Hin)
    as [e He].
  { simpl. rewrite Hparse. eauto. }
  destruct (dtype s); try congruence; eauto;
    cbn [mbind result_bind rbind]; rewrite He; eauto.
Qed.

(** X3. One text cell that the date parser refuses, anywhere in either
    date column, makes the validator reject the table with the message on
    date formats; the numeric columns are not looked at. *)
Theorem validate_rejects_unparsed_date (parse_datetime : string -> option Z)
    (df : DataFrame) (name : string) (s : Series) (text : string) :
  (forall c, c ∈ REQUIRED_COLUMNS -> c ∈ columns df) ->
  name ∈ ["Order Date"; "Ship Date"] ->
  getitem df name = Ok s ->
  dtype s <> datetime64 ->
  Str text ∈ values s ->
  parse_datetime text = None ->
  validate_dataset parse_datetime df
  = Ok (false, "Order Date and Ship Date must be valid date formats").
Proof.
  intros Hall Hname Hs Hdt Hin Hparse.
  destruct (to_datetime_unparsed parse_datetime s text Hdt Hin Hparse) as [e He].
  unfold validate_dataset. rewrite (missing_columns_nil df Hall).
  apply elem_of_cons in Hname as [->|Hname].
  - rewrite Hs. cbn [mbind result_bind rbind]. rewrite He. reflexivity.
  - apply elem_of_cons in Hname as [->|Hname];
      [|apply elem_of_nil in Hname; contradiction].
    rewrite Hs. cbn [mbind result_bind rbind]. rewrite He.
    destruct (getitem df "Order Date" ≫= to_datetime parse_datetime); reflexivity.
Qed.

Lemma validate_rejects_unparsed_date_witness :
  ((forall c, c ∈ REQUIRED_COLUMNS -> c ∈ columns bad_ship_date)
   /\ "Ship Date" ∈ ["Order Date"; "Ship Date"]
   /\ getitem bad_ship_date "Ship Date"
      = Ok (mkSeries object_ [Str "2023-01-02"; Str "soon"; Str "2023-01-04"])
   /\ dtype (mkSeries object_ [Str "2023-01-02"; Str "soon"; Str "2023-01-04"])
      <> datetime64
   /\ Str "soon" ∈ values (mkSeries object_ [Str "2023-01-02"; Str "soon"; Str "2023-01-04"])
   /\ iso_datetime "soon" = None)
  /\ validate_dataset iso_datetime bad_ship_date
     = Ok (false, "Order Date and Ship Date must be valid date formats").
Proof.
  assert (H1 : forall c, c ∈ REQUIRED_COLUMNS -> c ∈ columns bad_ship_date).
  { intros c Hc. exact Hc. }
  assert (H2 : "Ship Date" ∈ ["Order Date"; "Ship Date"]).
  { apply list_elem_of_further, list_elem_of_here. }
  assert (H3 : getitem bad_ship_date "Ship Date"
               = Ok (mkSeries object_ [Str "2023-01-02"; Str "soon"; Str "2023-01-04"]))
    by (vm_compute; reflexivity).
  assert (H4 : dtype (mkSeries object_ [Str "2023-01-02"; Str "soon"; Str "2023-01-04"])
               <> datetime64) by discriminate.
  assert (H5 : Str "soon" ∈ values (mkSeries object_
                                      [Str "2023-01-02"; Str "soon"; Str "2023-01-04"])).
  { apply list_elem_of_further, list_elem_of_here. }
  assert (H6 : iso_datetime "soon" = None) by (vm_compute; reflexivity).
  split; [auto 10|].
  exact (validate_rejects_unparsed_date iso_datetime bad_ship_date "Ship Date" _ "soon"
           H1 H2 H3 H4 H5 H6).
Defined.

(** ** More on the indicators *)

(** X4. [calculate_kpis] reads the Sales and the Profit column and
    nothing else: where the two have a numeric dtype and hold numbers,
    booleans and missing cells it returns, whatever the other columns
    hold, and every row counts as an order. *)
Theorem calculate_kpis_returns (df : DataFrame) (sales profit : Series) :
  getitem df "Sales" = Ok sales ->
  getitem df "Profit" = Ok profit ->
  is_numeric_dtype sales = true ->
  is_numeric_dtype profit = true ->
  Forall numeric_cell (values sales) ->
  Forall numeric_cell (values profit) ->
  exists k, calculate_kpis df = Ok k /\ total_orders k = nrows df.
Proof.
  intros Hs Hp Hds Hdp Hcs Hcp.
  destruct (cells_sum_count_total _ Hcs) as (ts & ns & Es).
  destruct (cells_sum_count_total _ Hcp) as (tp & np & Ep).
  unfold calculate_kpis, series_sum, series_mean. rewrite Hs, Hp.
  cbn [mbind result_bind rbind].
  rewrite (sum_allowed_numeric _ Hds), (sum_allowed_numeric _ Hdp). cbn [rbind].
  rewrite Es, Ep. cbn [rbind]. eexists. split; reflexivity.
Qed.

Lemma calculate_kpis_returns_witness :
  (getitem sample_data "Sales" = Ok sample_sales
   /\ getitem sample_data "Profit" = Ok sample_profit
   /\ is_numeric_dtype sample_sales = true
   /\ is_numeric_dtype sample_profit = true
   /\ Forall numeric_cell (values sample_sales)
   /\ Forall numeric_cell (values sample_profit))
  /\ exists k, calculate_kpis sample_data = Ok k /\ total_orders k = nrows sample_data.
Proof.
  assert (H1 : getitem sample_data "Sales" = Ok sample_sales) by reflexivity.
  assert (H2 : getitem sample_data "Profit" = Ok sample_profit) by reflexivity.
  assert (H3 : is_numeric_dtype sample_sales = true) by reflexivity.
  assert (H4 : is_numeric_dtype sample_profit = true) by reflexivity.
  assert (H5 : Forall numeric_cell (values sample_sales)) by (simpl; repeat constructor).
  assert (H6 : Forall numeric_cell (values sample_profit)) by (simpl; repeat constructor).
  split; [auto 10|].
  exact (calculate_kpis_returns sample_data _ _ H1 H2 H3 H4 H5 H6).
Defined.

Example kpis_without_amounts :
  calculate_kpis without_amounts = Raise (KeyError "Sales").
Proof. vm_compute. reflexivity. Qed.

(** X5. The indicators of a table without rows whose Sales and Profit
    columns have a numeric dtype: the totals and the margin are 0, the
    number of orders is 0 and the average order value is NaN, the mean of
    nothing. *)
Theorem kpis_of_no_rows (df : DataFrame) (sales profit : Series) :
  rectangular df ->
  nrows df = 0%nat ->
  getitem df "Sales" = Ok sales ->
  getitem df "Profit" = Ok profit ->
  is_numeric_dtype sales = true ->
  is_numeric_dtype profit = true ->
  calculate_kpis df = Ok (mkKPIs 0 0 0 NaN 0).
Proof.
  intros Hrect Hrows Hs Hp Hds Hdp.
  pose proof (no_rows_values df _ _ Hrect Hrows Hs) as Hvs.
  pose proof (no_rows_values df _ _ Hrect Hrows Hp) as Hvp.
  unfold calculate_kpis, series_sum, series_mean, len.
  rewrite Hs, Hp. cbn [mbind result_bind rbind].
  rewrite (sum_allowed_numeric _ Hds), (sum_allowed_numeric _ Hdp). cbn [rbind].
  rewrite Hvs, Hvp, Hrows. reflexivity.
Qed.

Lemma kpis_of_no_rows_witness :
  (rectangular typed_no_rows /\ nrows typed_no_rows = 0%nat
   /\ getitem typed_no_rows "Sales" = Ok (mkSeries float64 [])
   /\ getitem typed_no_rows "Profit" = Ok (mkSeries float64 [])
   /\ is_numeric_dtype (mkSeries float64 []) = true
   /\ is_numeric_dtype (mkSeries float64 []) = true)
  /\ calculate_kpis typed_no_rows = Ok (mkKPIs 0 0 0 NaN 0).
Proof.
  assert (H1 : rectangular typed_no_rows).
  { unfold rectangular. simpl. repeat constructor. }
  assert (H2 : nrows typed_no_rows = 0%nat) by reflexivity.
  assert (H3 : getitem typed_no_rows "Sales" = Ok (mkSeries float64 [])) by reflexivity.
  assert (H4 : getitem typed_no_rows "Profit" = Ok (mkSeries float64 [])) by reflexivity.
  assert (H5 : is_numeric_dtype (mkSeries float64 []) = true) by reflexivity.
  split; [auto 10|].
  exact (kpis_of_no_rows typed_no_rows _ _ H1 H2 H3 H4 H5 H5).
Defined.

(** The sum of a column of timestamps is refused by its dtype, also
    where the column has no row. *)
Example kpis_of_timestamps :
  calculate_kpis
    (mkDF [("Sales", mkSeries datetime64 []); ("Profit", mkSeries float64 [])] 0)
  = Raise (TypeError "datetime64 type does not support sum operations").
Proof. reflexivity. Qed.

(** ** More on the filter *)

Lemma filtered_df_inv df date_range categories out :
  filtered_df df date_range categories = Ok out ->
  exists order_date category,
    lookup_col (cols df) "Order Date" = Some order_date
    /\ dtype order_date = datetime64
    /\ lookup_col (cols df) "Category" = Some category
    /\ out = bool_index df (zip_with (keep_cells date_range categories)
                                     (values order_date) (values category)).
Proof.
  intros H.
  destruct (lookup_col (cols df) "Order Date") as [od|] eqn:Hod; cycle 1.
  { revert H. unfold filtered_df, filter_mask, getitem. rewrite Hod.
    unfold mbind, result_bind, rbind. intros [=]. }
  destruct (lookup_col (cols df) "Category") as [cat|] eqn:Hcat; cycle 1.
  { revert H. unfold filtered_df, filter_mask, getitem, dt_date. rewrite Hod, Hcat.
    unfold mbind, result_bind, rbind. destruct (dtype od); intros [=]. }
  assert (Hdt : dtype od = datetime64).
  { revert H. unfold filtered_df, filter_mask, getitem, dt_date. rewrite Hod.
    unfold mbind, result_bind, rbind. destruct (dtype od); try reflexivity; intros [=]. }
  rewrite (filtered_df_Ok df date_range categories od cat Hod Hdt Hcat) in H.
  injection H as <-. eauto 10.
Qed.

Lemma select_length {A} mask (vs : list A) :
  length vs = length mask -> length (select mask vs) = count_true mask.
Proof.
  unfold count_true. revert vs.
  induction mask as [|b mask IH]; intros [|v vs] Hlen; simpl in *;
    try reflexivity; try discriminate.
  injection Hlen as Hlen. destruct b; simpl; rewrite IH by exact Hlen; reflexivity.
Qed.

Lemma count_true_le mask : (count_true mask <= length mask)%nat.
Proof.
  unfold count_true. induction mask as [|b mask IH]; simpl; [lia|].
  destruct b; simpl; lia.
Qed.

Lemma select_Forall {A} (P : A -> Prop) mask (vs : list A) :
  Forall P vs -> Forall P (select mask vs).
Proof.
  revert vs. induction mask as [|b mask IH]; intros vs H; [destruct vs; constructor|].
  destruct H as [|v vs Hv Hvs]; simpl; [constructor|].
  destruct b; [constructor|]; auto.
Qed.

Lemma rectangular_bool_index df mask :
  rectangular df -> length mask = nrows df -> rectangular (bool_index df mask).
Proof.
  unfold rectangular, bool_index. cbn [cols nrows]. intros Hrect Hlen.
  apply Forall_map. eapply Forall_impl; [exact Hrect|].
  intros [name s] Hs. simpl in *. apply select_length. congruence.
Qed.

Lemma well_typed_bool_index df mask : well_typed df -> well_typed (bool_index df mask).
Proof.
  unfold well_typed, bool_index. cbn [cols]. intros H.
  apply Forall_map. eapply Forall_impl; [exact H|].
  intros [name s] Hs. simpl in *. apply select_Forall, Hs.
Qed.

(** X7. The filtered table has the columns of the table, in their order
    and with their dtypes, and no more rows than the table; it is
    rectangular, its dates are timestamps, and its cells fit its dtypes if
    those of the table do. *)
Theorem filtered_table_keeps_schema (df out : DataFrame) (date_range : Z * Z)
    (categories : list Cell) :
  filtered_df df date_range categories = Ok out ->
  rectangular df ->
  normalized df ->
  columns out = columns df
  /\ map (fun c => dtype (snd c)) (cols out) = map (fun c => dtype (snd c)) (cols df)
  /\ (nrows out <= nrows df)%nat
  /\ rectangular out
  /\ normalized out
  /\ (well_typed df -> well_typed out).
Proof.
  intros Hout Hrect (od' & sd & Hod' & Hodt' & Hsd & Hsdt).
  apply filtered_df_inv in Hout as (od & cat & Hod & Hdt & Hcat & ->).
  pose proof (mask_length df date_range categories od cat Hrect Hod Hcat) as Hlen.
  split; [apply columns_bool_index|].
  split; [unfold bool_index; cbn [cols]; rewrite map_map; reflexivity|].
  split; [cbn [nrows bool_index]; rewrite <- Hlen; apply count_true_le|].
  split; [apply rectangular_bool_index; assumption|].
  split; [|apply well_typed_bool_index].
  unfold normalized. rewrite !lookup_col_bool_index, Hod, Hsd. simpl.
  eexists _, _. repeat split; assumption.
Qed.

Lemma filtered_table_keeps_schema_witness :
  (filtered_df sample_dataset (day 2023 1 2, day 2023 1 3) all_categories
   = Ok (bool_index sample_dataset [false; true; true])
   /\ rectangular sample_dataset /\ normalized sample_dataset)
  /\ columns (bool_index sample_dataset [false; true; true]) = columns sample_dataset
  /\ map (fun c => dtype (snd c)) (cols (bool_index sample_dataset [false; true; true]))
     = map (fun c => dtype (snd c)) (cols sample_dataset)
  /\ (nrows (bool_index sample_dataset [false; true; true]) <= nrows sample_dataset)%nat
  /\ rectangular (bool_index sample_dataset [false; true; true])
  /\ normalized (bool_index sample_dataset [false; true; true])
  /\ (well_typed sample_dataset -> well_typed (bool_index sample_dataset [false; true; true])).
Proof.
  assert (H1 : filtered_df sample_dataset (day 2023 1 2, day 2023 1 3) all_categories
               = Ok (bool_index sample_dataset [false; true; true]))
    by (vm_compute; reflexivity).
  split; [auto using sample_dataset_rectangular, sample_dataset_normalized|].
  exact (filtered_table_keeps_schema sample_dataset _ _ _ H1
           sample_dataset_rectangular sample_dataset_normalized).
Defined.

Lemma select_all_true {A} mask (vs : list A) :
  length vs = length mask -> Forall (fun b => b = true) mask -> select mask vs = vs.
Proof.
  revert vs. induction mask as [|b mask IH]; intros [|v vs] Hlen Hall; simpl in *;
    try reflexivity; try discriminate.
  inversion Hall as [|b' m' -> Hrest]; subst. injection Hlen as Hlen.
  rewrite IH by assumption. reflexivity.
Qed.

Lemma count_true_all mask : Forall (fun b => b = true) mask -> count_true mask = length mask.
Proof.
  unfold count_true. induction 1 as [|b mask -> _ IH]; simpl; [reflexivity|].
  rewrite IH. reflexivity.
Qed.

Lemma bool_index_all_true df mask :
  rectangular df -> length mask = nrows df -> Forall (fun b => b = true) mask ->
  bool_index df mask = df.
Proof.
  intros Hrect Hlen Hall. unfold bool_index.
  rewrite (count_true_all mask Hall), Hlen.
  destruct df as [cs n]. cbn [cols nrows] in *. f_equal.
  unfold rectangular in Hrect. cbn [cols nrows] in Hrect.
  induction Hrect as [|[name [d vs]] cs Hc _ IH]; simpl; [reflexivity|].
  simpl in Hc. rewrite IH, select_all_true by congruence. reflexivity.
Qed.

(** X8. A filter whose range and categories hold of every row returns
    the table itself: nothing is dropped, reordered or converted. *)
Theorem filter_that_keeps_all_is_identity (df : DataFrame) (date_range : Z * Z)
    (categories : list Cell) :
  rectangular df ->
  normalized df ->
  "Category" ∈ columns df ->
  (forall i, (i < nrows df)%nat -> kept df date_range categories i) ->
  filtered_df df date_range categories = Ok df.
Proof.
  intros Hrect (od & sd & Hod & Hdt & _ & _) Hcat Hall.
  apply lookup_col_columns in Hcat as [cat Hcat].
  rewrite (filtered_df_Ok df date_range categories od cat Hod Hdt Hcat).
  f_equal.
  pose proof (mask_length df date_range categories od cat Hrect Hod Hcat) as Hlen.
  apply bool_index_all_true; [assumption..|].
  apply Forall_lookup. intros i b Hb.
  assert (Hi : (i < nrows df)%nat) by (rewrite <- Hlen; eapply lookup_lt_Some; eauto).
  apply (mask_lookup_kept df date_range categories od cat i Hod Hcat) in Hall; [|exact Hi].
  congruence.
Qed.

Lemma filter_that_keeps_all_is_identity_witness :
  (rectangular sample_dataset /\ normalized sample_dataset
   /\ "Category" ∈ columns sample_dataset
   /\ (forall i, (i < nrows sample_dataset)%nat ->
                 kept sample_dataset (day 2023 1 1, day 2023 1 3) all_categories i))
  /\ filtered_df sample_dataset (day 2023 1 1, day 2023 1 3) all_categories
     = Ok sample_dataset.
Proof.
  assert (H3 : "Category" ∈ columns sample_dataset) by decide_true.
  assert (H4 : forall i, (i < nrows sample_dataset)%nat ->
                         kept sample_dataset (day 2023 1 1, day 2023 1 3) all_categories i).
  { intros i Hi.
    apply (mask_lookup_kept sample_dataset _ _ _ _ i eq_refl eq_refl).
    destruct i as [|[|[|i]]]; [reflexivity..|]. simpl in Hi. lia. }
  split; [auto using sample_dataset_rectangular, sample_dataset_normalized|].
  exact (filter_that_keeps_all_is_identity sample_dataset _ _
           sample_dataset_rectangular sample_dataset_normalized H3 H4).
Defined.

Lemma zip_with_and {A B} (f g : A -> B -> bool) (l : list A) (k : list B) :
  zip_with andb (zip_with f l k) (zip_with g l k)
  = zip_with (fun a b => f a b && g a b) l k.
Proof.
  revert k. induction l as [|x l IH]; intros [|y k]; simpl; auto.
  rewrite IH. reflexivity.
Qed.

(** Two filters in a row select by the conjunction of their masks. *)
Lemma filter_twice df r1 c1 r2 c2 order_date category :
  lookup_col (cols df) "Order Date" = Some order_date ->
  dtype order_date = datetime64 ->
  lookup_col (cols df) "Category" = Some category ->
  (first ← filtered_df df r1 c1; filtered_df first r2 c2)
  = Ok (bool_index df (zip_with (fun d c => keep_cells r1 c1 d c && keep_cells r2 c2 d c)
                                (values order_date) (values category))).
Proof.
  intros Hod Hdt Hcat.
  rewrite (filtered_df_Ok df r1 c1 order_date category Hod Hdt Hcat).
  cbn [mbind result_bind rbind].
  set (m1 := zip_with (keep_cells r1 c1) (values order_date) (values category)).
  rewrite (filtered_df_Ok (bool_index df m1) r2 c2
             (mkSeries (dtype order_date) (select m1 (values order_date)))
             (mkSeries (dtype category) (select m1 (values category)))).
  - cbn [values]. rewrite <- select_zip_with, bool_index_twice.
    unfold m1. rewrite zip_with_and. reflexivity.
  - rewrite lookup_col_bool_index, Hod. reflexivity.
  - exact Hdt.
  - rewrite lookup_col_bool_index, Hcat. reflexivity.
Qed.

(** X9. Two filters commute: whatever their ranges and category
    selections, applying them in either order gives the same table, the
    one whose rows satisfy both. *)
Theorem filters_commute (df : DataFrame) (r1 r2 : Z * Z) (c1 c2 : list Cell) :
  normalized df ->
  "Category" ∈ columns df ->
  exists out,
    (first ← filtered_df df r1 c1; filtered_df first r2 c2) = Ok out
    /\ (first ← filtered_df df r2 c2; filtered_df first r1 c1) = Ok out.
Proof.
  intros (od & sd & Hod & Hdt & _ & _) Hcat.
  apply lookup_col_columns in Hcat as [cat Hcat].
  eexists. split; [apply (filter_twice df r1 c1 r2 c2 od cat Hod Hdt Hcat)|].
  rewrite (filter_twice df r2 c2 r1 c1 od cat Hod Hdt Hcat).
  do 2 f_equal. apply zip_with_ext; auto. intros d c. apply andb_comm.
Qed.

Lemma filters_commute_witness :
  (normalized sample_dataset /\ "Category" ∈ columns sample_dataset)
  /\ exists out,
       (first ← filtered_df sample_dataset (day 2023 1 1, day 2023 1 2) all_categories;
        filtered_df first (day 2023 1 2, day 2023 1 3) [Str "Furniture"]) = Ok out
       /\ (first ← filtered_df sample_dataset (day 2023 1 2, day 2023 1 3) [Str "Furniture"];
           filtered_df first (day 2023 1 1, day 2023 1 2) all_categories) = Ok out.
Proof.
  assert (H2 : "Category" ∈ columns sample_dataset) by decide_true.
  split; [auto using sample_dataset_normalized|].
  exact (filters_commute sample_dataset _ _ _ _ sample_dataset_normalized H2).
Defined.

Lemma select_none {A} mask (vs : list A) :
  Forall (fun b => b = false) mask -> select mask vs = [].
Proof.
  revert vs. induction mask as [|b mask IH]; intros [|v vs] Hall; simpl; try reflexivity.
  inversion Hall as [|b' m' -> Hrest]; subst. apply IH, Hrest.
Qed.

Lemma count_true_none mask : Forall (fun b => b = false) mask -> count_true mask = 0%nat.
Proof.
  unfold count_true. induction 1 as [|b mask -> _ IH]; simpl; [reflexivity | exact IH].
Qed.

(** X10. With no category selected, or with a range that ends before it
    starts, the filter returns a table without rows that still has every
    column of the table: an empty selection is a table, not an error. *)
Theorem empty_selection_gives_no_rows (df : DataFrame) (date_range : Z * Z)
    (categories : list Cell) :
  normalized df ->
  "Category" ∈ columns df ->
  categories = [] \/ (snd date_range < fst date_range)%Z ->
  exists out,
    filtered_df df date_range categories = Ok out
    /\ nrows out = 0%nat
    /\ rows out = []
    /\ columns out = columns df
    /\ Forall (fun c => values (snd c) = []) (cols out).
Proof.
  intros (od & sd & Hod & Hdt & _ & _) Hcat Hempty.
  apply lookup_col_columns in Hcat as [cat Hcat].
  rewrite (filtered_df_Ok df date_range categories od cat Hod Hdt Hcat).
  eexists. split; [reflexivity|].
  assert (Hnone : Forall (fun b => b = false)
                    (zip_with (keep_cells date_range categories) (values od) (values cat))).
  { apply Forall_lookup. intros i b Hb. apply lookup_zip_with_Some in Hb
      as (d & c & -> & _ & _).
    unfold keep_cells. destruct Hempty as [->|Hlt].
    - simpl. apply andb_false_r.
    - destruct (cell_day d) as [x|]; [|reflexivity].
      destruct (fst date_range <=? x)%Z eqn:E1, (x <=? snd date_range)%Z eqn:E2;
        try reflexivity. lia. }
  assert (Hrows : nrows (bool_index df (zip_with (keep_cells date_range categories)
                                                 (values od) (values cat))) = 0%nat).
  { cbn [nrows bool_index]. apply count_true_none, Hnone. }
  split; [exact Hrows|].
  split; [unfold rows; rewrite Hrows; reflexivity|].
  split; [apply columns_bool_index|].
  unfold bool_index. cbn [cols]. apply Forall_map, Forall_forall.
  intros c _. cbn [snd values]. apply select_none, Hnone.
Qed.

Lemma empty_selection_gives_no_rows_witness :
  (normalized sample_dataset /\ "Category" ∈ columns sample_dataset
   /\ (([] : list Cell) = []
       \/ (snd (day 2023 1 1, day 2023 1 3) < fst (day 2023 1 1, day 2023 1 3))%Z))
  /\ exists out,
       filtered_df sample_dataset (day 2023 1 1, day 2023 1 3) [] = Ok out
       /\ nrows out = 0%nat
       /\ rows out = []
       /\ columns out = columns sample_dataset
       /\ Forall (fun c => values (snd c) = []) (cols out).
Proof.
  assert (H2 : "Category" ∈ columns sample_dataset) by decide_true.
  assert (H3 : ([] : list Cell) = []
               \/ (snd (day 2023 1 1, day 2023 1 3) < fst (day 2023 1 1, day 2023 1 3))%Z)
    by (left; reflexivity).
  split; [auto using sample_dataset_normalized|].
  exact (empty_selection_gives_no_rows sample_dataset _ _ sample_dataset_normalized H2 H3).
Defined.

(** ** The daily series *)

Lemma insert_key_time t ts :
  StronglySorted Z.lt ts ->
  exists ts', insert_key (Time t) (map Time ts) = map Time ts'
    /\ StronglySorted Z.lt ts'
    /\ forall x, x ∈ ts' <-> x = t \/ x ∈ ts.
Proof.
  induction 1 as [|a ts Hts IH Ha]; simpl.
  - exists [t]. split; [reflexivity|]. split; [repeat constructor|].
    intros x. rewrite elem_of_cons. reflexivity.
  - destruct (Z.eqb_spec t a) as [->|Hne].
    + exists (a :: ts). split; [reflexivity|]. split; [constructor; assumption|].
      intros x. rewrite elem_of_cons. tauto.
    + destruct (Z.ltb_spec t a) as [Hlt|Hge].
      * exists (t :: a :: ts). split; [reflexivity|]. split.
        -- constructor; [constructor; assumption|].
           constructor; [exact Hlt|]. eapply Forall_impl; [exact Ha|]. simpl. lia.
        -- intros x. rewrite elem_of_cons. reflexivity.
      * destruct IH as (ts' & -> & Hsorted & Hmem).
        exists (a :: ts'). split; [reflexivity|]. split.
        -- constructor; [exact Hsorted|]. apply Forall_forall. intros x Hx.
           apply Hmem in Hx as [->|Hx]; [lia|].
           rewrite Forall_forall in Ha. apply Ha, Hx.
        -- intros x. rewrite !elem_of_cons, Hmem. tauto.
Qed.

Lemma group_keys_times vals :
  Forall time_cell vals ->
  exists ts, group_keys vals = map Time ts
    /\ StronglySorted Z.lt ts
    /\ forall t, t ∈ ts <-> Time t ∈ vals.
Proof.
  unfold group_keys. induction 1 as [|c vals Hc _ IH]; simpl.
  - exists []. split; [reflexivity|]. split; [constructor|].
    intros t. split; intros H; apply elem_of_nil in H; contradiction.
  - destruct IH as (ts & Hts & Hsorted & Hmem).
    destruct Hc as [->|[t ->]]; simpl.
    + exists ts. split; [exact Hts|]. split; [exact Hsorted|].
      intros t. rewrite Hmem, elem_of_cons. split; [auto|]. intros [H|H]; [discriminate|auto].
    + rewrite Hts. destruct (insert_key_time t ts Hsorted) as (ts' & -> & Hs' & Hm').
      exists ts'. split; [reflexivity|]. split; [exact Hs'|].
      intros x. rewrite Hm', Hmem, elem_of_cons. split.
      * intros [->|H]; auto.
      * intros [[= ->]|H]; auto.
Qed.

Lemma datetime_cells df name s :
  well_typed df -> getitem df name = Ok s -> dtype s = datetime64 ->
  Forall time_cell (values s).
Proof.
  intros Hwt Hget Hdt. apply getitem_Ok, lookup_col_In in Hget.
  unfold well_typed in Hwt. rewrite Forall_forall in Hwt.
  specialize (Hwt _ Hget). simpl in Hwt. rewrite Hdt in Hwt.
  eapply Forall_impl; [exact Hwt|].
  intros c Hc. unfold time_cell. destruct c; simpl in Hc; try discriminate; eauto.
Qed.

(** X11. The daily series that feeds the sales chart and the forecast
    has one row for each distinct timestamp among the order dates, in
    strictly ascending order; rows without an order date are left out. *)
Theorem daily_series_is_ascending (df out : DataFrame) (order_date : Series) :
  groupby_agg df "Order Date" [("Sales", agg_sum)] = Ok out ->
  well_typed df ->
  getitem df "Order Date" = Ok order_date ->
  dtype order_date = datetime64 ->
  exists stamps,
    getitem out "Order Date" = Ok (mkSeries datetime64 (map Time stamps))
    /\ StronglySorted Z.lt stamps
    /\ (forall t, t ∈ stamps <-> Time t ∈ values order_date)
    /\ columns out = ["Order Date"; "Sales"]
    /\ nrows out = length stamps.
Proof.
  intros Hout Hwt Hod Hdt.
  destruct (group_keys_times (values order_date)
              (datetime_cells df _ _ Hwt Hod Hdt)) as (ts & Hts & Hsorted & Hmem).
  exists ts. revert Hout. unfold groupby_agg. rewrite Hod.
  unfold mbind, result_bind. cbn [rbind rmapM fst snd].
  destruct (getitem df "Sales") as [sales|]; cbn [rbind]; [|intros [=]].
  destruct (sum_allowed sales); cbn [rbind]; [|intros [=]].
  destruct (rmapM _ (group_keys (values order_date))) as [cells|]; cbn [rbind]; [|intros [=]].
  intros [= <-]. unfold getitem, columns. cbn [cols lookup_col map fst nrows].
  rewrite Hts, Hdt, length_map. auto.
Qed.

Lemma daily_series_is_ascending_witness :
  (groupby_agg sample_dataset "Order Date" [("Sales", agg_sum)]
   = Ok (mkDF [("Order Date",
                mkSeries datetime64
                  [midnight 2023 1 1; midnight 2023 1 2; midnight 2023 1 3]);
               ("Sales", sample_sales)] 3)
   /\ well_typed sample_dataset
   /\ getitem sample_dataset "Order Date"
      = Ok (mkSeries datetime64 [midnight 2023 1 1; midnight 2023 1 2; midnight 2023 1 3])
   /\ dtype (mkSeries datetime64 [midnight 2023 1 1; midnight 2023 1 2; midnight 2023 1 3])
      = datetime64)
  /\ exists stamps,
       getitem (mkDF [("Order Date",
                       mkSeries datetime64
                         [midnight 2023 1 1; midnight 2023 1 2; midnight 2023 1 3]);
                      ("Sales", sample_sales)] 3) "Order Date"
       = Ok (mkSeries datetime64 (map Time stamps))
       /\ StronglySorted Z.lt stamps
       /\ (forall t, t ∈ stamps
                     <-> Time t ∈ values (mkSeries datetime64
                                            [midnight 2023 1 1; midnight 2023 1 2;
                                             midnight 2023 1 3]))
       /\ columns (mkDF [("Order Date",
                          mkSeries datetime64
                            [midnight 2023 1 1; midnight 2023 1 2; midnight 2023 1 3]);
                         ("Sales", sample_sales)] 3) = ["Order Date"; "Sales"]
       /\ nrows (mkDF [("Order Date",
                        mkSeries datetime64
                          [midnight 2023 1 1; midnight 2023 1 2; midnight 2023 1 3]);
                       ("Sales", sample_sales)] 3) = length stamps.
Proof.
  assert (H1 : groupby_agg sample_dataset "Order Date" [("Sales", agg_sum)]
               = Ok (mkDF [("Order Date",
                            mkSeries datetime64
                              [midnight 2023 1 1; midnight 2023 1 2; midnight 2023 1 3]);
                           ("Sales", sample_sales)] 3))
    by (vm_compute; reflexivity).
  assert (H2 : well_typed sample_dataset).
  { unfold well_typed. simpl. repeat constructor. }
  assert (H3 : getitem sample_dataset "Order Date"
               = Ok (mkSeries datetime64
                       [midnight 2023 1 1; midnight 2023 1 2; midnight 2023 1 3]))
    by reflexivity.
  assert (H4 : dtype (mkSeries datetime64
                        [midnight 2023 1 1; midnight 2023 1 2; midnight 2023 1 3])
               = datetime64) by reflexivity.
  split; [auto|].
  exact (daily_series_is_ascending sample_dataset _ _ H1 H2 H3 H4).
Defined.

(** ** The ranking of products *)





(** ** The length of display names *)

Lemma length_append_string (a b : string) :
  String.length (a +:+ b) = (String.length a + String.length b)%nat.
Proof. induction a as [|c a IH]; simpl; [reflexivity | rewrite IH; reflexivity]. Qed.

Lemma length_substring_prefix n t :
  String.length (substring 0 n t) = Nat.min n (String.length t).
Proof.
  revert n. induction t as [|c t IH]; intros [|n]; simpl; try reflexivity.
  rewrite IH. reflexivity.
Qed.

(** X15. [short_name] needs a column of dtype object.  It keeps the
    number of cells; a text cell becomes its first 30 characters (all of
    them if there are fewer) followed by three dots, so a display name
    is never longer than 33 characters; any other cell becomes missing. *)
Theorem short_name_is_bounded (s out : Series) :
  short_name s = Ok out ->
  dtype s = object_
  /\ length (values out) = length (values s)
  /\ forall i c, values s !! i = Some c ->
       match c with
       | Str t =>
           values out !! i = Some (Str (substring 0 30 t +:+ "..."))
           /\ String.length (substring 0 30 t +:+ "...")
              = (Nat.min 30 (String.length t) + 3)%nat
           /\ (String.length (substring 0 30 t +:+ "...") <= 33)%nat
       | _ => values out !! i = Some Null
       end.
Proof.
  unfold short_name, str_prefix_plus.
  destruct (dtype s) eqn:Hdt; try (intros H; discriminate H).
  destruct (str_accessor (values s)); [|intros H; discriminate H].
  intros [= <-]. cbn [values].
  split; [reflexivity|]. split; [apply length_map|].
  intros i c Hc. rewrite lookup_map, Hc. cbn [fmap option_fmap option_map].
  destruct c; try reflexivity.
  split; [reflexivity|].
  rewrite length_append_string, length_substring_prefix.
  change (String.length "...") with 3%nat. lia.
Qed.

Lemma short_name_is_bounded_witness :
  short_name (mkSeries object_ [Str "Fellowes PB500 Electric Punch Plastic Comb Binding Machine"; Null])
  = Ok (mkSeries object_ [Str "Fellowes PB500 Electric Punch ..."; Null])
  /\ dtype (mkSeries object_ [Str "Fellowes PB500 Electric Punch Plastic Comb Binding Machine"; Null])
     = object_
  /\ length (values (mkSeries object_ [Str "Fellowes PB500 Electric Punch ..."; Null]))
     = length (values (mkSeries object_ [Str "Fellowes PB500 Electric Punch Plastic Comb Binding Machine"; Null]))
  /\ forall i c,
       values (mkSeries object_ [Str "Fellowes PB500 Electric Punch Plastic Comb Binding Machine"; Null])
         !! i = Some c ->
       match c with
       | Str t =>
           values (mkSeries object_ [Str "Fellowes PB500 Electric Punch ..."; Null]) !! i
           = Some (Str (substring 0 30 t +:+ "..."))
           /\ String.length (substring 0 30 t +:+ "...")
              = (Nat.min 30 (String.length t) + 3)%nat
           /\ (String.length (substring 0 30 t +:+ "...") <= 33)%nat
       | _ => values (mkSeries object_ [Str "Fellowes PB500 Electric Punch ..."; Null]) !! i
              = Some Null
       end.
Proof.
  assert (H : short_name (mkSeries object_ [Str "Fellowes PB500 Electric Punch Plastic Comb Binding Machine"; Null])
              = Ok (mkSeries object_ [Str "Fellowes PB500 Electric Punch ..."; Null]))
    by (vm_compute; reflexivity).
  split; [exact H|].
  exact (short_name_is_bounded _ _ H).
Defined.

Example short_name_of_numbers :
  short_name (mkSeries int64 [Num 1; Num 2])
  = Raise (AttributeError "Can only use .str accessor with string values").
Proof. reflexivity. Qed.

(** An object column of numbers has no [.str] accessor either; one that
    has a name among its numbers has. *)
Example short_name_of_number_objects :
  short_name (mkSeries object_ [Num 1; Num 2])
  = Raise (AttributeError "Can only use .str accessor with string values")
  /\ short_name (mkSeries object_ [Num 1; Str "Pen"; Null])
     = Ok (mkSeries object_ [Null; Str "Pen..."; Null]).
Proof. split; reflexivity. Qed.

(** ** What [load_uploaded_data] hands over *)

(** A number is read as nanoseconds, without its fraction. *)
Example to_datetime_of_a_fraction :
  to_datetime_cell iso_datetime (Num (-3 # 2)) = Ok (Time (-1))
  /\ to_datetime_cell iso_datetime (Num (3 # 2)) = Ok (Time 1).
Proof. split; reflexivity. Qed.

Lemma validate_true_message parse_datetime df message :
  validate_dataset parse_datetime df = Ok (true, message) -> accepted parse_datetime df.
Proof.
  unfold accepted, validate_dataset.
  destruct (missing_columns df); [|intros [=]].
  destruct (_ ← getitem df "Order Date" ≫= to_datetime parse_datetime;
            getitem df "Ship Date" ≫= to_datetime parse_datetime); [|intros [=]].
  intros H. rewrite H. rewrite (check_numeric_true _ _ _ H). reflexivity.
Qed.

Lemma alloc_returns d st st' l :
  alloc d st = (st', Ok l) ->
  l = length (heap st) /\ st' = mkState (heap st ++ [d]) (out st).
Proof. intros [= <- <-]. auto. Qed.

Lemma load_value l st st' d : load l st = (st', Ok d) -> heap st !! l = Some d.
Proof.
  unfold load. destruct (heap st !! l); intros [= _ <-]. reflexivity.
Qed.

Lemma emit_state e st st' u :
  emit e st = (st', Ok u) -> st' = mkState (heap st) (out st ++ [e]).
Proof. intros [= <-]. reflexivity. Qed.

Lemma convert_dates_returns parse_datetime df st st' :
  convert_dates parse_datetime df st = (st', Ok tt) ->
  exists d od sd,
    heap st !! df = Some d
    /\ getitem d "Order Date" ≫= to_datetime parse_datetime = Ok od
    /\ getitem (setitem d "Order Date" od) "Ship Date" ≫= to_datetime parse_datetime = Ok sd
    /\ st' = mkState (<[df := setitem (setitem d "Order Date" od) "Ship Date" sd]> (heap st))
                     (out st).
Proof.
  unfold convert_dates, assign_column, load, store, lift, mbind, M_bind. simpl.
  destruct (heap st !! df) as [d|] eqn:Hd; [|intros [=]].
  assert (Hlt : (df < length (heap st))%nat) by (eapply lookup_lt_Some; eauto).
  destruct (getitem d "Order Date") as [od0|] eqn:Hod0; simpl; [|intros [=]].
  destruct (to_datetime parse_datetime od0) as [od|] eqn:Hod; simpl; [|intros [=]].
  rewrite list_lookup_insert_eq by exact Hlt.
  destruct (getitem (setitem d "Order Date" od) "Ship Date") as [sd0|] eqn:Hsd0; simpl;
    [|intros [=]].
  destruct (to_datetime parse_datetime sd0) as [sd|] eqn:Hsd; simpl; [|intros [=]].
  intros H. injection H as <-. simpl.
  rewrite list_insert_insert_eq.
  exists d, od, sd. rewrite Hod0, Hsd0. simpl. rewrite Hod, Hsd. auto.
Qed.

Lemma set_col_columns cs name s :
  In name (map fst cs) -> map fst (set_col cs name s) = map fst cs.
Proof.
  induction cs as [|[n s0] cs IH]; simpl; [tauto|].
  intros Hin. destruct (String.eqb n name) eqn:E; [reflexivity|].
  simpl. f_equal. apply IH. destruct Hin as [->|Hin]; [|exact Hin].
  rewrite String.eqb_refl in E. discriminate.
Qed.

Lemma lookup_col_named cs name s :
  lookup_col cs name = Some s -> In name (map fst cs).
Proof.
  induction cs as [|[n s0] cs IH]; simpl; [intros [=]|].
  destruct (String.eqb n name) eqn:E; [|auto].
  apply String.eqb_eq in E. auto.
Qed.

(** A normal return of [load_uploaded_data] with a table, read backwards:
    what was read, where it was put and what was shown. *)
Lemma load_uploaded_data_returns parse_datetime file st st' l :
  load_uploaded_data parse_datetime file st = (st', Ok (Some l)) ->
  exists table od sd first last category,
    file = Some (Ok table)
    /\ accepted parse_datetime table
    /\ l = length (heap st)
    /\ getitem table "Order Date" ≫= to_datetime parse_datetime = Ok od
    /\ getitem (setitem table "Order Date" od) "Ship Date"
         ≫= to_datetime parse_datetime = Ok sd
    /\ heap st' = (heap st ++ [setitem (setitem table "Order Date" od) "Ship Date" sd])%list
    /\ series_min od = Some first
    /\ series_max od = Some last
    /\ getitem table "Category" = Ok category
    /\ out st'
       = (out st
          ++ [st_success "Dataset uploaded and validated successfully!";
              st_metric "Total Records" (ShownN (nrows table));
              st_metric "Date Range"
                (ShownText (show_date (first / NS_PER_DAY) +:+ " to "
                            +:+ show_date (last / NS_PER_DAY)));
              st_metric "Categories" (ShownN (length (group_keys (values category))))])%list.
Proof.
  unfold load_uploaded_data. destruct file as [read_excel|]; [|intros [=]].
  intros H. apply bind_returns in H as (outcome & s & Hbody & H).
  destruct outcome as [loaded|e]; [injection H as -> -> | ]; cycle 1.
  { apply bind_returns in H as (? & ? & _ & [=]). }
  apply try_returns in Hbody as Hrun.
  apply bind_returns in Hrun as (df & s1 & Halloc & Hrun).
  apply bind_returns in Halloc as (table & s0 & Hread & Halloc).
  apply lift_returns in Hread as [-> ->].
  apply alloc_returns in Halloc as [-> ->].
  apply bind_returns in Hrun as (d0 & s2 & Hload & Hrun).
  pose proof (load_value _ _ _ _ Hload) as Hd0. apply load_returns in Hload as ->.
  cbn [heap] in Hd0. rewrite lookup_app_r, Nat.sub_diag in Hd0 by lia.
  injection Hd0 as <-.
  apply bind_returns in Hrun as ([[|] message] & s3 & Hvalid & Hrun); cycle 1.
  { apply bind_returns in Hrun as (? & ? & _ & Hrun).
    apply bind_returns in Hrun as (? & ? & _ & [=]). }
  apply lift_returns in Hvalid as [-> Hvalid].
  apply validate_true_message in Hvalid.
  apply bind_returns in Hrun as (normalised & s4 & Hinner & Hrun).
  destruct normalised as [[]|e]; [injection Hrun as -> <- | ]; cycle 1.
  { apply bind_returns in Hrun as (? & ? & _ & [=]). }
  apply try_returns in Hinner as Htail.
  apply bind_returns in Htail as ([] & s5 & Hconv & Htail).
  apply convert_dates_returns in Hconv as (d & od & sd & Hd & Hod & Hsd & ->).
  cbn [heap out] in *. rewrite lookup_app_r, Nat.sub_diag in Hd by lia.
  injection Hd as <-.
  apply bind_returns in Htail as ([] & s6 & Hemit & Htail).
  apply emit_state in Hemit as ->. cbn [heap out] in Htail.
  apply bind_returns in Htail as (d & s7 & Hload & Htail).
  pose proof (load_value _ _ _ _ Hload) as Hd. apply load_returns in Hload as ->.
  cbn [heap] in Hd.
  rewrite insert_app_r_alt, Nat.sub_diag in Hd by lia. cbn [insert list_insert] in Hd.
  rewrite lookup_app_r, Nat.sub_diag in Hd by lia. injection Hd as <-.
  apply bind_returns in Htail as ([] & s8 & Hemit & Htail).
  apply emit_state in Hemit as ->. cbn [heap out] in Htail.
  apply bind_returns in Htail as (first & s9 & Hfirst & Htail).
  apply lift_returns in Hfirst as [-> Hfirst].
  apply bind_returns in Htail as (last & s10 & Hlast & Htail).
  apply lift_returns in Hlast as [-> Hlast].
  apply bind_returns in Htail as ([] & s11 & Hemit & Htail).
  apply emit_state in Hemit as ->. cbn [heap out] in Htail.
  apply bind_returns in Htail as (category & s12 & Hcat & Htail).
  apply lift_returns in Hcat as [-> Hcat].
  apply emit_state in Htail as ->. cbn [heap out].
  assert (Hodc : exists od0, lookup_col (cols table) "Order Date" = Some od0).
  { unfold getitem in Hod. destruct (lookup_col (cols table) "Order Date"); eauto.
    discriminate Hod. }
  destruct Hodc as [od0 Hod0].
  assert (Hgo : getitem (setitem (setitem table "Order Date" od) "Ship Date" sd) "Order Date"
                = Ok od).
  { unfold getitem, setitem. cbn [cols].
    rewrite lookup_set_col_other by discriminate. rewrite lookup_set_col_same. reflexivity. }
  rewrite Hgo in Hfirst, Hlast. cbn in Hfirst, Hlast.
  unfold strftime_day in Hfirst, Hlast.
  destruct (series_min od) as [tmin|] eqn:Hmin; [|discriminate Hfirst].
  destruct (series_max od) as [tmax|] eqn:Hmax; [|discriminate Hlast].
  injection Hfirst as <-. injection Hlast as <-.
  assert (Hgc : getitem table "Category" = Ok category).
  { revert Hcat. unfold getitem, setitem. cbn [cols].
    rewrite !lookup_set_col_other by discriminate. auto. }
  exists table, od, sd, tmin, tmax, category.
  repeat (split; [first [reflexivity | assumption]|]).
  split.
  { rewrite insert_app_r_alt, Nat.sub_diag by lia. reflexivity. }
  repeat (split; [first [reflexivity | assumption]|]).
  rewrite <- !app_assoc. reflexivity.
Qed.

Lemma rmapM_length {A B} (f : A -> result B) (l : list A) l' :
  rmapM f l = Ok l' -> length l' = length l.
Proof.
  revert l'. induction l as [|a l IH]; simpl; intros l'.
  - intros [= <-]. reflexivity.
  - destruct (f a) as [b|]; simpl; [|intros [=]].
    destruct (rmapM f l) as [bs|]; simpl; [|intros [=]].
    intros [= <-]. simpl. f_equal. apply IH. reflexivity.
Qed.

Lemma to_datetime_length parse_datetime s s' :
  to_datetime parse_datetime s = Ok s' -> length (values s') = length (values s).
Proof.
  unfold to_datetime.
  destruct (dtype s); try discriminate;
    try (destruct (rmapM _ _) as [vs|] eqn:E; simpl;
         [intros [= <-]; simpl; eapply rmapM_length, E | discriminate]).
  intros [= <-]. reflexivity.
Qed.

Lemma lookup_col_member cs name s : lookup_col cs name = Some s -> In (name, s) cs.
Proof.
  induction cs as [|[n s0] cs IH]; simpl; [intros [=]|].
  destruct (String.eqb n name) eqn:E; [|auto].
  apply String.eqb_eq in E. intros [= <-]. subst. auto.
Qed.

Lemma set_col_not_nil cs name s : set_col cs name s <> [].
Proof.
  destruct cs as [|[n s0] cs]; simpl; [discriminate|].
  destruct (String.eqb n name); discriminate.
Qed.

Lemma series_min_values s t : series_min s = Some t -> values s <> [].
Proof.
  unfold series_min, times. destruct (values s); [discriminate|]. discriminate.
Qed.

(** X16. [load_uploaded_data] returns a table only for an upload that was
    read and passed validation.  The table is a new object, placed after
    everything the heap held, which is left as it was; it is the upload
    with its two date columns converted: normalised, with the column names,
    the number of rows and every other column of the upload. *)
Theorem upload_is_handed_over_converted (parse_datetime : string -> option Z)
    (file : option (result DataFrame)) (st st' : State) (l : nat) :
  load_uploaded_data parse_datetime file st = (st', Ok (Some l)) ->
  exists table d,
    file = Some (Ok table)
    /\ accepted parse_datetime table
    /\ l = length (heap st)
    /\ heap st' = (heap st ++ [d])%list
    /\ normalized d
    /\ columns d = columns table
    /\ nrows d = nrows table
    /\ forall name, name <> "Order Date" -> name <> "Ship Date" ->
         getitem d name = getitem table name.
Proof.
  intros H.
  apply load_uploaded_data_returns in H
    as (table & od & sd & first & last & category & -> & Hacc & -> & Hod & Hsd & Hheap & _).
  exists table, (setitem (setitem table "Order Date" od) "Ship Date" sd).
  repeat (split; [first [reflexivity | assumption]|]).
  assert (Hod0 : exists od0, lookup_col (cols table) "Order Date" = Some od0
                             /\ to_datetime parse_datetime od0 = Ok od).
  { unfold getitem in Hod. destruct (lookup_col (cols table) "Order Date"); eauto.
    discriminate Hod. }
  destruct Hod0 as (od0 & Hod0 & Hcod).
  assert (Hsd0 : exists sd0, lookup_col (set_col (cols table) "Order Date" od) "Ship Date"
                             = Some sd0 /\ to_datetime parse_datetime sd0 = Ok sd).
  { unfold getitem, setitem in Hsd. cbn [cols] in Hsd.
    destruct (lookup_col (set_col (cols table) "Order Date" od) "Ship Date"); eauto.
    discriminate Hsd. }
  destruct Hsd0 as (sd0 & Hsd0 & Hcsd).
  split.
  { exists od, sd. unfold setitem. cbn [cols].
    rewrite lookup_set_col_other by discriminate. rewrite !lookup_set_col_same.
    repeat split; eapply to_datetime_dtype; eauto. }
  split.
  { unfold columns, setitem. cbn [cols].
    rewrite set_col_columns by (eapply lookup_col_named; eauto).
    apply set_col_columns. eapply lookup_col_named; eauto. }
  split; [reflexivity|].
  intros name H1 H2. unfold getitem, setitem. cbn [cols].
  rewrite !lookup_set_col_other by congruence. reflexivity.
Qed.

Lemma upload_is_handed_over_converted_witness :
  load_uploaded_data iso_datetime (Some (Ok sample_data)) (mkState [sample_dataset] [])
  = (fst (load_uploaded_data iso_datetime (Some (Ok sample_data))
            (mkState [sample_dataset] [])), Ok (Some 1%nat))
  /\ exists table d,
       Some (Ok sample_data) = Some (Ok table)
       /\ accepted iso_datetime table
       /\ 1%nat = length (heap (mkState [sample_dataset] []))
       /\ heap (fst (load_uploaded_data iso_datetime (Some (Ok sample_data))
                       (mkState [sample_dataset] [])))
          = (heap (mkState [sample_dataset] []) ++ [d])%list
       /\ normalized d
       /\ columns d = columns table
       /\ nrows d = nrows table
       /\ forall name, name <> "Order Date" -> name <> "Ship Date" ->
            getitem d name = getitem table name.
Proof.
  assert (H : load_uploaded_data iso_datetime (Some (Ok sample_data))
                (mkState [sample_dataset] [])
              = (fst (load_uploaded_data iso_datetime (Some (Ok sample_data))
                        (mkState [sample_dataset] [])), Ok (Some 1%nat)))
    by (vm_compute; reflexivity).
  split; [exact H|].
  exact (upload_is_handed_over_converted iso_datetime (Some (Ok sample_data))
           (mkState [sample_dataset] []) _ 1 H).
Defined.

(** The upload of the instructions is handed over as the sample with its
    dates converted. *)
Example sample_upload_is_loaded :
  heap (fst (run (load_uploaded_data iso_datetime (Some (Ok sample_data)))))
  = [sample_dataset].
Proof. vm_compute. reflexivity. Qed.

(** X17. A table that [load_uploaded_data] returns has a row and a column:
    the summary of the date range needs an order date, so an upload
    without rows ends in the message of the date conversion.  The test
    [df.empty] in [main] is false whenever a table was returned. *)
Theorem loaded_table_is_not_empty (parse_datetime : string -> option Z)
    (table : DataFrame) (st st' : State) (l : nat) :
  rectangular table ->
  load_uploaded_data parse_datetime (Some (Ok table)) st = (st', Ok (Some l)) ->
  exists d, heap st' !! l = Some d /\ empty d = false /\ (0 < nrows table)%nat.
Proof.
  intros Hrect H.
  apply load_uploaded_data_returns in H
    as (table' & od & sd & first & last & category & Hfile & _ & -> & Hod & _ & Hheap
        & Hmin & _).
  injection Hfile as <-.
  assert (Hrows : (0 < nrows table)%nat).
  { unfold getitem in Hod.
    destruct (lookup_col (cols table) "Order Date") as [od0|] eqn:Hod0; [|discriminate Hod].
    cbn in Hod. apply to_datetime_length in Hod.
    apply lookup_col_member in Hod0.
    unfold rectangular in Hrect. rewrite Forall_forall in Hrect.
    apply list_elem_of_In in Hod0. specialize (Hrect _ Hod0). cbn in Hrect.
    apply series_min_values in Hmin.
    destruct (values od); [contradiction|]. simpl in Hod. lia. }
  eexists. split; [rewrite Hheap, lookup_app_r, Nat.sub_diag by lia; reflexivity|].
  split; [|exact Hrows].
  unfold empty, setitem. cbn [nrows cols].
  apply orb_false_iff. split.
  - apply Nat.eqb_neq. lia.
  - apply Nat.eqb_neq.
    destruct (set_col (set_col (cols table) "Order Date" od) "Ship Date" sd) eqn:E;
      [|simpl; lia].
    exfalso. eapply set_col_not_nil, E.
Qed.

Lemma loaded_table_is_not_empty_witness :
  (rectangular sample_data
   /\ load_uploaded_data iso_datetime (Some (Ok sample_data)) (mkState [] [])
      = (fst (load_uploaded_data iso_datetime (Some (Ok sample_data)) (mkState [] [])),
         Ok (Some 0%nat)))
  /\ exists d,
       heap (fst (load_uploaded_data iso_datetime (Some (Ok sample_data))
                    (mkState [] []))) !! 0%nat = Some d
       /\ empty d = false /\ (0 < nrows sample_data)%nat.
Proof.
  assert (H1 : rectangular sample_data) by (repeat constructor).
  assert (H2 : load_uploaded_data iso_datetime (Some (Ok sample_data)) (mkState [] [])
               = (fst (load_uploaded_data iso_datetime (Some (Ok sample_data))
                         (mkState [] [])), Ok (Some 0%nat)))
    by (vm_compute; reflexivity).
  split; [split; [exact H1 | exact H2]|].
  exact (loaded_table_is_not_empty iso_datetime sample_data (mkState [] []) _ 0 H1 H2).
Defined.

(** A table without rows passes validation and the conversion of its
    dates; it is refused where the summary formats the first order
    date. *)
Example typed_no_rows_is_not_loaded :
  snd (run (load_uploaded_data iso_datetime (Some (Ok typed_no_rows)))) = Ok None
  /\ out (fst (run (load_uploaded_data iso_datetime (Some (Ok typed_no_rows)))))
     = [st_success "Dataset uploaded and validated successfully!";
        st_metric "Total Records" (ShownN 0);
        st_error "Error converting dates: NaTType does not support strftime"].
Proof. split; vm_compute; reflexivity. Qed.

(** ** What [main] does with an upload *)

Lemma validate_dataset_returns parse_datetime df :
  exists ok message, validate_dataset parse_datetime df = Ok (ok, message).
Proof.
  unfold validate_dataset. destruct (missing_columns df) as [|m ms] eqn:Emiss; [|eauto].
  destruct (check_numeric_spec df numeric_columns) as ([ok message] & Hr & _).
  { intros name Hn. eapply missing_columns_nil_inv; [exact Emiss|].
    apply numeric_columns_required, Hn. }
  destruct (_ ← getitem df "Order Date" ≫= to_datetime parse_datetime;
            getitem df "Ship Date" ≫= to_datetime parse_datetime); eauto.
Qed.

(** A walk through a computation under [shows_only P]; [shown] proves [P]
    of the event at hand. *)
Ltac shows_walk_with shown :=
  repeat
    (try contradiction;
     lazymatch goal with
     | |- keeps _ (mbind _ _) _ => eapply keeps_bind; [ | intros ? ? ]
     | |- keeps _ (raise _) _ => first [ apply keeps_raise_False | apply keeps_raise ]
     | |- keeps _ (try_ _) _ =>
         eapply keeps_weaken; [ apply keeps_try_result | intros ? ?; exact Logic.I ]
     | |- keeps _ (match ?x with _ => _ end) _ => destruct x
     | |- keeps _ _ _ =>
         eapply keeps_weaken;
         [ first [ apply keeps_shows_emit; shown
                 | apply keeps_shows_alloc
                 | apply keeps_shows_load
                 | apply keeps_shows_store
                 | apply keeps_lift_any
                 | apply keeps_ret_any ]
         | first [ intros ? ?; eassumption | intros; exact Logic.I ] ]
     end).

(** What [main] shows for a file that cannot be read, and for a table
    that validation rejects. *)
Lemma main_unreadable parse_datetime csv_field env w e st :
  main parse_datetime csv_field env (Some (Raise e)) w st
  = (mkState (heap st)
       (out st ++ [st_subheader "Data Upload";
                   st_error ("Error reading file: " +:+ exn_text e);
                   st_error "Please upload a valid dataset to see the analysis."])%list,
     Ok tt).
Proof.
  unfold main, load_uploaded_data, try_, lift, emit, mbind, M_bind, mret, M_ret.
  cbn [heap out]. rewrite <- !app_assoc. reflexivity.
Qed.

Lemma main_rejected parse_datetime csv_field env w table message st :
  validate_dataset parse_datetime table = Ok (false, message) ->
  main parse_datetime csv_field env (Some (Ok table)) w st
  = (mkState (heap st ++ [table])
       (out st ++ [st_subheader "Data Upload";
                   st_error ("Dataset validation failed: " +:+ message);
                   st_info ("Required columns: " +:+ String.concat ", " REQUIRED_COLUMNS);
                   st_error "Please upload a valid dataset to see the analysis."])%list,
     Ok tt).
Proof.
  intros Hv.
  unfold main, load_uploaded_data, try_, lift, emit, alloc, load, mbind, M_bind, mret, M_ret.
  cbn [heap out]. rewrite lookup_app_r, Nat.sub_diag by lia. cbn [lookup list_lookup].
  rewrite Hv. cbn [heap out]. rewrite <- !app_assoc. reflexivity.
Qed.

(** X18. An upload that cannot be read or does not pass validation is not
    analysed: [main] returns normally, and after the heading of the
    upload section it shows the reason, as one or two messages, and the
    request for a valid dataset, and nothing else. *)
Theorem main_refuses_rejected_upload (parse_datetime : string -> option Z)
    (csv_field : Dtype -> Cell -> string) (env : Env) (w : Widgets)
    (read_excel : result DataFrame) (st : State) :
  (forall table, read_excel = Ok table -> ~ accepted parse_datetime table) ->
  snd (main parse_datetime csv_field env (Some read_excel) w st) = Ok tt
  /\ exists reasons,
       out (fst (main parse_datetime csv_field env (Some read_excel) w st))
       = (out st ++ st_subheader "Data Upload" :: reasons
          ++ [st_error "Please upload a valid dataset to see the analysis."])%list
       /\ reasons <> []
       /\ Forall (fun e => (exists msg, e = st_error msg) \/ (exists msg, e = st_info msg))
                 reasons.
Proof.
  intros Hrej. destruct read_excel as [table|e].
  - destruct (validate_dataset_returns parse_datetime table) as ([|] & message & Hv).
    { exfalso. apply (Hrej table eq_refl). eapply validate_true_message, Hv. }
    rewrite (main_rejected _ _ _ _ _ _ _ Hv). split; [reflexivity|].
    eexists [_; _]. split; [reflexivity|]. split; [discriminate|].
    constructor; [left; eauto|]. constructor; [right; eauto | constructor].
  - rewrite main_unreadable. split; [reflexivity|].
    eexists [_]. split; [reflexivity|]. split; [discriminate|].
    constructor; [left; eauto | constructor].
Qed.

Lemma main_refuses_rejected_upload_witness :
  (forall table, Ok header_only = Ok table -> ~ accepted iso_datetime table)
  /\ snd (main iso_datetime plain_field env_full (Some (Ok header_only)) sample_widgets
            (mkState [] [])) = Ok tt
  /\ exists reasons,
       out (fst (main iso_datetime plain_field env_full (Some (Ok header_only))
                   sample_widgets (mkState [] [])))
       = (out (mkState [] []) ++ st_subheader "Data Upload" :: reasons
          ++ [st_error "Please upload a valid dataset to see the analysis."])%list
       /\ reasons <> []
       /\ Forall (fun e => (exists msg, e = st_error msg) \/ (exists msg, e = st_info msg))
                 reasons.
Proof.
  assert (H : forall table, Ok header_only = Ok table -> ~ accepted iso_datetime table).
  { intros table [= <-]. unfold accepted. vm_compute. discriminate. }
  split; [exact H|].
  exact (main_refuses_rejected_upload iso_datetime plain_field env_full sample_widgets
           (Ok header_only) (mkState [] []) H).
Defined.

(** What is shown for a file that is no spreadsheet. *)
Example unreadable_upload_run :
  run (main iso_datetime plain_field env_full
         (Some (Raise (ValueError "File is not a zip file"))) sample_widgets)
  = (mkState []
       [st_subheader "Data Upload";
        st_error "Error reading file: File is not a zip file";
        st_error "Please upload a valid dataset to see the analysis."],
     Ok tt).
Proof. vm_compute. reflexivity. Qed.

(** Without a file [main] shows the instructions and the sample. *)
Example no_upload_run :
  run (main iso_datetime plain_field env_full None sample_widgets)
  = (mkState []
       [st_subheader "Data Upload";
        st_info "Please upload an Excel file (.xlsx) with the same structure as Global Superstore to begin analysis.";
        st_dataframe sample_data],
     Ok tt).
Proof. reflexivity. Qed.

(** ** Without the charting library *)

Ltac not_past_first_charts :=
  unfold past_first_charts, past_forecast; intros ?;
  repeat match goal with
         | H : _ \/ _ |- _ => destruct H
         | H : ex _ |- _ => destruct H
         end;
  discriminate.

(** The first row of charts does not return: the chart of the daily sales
    is replaced by a table, the chart of the categories is drawn with
    [px] all the same. *)
Lemma first_charts_raises env filtered out0 :
  PLOTLY_AVAILABLE env = false ->
  keeps (shows_only (fun e => ~ past_first_charts e) out0)
        (first_charts env filtered) (fun _ => False).
Proof.
  intros Hp. unfold first_charts, plotly. rewrite Hp. cbv iota.
  do 8 (eapply keeps_bind with (Q := fun _ => True);
        [ shows_walk_with not_past_first_charts | intros ? _ ]).
  eapply keeps_bind with (Q := fun _ => False); [apply keeps_raise | intros ? []].
Qed.

Lemma show_analysis_stops_at_first_charts parse_datetime csv_field env w df out0 :
  PLOTLY_AVAILABLE env = false ->
  keeps (shows_only (fun e => ~ past_first_charts e) out0)
        (show_analysis parse_datetime csv_field env w df) (fun _ => True).
Proof.
  intros Hp.
  unfold show_analysis, convert_dates, date_bounds, filter_data, kpi_panel, assign_column.
  repeat
    (lazymatch goal with
     | |- keeps _ (mbind _ (first_charts _ _)) _ =>
         eapply keeps_bind;
         [ apply first_charts_raises; exact Hp
         | let a := fresh in let F := fresh in intros a F; exact (False_ind _ F) ]
     | |- keeps _ (mbind _ _) _ => eapply keeps_bind; [ | intros ? ? ]
     | |- keeps _ (raise _) _ => apply keeps_raise
     | |- keeps _ (try_ _) _ =>
         eapply keeps_weaken; [ apply keeps_try_result | intros ? ?; exact Logic.I ]
     | |- keeps _ (match ?x with _ => _ end) _ => destruct x
     | |- keeps _ _ _ =>
         eapply keeps_weaken;
         [ first [ apply keeps_shows_emit; not_past_first_charts
                 | apply keeps_shows_alloc
                 | apply keeps_shows_load
                 | apply keeps_shows_store
                 | apply keeps_lift_any
                 | apply keeps_ret_any ]
         | first [ intros ? ?; eassumption | intros; exact Logic.I ] ]
     end).
Qed.

(** X19. When plotly could not be imported, a run of [show_analysis] shows
    no chart and does not get past the first row of charts: the chart of
    the categories is drawn without the test of [PLOTLY_AVAILABLE], so the
    discount analysis, the product ranking, the forecast, the insights and
    the download are never shown. *)
Theorem missing_plotly_stops_the_page (parse_datetime : string -> option Z)
    (csv_field : Dtype -> Cell -> string) (env : Env) (w : Widgets)
    (df : nat) (st : State) :
  PLOTLY_AVAILABLE env = false ->
  exists events,
    out (fst (show_analysis parse_datetime csv_field env w df st))
    = (out st ++ events)%list
    /\ Forall (fun e => ~ past_first_charts e) events.
Proof.
  intros Hp.
  destruct (show_analysis_stops_at_first_charts parse_datetime csv_field env w df
              (out st) Hp st) as [H _]; [|exact H].
  exists []. split; [rewrite app_nil_r; reflexivity | constructor].
Qed.

Lemma missing_plotly_stops_the_page_witness :
  PLOTLY_AVAILABLE env_no_plotly = false
  /\ exists events,
       out (fst (show_analysis iso_datetime plain_field env_no_plotly sample_widgets 0
                   (mkState [sample_dataset] [])))
       = (out (mkState [sample_dataset] []) ++ events)%list
       /\ Forall (fun e => ~ past_first_charts e) events.
Proof.
  assert (H : PLOTLY_AVAILABLE env_no_plotly = false) by reflexivity.
  split; [exact H|].
  exact (missing_plotly_stops_the_page iso_datetime plain_field env_no_plotly
           sample_widgets 0 (mkState [sample_dataset] []) H).
Defined.

(** The run on the sample: the table of the daily sales stands for the
    first chart, and the second chart ends the run. *)
Example no_plotly_run_raises :
  snd (show_analysis iso_datetime plain_field env_no_plotly sample_widgets 0
         (mkState [sample_dataset] [])) = Raise (NameError "px")
  /\ st_error "Plotly not available. Charts disabled."
     ∈ out (fst (show_analysis iso_datetime plain_field env_no_plotly sample_widgets 0
                   (mkState [sample_dataset] [])))
  /\ last (out (fst (show_analysis iso_datetime plain_field env_no_plotly sample_widgets 0
                       (mkState [sample_dataset] []))))
     = Some (st_subheader "Profit by Category").
Proof.
  split; [vm_compute; reflexivity|]. split; [|vm_compute; reflexivity].
  apply list_elem_of_In. vm_compute. repeat (first [left; reflexivity | right]).
Qed.

(** ** The most profitable category *)

Lemma argmax_from_spec keys : forall qs best_key best,
  length keys = length qs ->
  (argmax_from best_key (Num best) keys (map Num qs) = best_key
   /\ forall j q', qs !! j = Some q' -> (q' <= best)%Q)
  \/ exists i q,
       keys !! i = Some (argmax_from best_key (Num best) keys (map Num qs))
       /\ qs !! i = Some q
       /\ (best < q)%Q
       /\ (forall j q', qs !! j = Some q' -> (q' <= q)%Q)
       /\ (forall j q', (j < i)%nat -> qs !! j = Some q' -> (q' < q)%Q).
Proof.
  induction keys as [|k0 keys IH]; intros [|q0 qs] best_key best Hlen;
    try discriminate Hlen.
  - left. split; [reflexivity|]. intros j q' H. destruct j; discriminate H.
  - cbn [map argmax_from cell_ltb]. injection Hlen as Hlen.
    destruct (Qltb best q0) eqn:E.
    + apply Qltb_lt in E. right.
      destruct (IH qs k0 q0 Hlen) as [[Hk Hall] | (i & q & Hi & Hq & Hlt & Hall & Hbefore)].
      * exists 0%nat, q0. rewrite Hk.
        split; [reflexivity|]. split; [reflexivity|]. split; [exact E|].
        split; [|intros j q' Hj; lia].
        intros [|j] q' Hj; [injection Hj as <-; apply Qle_refl | eapply Hall, Hj].
      * exists (S i), q.
        split; [exact Hi|]. split; [exact Hq|].
        split; [eapply Qlt_trans; eassumption|].
        split.
        -- intros [|j] q' Hj; [injection Hj as <-; apply Qlt_le_weak, Hlt | eapply Hall, Hj].
        -- intros [|j] q' Hji Hj; [injection Hj as <-; exact Hlt|].
           eapply Hbefore; [|exact Hj]. lia.
    + apply Qltb_ge in E.
      destruct (IH qs best_key best Hlen)
        as [[Hk Hall] | (i & q & Hi & Hq & Hlt & Hall & Hbefore)].
      * left. split; [exact Hk|].
        intros [|j] q' Hj; [injection Hj as <-; exact E | eapply Hall, Hj].
      * right. exists (S i), q.
        split; [exact Hi|]. split; [exact Hq|]. split; [exact Hlt|].
        split.
        -- intros [|j] q' Hj; [|eapply Hall, Hj].
           injection Hj as <-. apply Qlt_le_weak. eapply Qle_lt_trans; eassumption.
        -- intros [|j] q' Hji Hj; [|eapply Hbefore; [|exact Hj]; lia].
           injection Hj as <-. eapply Qle_lt_trans; eassumption.
Qed.

(** X20. [idxmax] over the totals of the groups returns the key of a
    largest total, and of the first one among equals: no total is greater,
    and every total before it is smaller.  Without groups it raises. *)
Theorem idxmax_is_first_largest (keys : list Cell) (totals : list Q) :
  length keys = length totals ->
  match idxmax keys (map Num totals) with
  | Ok k =>
      exists i q,
        keys !! i = Some k
        /\ totals !! i = Some q
        /\ (forall j q', totals !! j = Some q' -> (q' <= q)%Q)
        /\ (forall j q', (j < i)%nat -> totals !! j = Some q' -> (q' < q)%Q)
  | Raise _ => keys = []
  end.
Proof.
  intros Hlen. destruct keys as [|k0 keys], totals as [|q0 totals]; try discriminate Hlen.
  - reflexivity.
  - injection Hlen as Hlen. cbn [idxmax map].
    destruct (argmax_from_spec keys totals k0 q0 Hlen)
      as [[Hk Hall] | (i & q & Hi & Hq & Hlt & Hall & Hbefore)].
    + exists 0%nat, q0. rewrite Hk.
      split; [reflexivity|]. split; [reflexivity|].
      split; [|intros j q' Hj; lia].
      intros [|j] q' Hj; [injection Hj as <-; apply Qle_refl | eapply Hall, Hj].
    + exists (S i), q.
      split; [exact Hi|]. split; [exact Hq|].
      split.
      * intros [|j] q' Hj; [injection Hj as <-; apply Qlt_le_weak, Hlt | eapply Hall, Hj].
      * intros [|j] q' Hji Hj; [injection Hj as <-; exact Hlt|].
        eapply Hbefore; [|exact Hj]. lia.
Qed.

Lemma idxmax_is_first_largest_witness :
  length [Str "Furniture"; Str "Office Supplies"; Str "Technology"]
  = length [5999 # 100; 319 # 100; 19999 # 100]%Q
  /\ match idxmax [Str "Furniture"; Str "Office Supplies"; Str "Technology"]
             (map Num [5999 # 100; 319 # 100; 19999 # 100]%Q) with
     | Ok k =>
         exists i q,
           [Str "Furniture"; Str "Office Supplies"; Str "Technology"] !! i = Some k
           /\ [5999 # 100; 319 # 100; 19999 # 100]%Q !! i = Some q
           /\ (forall j q', [5999 # 100; 319 # 100; 19999 # 100]%Q !! j = Some q'
                            -> (q' <= q)%Q)
           /\ (forall j q', (j < i)%nat ->
                            [5999 # 100; 319 # 100; 19999 # 100]%Q !! j = Some q'
                            -> (q' < q)%Q)
     | Raise _ => [Str "Furniture"; Str "Office Supplies"; Str "Technology"] = []
     end.
Proof.
  assert (H : length [Str "Furniture"; Str "Office Supplies"; Str "Technology"]
              = length [5999 # 100; 319 # 100; 19999 # 100]%Q) by reflexivity.
  split; [exact H|].
  exact (idxmax_is_first_largest [Str "Furniture"; Str "Office Supplies"; Str "Technology"]
           [5999 # 100; 319 # 100; 19999 # 100]%Q H).
Defined.

(** The category the insights name for the sample. *)
Example best_category_of_the_sample :
  (by_category ← groupby_agg sample_dataset "Category" [("Profit", agg_sum)];
   keys ← getitem by_category "Category";
   sums ← getitem by_category "Profit";
   idxmax (values keys) (values sums))
  = Ok (Str "Technology").
Proof. vm_compute. reflexivity. Qed.

(** ** The share of unprofitable orders *)

Lemma lt_zero_numeric s :
  Forall numeric_cell (values s) ->
  exists mask, lt_zero s = Ok mask /\ length mask = length (values s).
Proof.
  unfold lt_zero. induction (values s) as [|c vs IH]; intros Hall.
  - exists []. split; reflexivity.
  - inversion Hall as [|? ? Hc Hvs]; subst.
    destruct (IH Hvs) as (mask & Hmask & Hlen).
    cbn [rmapM]. rewrite Hmask.
    destruct c; try contradiction; cbn; eexists; (split; [reflexivity|]); simpl; lia.
Qed.

Lemma Qnat_nonneg n : (0 <= Qnat n)%Q.
Proof. unfold Qnat, Qle. simpl. lia. Qed.

Lemma Qnat_pos n : (0 < n)%nat -> (0 < Qnat n)%Q.
Proof. unfold Qnat, Qlt. simpl. lia. Qed.

Lemma Qnat_le m n : (m <= n)%nat -> (Qnat m <= Qnat n)%Q.
Proof. unfold Qnat, Qle. simpl. lia. Qed.

(** X21. On a table with at least one row and a numeric profit column, the
    share of orders with a negative profit is a finite number between 0
    and 100. *)
Theorem negative_profit_pct_is_a_percentage (df : DataFrame) (profit : Series) :
  getitem df "Profit" = Ok profit ->
  Forall numeric_cell (values profit) ->
  length (values profit) = len df ->
  (0 < len df)%nat ->
  exists p, negative_profit_pct df = Ok (Fin p) /\ (0 <= p <= 100)%Q.
Proof.
  intros Hp Hnum Hlen Hrows.
  destruct (lt_zero_numeric profit Hnum) as (mask & Hmask & Hmlen).
  unfold negative_profit_pct. rewrite Hp. cbn [mbind result_bind rbind].
  rewrite Hmask. cbn [rbind].
  pose proof (count_true_le mask) as Hcount.
  pose proof (Qnat_pos (len df) Hrows) as Hpos.
  unfold np_divide.
  destruct (Qeq_bool (Qnat (len df)) 0) eqn:E.
  { apply Qeq_bool_iff in E. rewrite E in Hpos. apply Qlt_irrefl in Hpos. contradiction. }
  cbn [fnum_scale]. eexists. split; [reflexivity|].
  split.
  - apply Qmult_le_0_compat; [|discriminate].
    apply Qle_shift_div_l; [exact Hpos|]. rewrite Qmult_0_l. apply Qnat_nonneg.
  - apply (Qle_trans _ (1 * 100)%Q); [|exact (Qle_refl 100)].
    apply Qmult_le_compat_r; [|discriminate].
    apply Qle_shift_div_r; [exact Hpos|]. rewrite Qmult_1_l.
    apply Qnat_le. lia.
Qed.

Lemma negative_profit_pct_is_a_percentage_witness :
  (getitem sample_dataset "Profit"
   = Ok (mkSeries float64 [Num (19999 # 100); Num (5999 # 100); Num (319 # 100)])
   /\ Forall numeric_cell
        (values (mkSeries float64 [Num (19999 # 100); Num (5999 # 100); Num (319 # 100)]))
   /\ length (values (mkSeries float64
                        [Num (19999 # 100); Num (5999 # 100); Num (319 # 100)]))
      = len sample_dataset
   /\ (0 < len sample_dataset)%nat)
  /\ exists p, negative_profit_pct sample_dataset = Ok (Fin p) /\ (0 <= p <= 100)%Q.
Proof.
  assert (H1 : getitem sample_dataset "Profit"
               = Ok (mkSeries float64 [Num (19999 # 100); Num (5999 # 100); Num (319 # 100)]))
    by reflexivity.
  assert (H2 : Forall numeric_cell
                 (values (mkSeries float64
                            [Num (19999 # 100); Num (5999 # 100); Num (319 # 100)])))
    by (repeat constructor).
  assert (H3 : length (values (mkSeries float64
                                 [Num (19999 # 100); Num (5999 # 100); Num (319 # 100)]))
               = len sample_dataset) by reflexivity.
  assert (H4 : (0 < len sample_dataset)%nat) by (vm_compute; lia).
  split; [auto|].
  exact (negative_profit_pct_is_a_percentage sample_dataset _ H1 H2 H3 H4).
Defined.

(** ** The bounds of the date filter *)

Lemma fold_min_spec t ts :
  fold_right Z.min t ts ∈ t :: ts
  /\ forall x, x ∈ t :: ts -> (fold_right Z.min t ts <= x)%Z.
Proof.
  induction ts as [|y ts [IHin IHle]]; simpl.
  - split; [left|]. intros x Hx. apply list_elem_of_singleton in Hx. lia.
  - split.
    + destruct (Z.min_spec y (fold_right Z.min t ts)) as [[_ ->] | [_ ->]].
      * right. left.
      * apply elem_of_cons in IHin as [Heq|Hin]; [rewrite Heq; left | right; right; exact Hin].
    + intros x Hx. apply elem_of_cons in Hx as [->|Hx].
      * specialize (IHle t ltac:(left)). lia.
      * apply elem_of_cons in Hx as [->|Hx]; [lia|].
        specialize (IHle x ltac:(right; exact Hx)). lia.
Qed.

Lemma fold_max_spec t ts :
  fold_right Z.max t ts ∈ t :: ts
  /\ forall x, x ∈ t :: ts -> (x <= fold_right Z.max t ts)%Z.
Proof.
  induction ts as [|y ts [IHin IHle]]; simpl.
  - split; [left|]. intros x Hx. apply list_elem_of_singleton in Hx. lia.
  - split.
    + destruct (Z.max_spec y (fold_right Z.max t ts)) as [[_ ->] | [_ ->]].
      * apply elem_of_cons in IHin as [Heq|Hin]; [rewrite Heq; left | right; right; exact Hin].
      * right. left.
    + intros x Hx. apply elem_of_cons in Hx as [->|Hx].
      * specialize (IHle t ltac:(left)). lia.
      * apply elem_of_cons in Hx as [->|Hx]; [lia|].
        specialize (IHle x ltac:(right; exact Hx)). lia.
Qed.

Lemma elem_of_times s t : t ∈ times s <-> exists i, values s !! i = Some (Time t).
Proof.
  unfold times. rewrite list_elem_of_omap. split.
  - intros (c & Hc & Ht). destruct c; try discriminate Ht. injection Ht as ->.
    apply list_elem_of_lookup_1 in Hc. exact Hc.
  - intros (i & Hi). exists (Time t). split; [eapply list_elem_of_lookup_2, Hi | reflexivity].
Qed.

Lemma series_min_spec s t :
  series_min s = Some t -> t ∈ times s /\ forall x, x ∈ times s -> (t <= x)%Z.
Proof.
  unfold series_min. destruct (times s) as [|t0 ts]; [discriminate|].
  intros [= <-]. apply fold_min_spec.
Qed.

Lemma series_max_spec s t :
  series_max s = Some t -> t ∈ times s /\ forall x, x ∈ times s -> (x <= t)%Z.
Proof.
  unfold series_max. destruct (times s) as [|t0 ts]; [discriminate|].
  intros [= <-]. apply fold_max_spec.
Qed.

Lemma order_day_time df s i day :
  lookup_col (cols df) "Order Date" = Some s ->
  order_day df i = Some day <->
  exists t, values s !! i = Some (Time t) /\ day = (t / NS_PER_DAY)%Z.
Proof.
  intros Hs. unfold order_day. rewrite Hs. cbn.
  destruct (values s !! i) as [c|]; cbn.
  - split.
    + destruct c; try discriminate. intros [= <-]. eauto.
    + intros (t & [= ->] & ->). reflexivity.
  - split; [discriminate | intros (t & H & _); discriminate H].
Qed.

(** X22. The bounds [show_analysis] offers for the date filter are order
    days of the table, the first one not after the second, and every order
    day of the table lies between them: the default range leaves out no
    row for its date.  Computing them changes nothing. *)
Theorem date_bounds_enclose_order_days (df : nat) (st st' : State) (lo hi : Z) :
  date_bounds df st = (st', Ok (lo, hi)) ->
  st' = st
  /\ exists d,
       heap st !! df = Some d
       /\ (exists i, order_day d i = Some lo)
       /\ (exists i, order_day d i = Some hi)
       /\ forall i day, order_day d i = Some day -> (lo <= day <= hi)%Z.
Proof.
  unfold date_bounds. intros H.
  apply bind_returns in H as (d & s1 & Hload & H).
  pose proof (load_value _ _ _ _ Hload) as Hd. apply load_returns in Hload as ->.
  apply bind_returns in H as (min_date & s2 & Hmin & H).
  apply lift_returns in Hmin as [-> Hmin].
  apply bind_returns in H as (d' & s3 & Hload & H).
  pose proof (load_value _ _ _ _ Hload) as Hd'. apply load_returns in Hload as ->.
  rewrite Hd in Hd'. injection Hd' as <-.
  apply bind_returns in H as (max_date & s4 & Hmax & H).
  apply lift_returns in Hmax as [-> Hmax].
  injection H as <- <- <-.
  split; [reflexivity|]. exists d. split; [exact Hd|].
  unfold getitem in Hmin, Hmax.
  destruct (lookup_col (cols d) "Order Date") as [s|] eqn:Hs; [|discriminate Hmin].
  cbn in Hmin, Hmax. unfold date_of in Hmin, Hmax.
  destruct (series_min s) as [tmin|] eqn:Emin; [|discriminate Hmin].
  destruct (series_max s) as [tmax|] eqn:Emax; [|discriminate Hmax].
  injection Hmin as <-. injection Hmax as <-.
  apply series_min_spec in Emin as [Hminin Hminle].
  apply series_max_spec in Emax as [Hmaxin Hmaxle].
  split.
  { apply elem_of_times in Hminin as [i Hi]. exists i.
    apply (order_day_time d s i _ Hs). eauto. }
  split.
  { apply elem_of_times in Hmaxin as [i Hi]. exists i.
    apply (order_day_time d s i _ Hs). eauto. }
  intros i day Hday. apply (order_day_time d s i _ Hs) in Hday as (t & Ht & ->).
  assert (Hin : t ∈ times s) by (apply elem_of_times; eauto).
  split; apply Z.div_le_mono; auto; reflexivity.
Qed.

Lemma date_bounds_enclose_order_days_witness :
  date_bounds 0 (mkState [sample_dataset] [])
  = (mkState [sample_dataset] [], Ok (day 2023 1 1, day 2023 1 3))
  /\ mkState [sample_dataset] [] = mkState [sample_dataset] []
  /\ exists d,
       heap (mkState [sample_dataset] []) !! 0%nat = Some d
       /\ (exists i, order_day d i = Some (day 2023 1 1))
       /\ (exists i, order_day d i = Some (day 2023 1 3))
       /\ forall i d', order_day d i = Some d' -> (day 2023 1 1 <= d' <= day 2023 1 3)%Z.
Proof.
  assert (H : date_bounds 0 (mkState [sample_dataset] [])
              = (mkState [sample_dataset] [], Ok (day 2023 1 1, day 2023 1 3)))
    by (vm_compute; reflexivity).
  split; [exact H|].
  exact (date_bounds_enclose_order_days 0 (mkState [sample_dataset] [])
           (mkState [sample_dataset] []) (day 2023 1 1) (day 2023 1 3) H).
Defined.

(** ** A date conversion that fails in [show_analysis] *)

(** X23. When the ship dates of the table given to [show_analysis] cannot
    be converted, the run returns normally after the message of the
    conversion, and nothing else is shown; the order dates, converted
    before the failure, stay converted in the caller's table. *)
Theorem failed_ship_dates_leave_order_dates_converted
    (parse_datetime : string -> option Z) (csv_field : Dtype -> Cell -> string)
    (env : Env) (w : Widgets) (df : nat) (st : State) (d : DataFrame)
    (order_date : Series) (e : Exn) :
  heap st !! df = Some d ->
  getitem d "Order Date" ≫= to_datetime parse_datetime = Ok order_date ->
  getitem (setitem d "Order Date" order_date) "Ship Date" ≫= to_datetime parse_datetime
  = Raise e ->
  show_analysis parse_datetime csv_field env w df st
  = (mkState (<[df := setitem d "Order Date" order_date]> (heap st))
       (out st ++ [st_success "Data uploaded successfully! Here's your analysis:";
                   st_error ("Error converting dates: " +:+ exn_text e)])%list,
     Ok tt).
Proof.
  intros Hd Hod Hsd.
  assert (Hlt : (df < length (heap st))%nat) by (eapply lookup_lt_Some; eauto).
  unfold show_analysis, convert_dates, assign_column, try_, load, store, lift, emit.
  unfold mbind, M_bind in *. cbn [heap out].
  rewrite Hd, Hod. cbn [heap out].
  rewrite list_lookup_insert_eq by exact Hlt.
  rewrite Hsd. cbn [heap out]. rewrite <- app_assoc. reflexivity.
Qed.

Lemma failed_ship_dates_leave_order_dates_converted_witness :
  (heap (mkState [bad_ship_date] []) !! 0%nat = Some bad_ship_date
   /\ getitem bad_ship_date "Order Date" ≫= to_datetime iso_datetime = Ok sample_order_dates
   /\ getitem (setitem bad_ship_date "Order Date" sample_order_dates) "Ship Date"
        ≫= to_datetime iso_datetime
      = Raise (ParserError "soon"))
  /\ show_analysis iso_datetime plain_field env_full sample_widgets 0
       (mkState [bad_ship_date] [])
     = (mkState (<[0%nat := setitem bad_ship_date "Order Date" sample_order_dates]>
                   (heap (mkState [bad_ship_date] [])))
          (out (mkState [bad_ship_date] [])
           ++ [st_success "Data uploaded successfully! Here's your analysis:";
               st_error ("Error converting dates: "
                         +:+ exn_text (ParserError "soon"))])%list,
        Ok tt).
Proof.
  assert (H1 : heap (mkState [bad_ship_date] []) !! 0%nat = Some bad_ship_date)
    by reflexivity.
  assert (H2 : getitem bad_ship_date "Order Date" ≫= to_datetime iso_datetime
               = Ok sample_order_dates) by (vm_compute; reflexivity).
  assert (H3 : getitem (setitem bad_ship_date "Order Date" sample_order_dates) "Ship Date"
                 ≫= to_datetime iso_datetime
               = Raise (ParserError "soon")) by (vm_compute; reflexivity).
  split; [auto|].
  exact (failed_ship_dates_leave_order_dates_converted iso_datetime plain_field env_full
           sample_widgets 0 (mkState [bad_ship_date] []) bad_ship_date sample_order_dates
           (ParserError "soon") H1 H2 H3).
Defined.

(** ** From the upload to the filter *)

Lemma run_bind {A B} (m : M A) (k : A -> M B) st s a :
  m st = (s, Ok a) -> (m ≫= k) st = k a s.
Proof. intros H. unfold mbind, M_bind. rewrite H. reflexivity. Qed.

Lemma run_try {A} (m : M A) st s r : m st = (s, r) -> try_ m st = (s, Ok r).
Proof. intros H. unfold try_. rewrite H. reflexivity. Qed.

(** On a normalised table the conversion of the dates changes nothing. *)
Lemma convert_dates_noop parse_datetime df st d :
  heap st !! df = Some d -> normalized d ->
  convert_dates parse_datetime df st = (st, Ok tt).
Proof.
  intros Hd (od & sd & Hod & Hodt & Hsd & Hsdt). destruct st as [h o]. cbn [heap] in Hd.
  assert (Hgo : getitem d "Order Date" ≫= to_datetime parse_datetime = Ok od).
  { unfold getitem. rewrite Hod. cbn [mbind result_bind rbind].
    unfold to_datetime. rewrite Hodt. reflexivity. }
  assert (Hgs : getitem d "Ship Date" ≫= to_datetime parse_datetime = Ok sd).
  { unfold getitem. rewrite Hsd. cbn [mbind result_bind rbind].
    unfold to_datetime. rewrite Hsdt. reflexivity. }
  unfold convert_dates, assign_column, load, store, lift.
  unfold mbind, M_bind in *. cbn [heap out].
  rewrite Hd, Hgo. cbn [heap out]. rewrite (setitem_same d _ od Hod).
  rewrite (list_insert_id h df d Hd). rewrite Hd, Hgs. cbn [heap out].
  rewrite (setitem_same d _ sd Hsd). rewrite (list_insert_id h df d Hd). reflexivity.
Qed.

Lemma date_bounds_run df st d od lo hi :
  heap st !! df = Some d ->
  lookup_col (cols d) "Order Date" = Some od ->
  series_min od = Some lo -> series_max od = Some hi ->
  date_bounds df st = (st, Ok ((lo / NS_PER_DAY)%Z, (hi / NS_PER_DAY)%Z)).
Proof.
  intros Hd Hod Hlo Hhi. unfold date_bounds, load, lift, getitem.
  unfold mbind, M_bind. rewrite Hd, Hod. cbn. rewrite Hlo, Hhi. reflexivity.
Qed.




(** ** The products at the bottom *)





(** The two products at the bottom of the sample, the least profitable
    first. *)
Example bottom_of_the_sample :
  (bottom ← nsmallest sample_data 2 "Profit";
   names ← getitem bottom "Product Name";
   Ok (values names))
  = Ok [Str "Binder Clips"; Str "Office Chair"].
Proof. vm_compute. reflexivity. Qed.

(** ** The days of the forecast curve *)

Lemma select_map_filter {A} (f : A -> bool) (vs : list A) :
  select (map f vs) vs = List.filter f vs.
Proof.
  induction vs as [|v vs IH]; simpl; [reflexivity|].
  destruct (f v); rewrite IH; reflexivity.
Qed.

Lemma sublist_bool_filter {A} (f : A -> bool) (l : list A) :
  sublist (List.filter f l) l.
Proof.
  induction l as [|a l IH]; simpl; [constructor|].
  destruct (f a); constructor; exact IH.
Qed.

(** X26. The curve of the forecast is drawn over the rows of the forecast
    that lie after the last day of the history: a predicted day is on it
    exactly when it is later than every day of the history, the days keep
    the order of the forecast, and a missing day is never on it.  When
    the history has no day the curve is empty. *)
Theorem future_data_follows_history (forecast : DataFrame) (ds history_ds : Series) :
  lookup_col (cols forecast) "ds" = Some ds ->
  exists future,
    getitem (bool_index forecast (time_gt ds (series_max history_ds))) "ds" = Ok future
    /\ sublist (values future) (values ds)
    /\ forall c,
         c ∈ values future
         <-> c ∈ values ds
             /\ exists t last,
                  c = Time t /\ series_max history_ds = Some last /\ (last < t)%Z
                  /\ forall x, x ∈ times history_ds -> (x < t)%Z.
Proof.
  intros Hds. unfold getitem. rewrite lookup_col_bool_index, Hds. cbn.
  eexists. split; [reflexivity|]. cbn [values].
  unfold time_gt. rewrite select_map_filter.
  split; [apply sublist_bool_filter|].
  intros c. rewrite list_elem_of_In, filter_In, <- list_elem_of_In.
  split.
  - intros [Hin Hc]. split; [exact Hin|].
    destruct c as [| | |t|]; try discriminate Hc.
    destruct (series_max history_ds) as [last|] eqn:Hmax; [|discriminate Hc].
    apply Z.ltb_lt in Hc. exists t, last.
    repeat split; try assumption; try reflexivity.
    intros x Hx. apply series_max_spec in Hmax as [_ Hle]. specialize (Hle x Hx). lia.
  - intros [Hin (t & last & -> & Hmax & Hlt & _)]. split; [exact Hin|].
    rewrite Hmax. apply Z.ltb_lt. exact Hlt.
Qed.

Lemma future_data_follows_history_witness :
  lookup_col
    (cols (mkDF [("ds", mkSeries datetime64
                          [midnight 2023 1 2; midnight 2023 1 3; Null; midnight 2023 1 4;
                           midnight 2023 1 5])] 5))
    "ds"
  = Some (mkSeries datetime64
            [midnight 2023 1 2; midnight 2023 1 3; Null; midnight 2023 1 4;
             midnight 2023 1 5])
  /\ exists future,
       getitem
         (bool_index
            (mkDF [("ds", mkSeries datetime64
                            [midnight 2023 1 2; midnight 2023 1 3; Null; midnight 2023 1 4;
                             midnight 2023 1 5])] 5)
            (time_gt (mkSeries datetime64
                        [midnight 2023 1 2; midnight 2023 1 3; Null; midnight 2023 1 4;
                         midnight 2023 1 5])
                     (series_max sample_order_dates)))
         "ds" = Ok future
       /\ sublist (values future)
            (values (mkSeries datetime64
                       [midnight 2023 1 2; midnight 2023 1 3; Null; midnight 2023 1 4;
                        midnight 2023 1 5]))
       /\ forall c,
            c ∈ values future
            <-> c ∈ values (mkSeries datetime64
                              [midnight 2023 1 2; midnight 2023 1 3; Null;
                               midnight 2023 1 4; midnight 2023 1 5])
                /\ exists t last,
                     c = Time t /\ series_max sample_order_dates = Some last
                     /\ (last < t)%Z
                     /\ forall x, x ∈ times sample_order_dates -> (x < t)%Z.
Proof.
  assert (H : lookup_col
                (cols (mkDF [("ds", mkSeries datetime64
                                      [midnight 2023 1 2; midnight 2023 1 3; Null;
                                       midnight 2023 1 4; midnight 2023 1 5])] 5))
                "ds"
              = Some (mkSeries datetime64
                        [midnight 2023 1 2; midnight 2023 1 3; Null; midnight 2023 1 4;
                         midnight 2023 1 5])) by reflexivity.
  split; [exact H|].
  exact (future_data_follows_history _ _ sample_order_dates H).
Defined.

(** The curve over the five predicted days above, after the three days
    of the sample. *)
Example future_days_of_the_sample :
  values (mkSeries datetime64
            (select (time_gt (mkSeries datetime64
                                [midnight 2023 1 2; midnight 2023 1 3; Null;
                                 midnight 2023 1 4; midnight 2023 1 5])
                             (series_max sample_order_dates))
                    [midnight 2023 1 2; midnight 2023 1 3; Null; midnight 2023 1 4;
                     midnight 2023 1 5]))
  = [midnight 2023 1 4; midnight 2023 1 5].
Proof. vm_compute. reflexivity. Qed.

(** * A filter that keeps no row

    The share of orders with a negative profit is computed in the last
    panel but one.  With a filtered table without rows the run does not
    get there: the forecast comes first, and the library refuses a
    history without a day. *)

Lemma keeps_and {A} (I1 I2 : State -> Prop) (m : M A) (Q1 Q2 : A -> Prop) :
  keeps I1 m Q1 -> keeps I2 m Q2 ->
  keeps (fun st => I1 st /\ I2 st) m (fun a => Q1 a /\ Q2 a).
Proof.
  intros H1 H2 st [HI1 HI2].
  destruct (H1 st HI1) as [HI1' HQ1]. destruct (H2 st HI2) as [HI2' HQ2].
  split; [split; assumption|]. intros a Ha. split; [apply HQ1 | apply HQ2]; exact Ha.
Qed.

Lemma run_bind_raise {A B} (m : M A) (k : A -> M B) st s e :
  m st = (s, Raise e) -> (m ≫= k) st = (s, Raise e).
Proof. intros H. unfold mbind, M_bind. rewrite H. reflexivity. Qed.

Lemma count_true_zero mask : count_true mask = 0%nat -> Forall (fun b => b = false) mask.
Proof.
  unfold count_true. induction mask as [|b mask IH]; simpl; [constructor|].
  destruct b; simpl; [discriminate|]. intros H. constructor; [reflexivity | exact (IH H)].
Qed.

Lemma filter_data_run w df st d filtered :
  heap st !! df = Some d ->
  filtered_df d (date_range w) (categories w) = Ok filtered ->
  filter_data w df st = (mkState (heap st ++ [filtered]) (out st), Ok (length (heap st))).
Proof.
  intros Hd Hf. unfold filter_data, load, lift, alloc, mbind, M_bind.
  rewrite Hd, Hf. reflexivity.
Qed.

Lemma order_day_bounds d od i day :
  lookup_col (cols d) "Order Date" = Some od ->
  order_day d i = Some day ->
  exists lo hi, series_min od = Some lo /\ series_max od = Some hi.
Proof.
  intros Hod Hday. apply (order_day_time d od i day Hod) in Hday as (t & Ht & _).
  assert (Hin : t ∈ times od) by (apply elem_of_times; eauto).
  unfold series_min, series_max. destruct (times od) as [|t0 ts]; [|eauto].
  apply elem_of_nil in Hin. contradiction.
Qed.

(** The history made of a table without order dates has no day. *)
Lemma history_without_days filtered grouped :
  (forall od, getitem filtered "Order Date" = Ok od -> values od = []) ->
  groupby_agg filtered "Order Date" [("Sales", agg_sum)] = Ok grouped ->
  forall ds,
    getitem (rename (rename grouped "Order Date" "ds") "Sales" "y") "ds" = Ok ds ->
    values ds = [].
Proof.
  intros Hnone. unfold groupby_agg, mbind, result_bind. cbn [rmapM fst snd].
  destruct (getitem filtered "Order Date") as [ks|] eqn:Hks; cbn [rbind]; [|intros [=]].
  rewrite (Hnone ks eq_refl).
  destruct (getitem filtered "Sales") as [s|]; cbn [rbind]; [|intros [=]].
  destruct (sum_allowed s); cbn [rbind]; [|intros [=]].
  intros [= <-] ds. unfold getitem, rename. cbn. intros [= <-]. reflexivity.
Qed.

(** What [create_sales_forecast] comes to on such a table: it raises, or,
    without the library, reports so and returns two [None]. *)
Lemma create_sales_forecast_without_days env f periods st filtered :
  forecast_needs_history env ->
  heap st !! f = Some filtered ->
  (forall od, getitem filtered "Order Date" = Ok od -> values od = []) ->
  (exists fresh e,
     create_sales_forecast env f periods st
     = (mkState (heap st ++ fresh) (out st), Raise e))
  \/ create_sales_forecast env f periods st
     = (mkState (heap st)
          (out st ++ [st_error "Prophet is not available. Forecasting disabled."]),
        Ok (None, None)).
Proof.
  intros Hneeds Hf Hnone. unfold create_sales_forecast.
  destruct (PROPHET_AVAILABLE env); cbn [negb]; [left | right; reflexivity].
  unfold mbind, M_bind, load, lift, alloc, mret, M_ret. cbn [heap out].
  rewrite Hf.
  destruct (groupby_agg filtered "Order Date" [("Sales", agg_sum)]) as [grouped|e] eqn:Hg.
  - cbn [heap out]. rewrite lookup_app_r, Nat.sub_diag by lia. cbn [lookup list_lookup].
    destruct (Hneeds _ periods (history_without_days _ _ Hnone Hg)) as [e He].
    rewrite He. eauto.
  - exists [], e. rewrite app_nil_r. destruct st; reflexivity.
Qed.

Ltac not_negative_profit_metric := intros [? ?]; discriminate.

Section NoRows.
Variables (env : Env) (w : Widgets) (h0 : list DataFrame) (out0 : list Event).
Variables (f : nat) (filtered : DataFrame).
Hypothesis Hneeds : forecast_needs_history env.
Hypothesis Hf : h0 !! f = Some filtered.
Hypothesis Hnone : forall od, getitem filtered "Order Date" = Ok od -> values od = [].

Lemma kpi_panel_before_ratio : keeps (before_ratio h0 out0) (kpi_panel f) (fun _ => True).
Proof.
  eapply keeps_weaken; [apply keeps_and|intros; exact Logic.I].
  - unfold kpi_panel. frame_walk.
  - unfold kpi_panel. shows_walk_with not_negative_profit_metric.
Qed.

Lemma first_charts_before_ratio : keeps (before_ratio h0 out0) (first_charts env f) (fun _ => True).
Proof.
  eapply keeps_weaken; [apply keeps_and|intros; exact Logic.I].
  - unfold first_charts, plotly. frame_walk.
  - unfold first_charts, plotly. shows_walk_with not_negative_profit_metric.
Qed.

Lemma second_charts_before_ratio :
  keeps (before_ratio h0 out0) (second_charts env w f) (fun _ => True).
Proof.
  eapply keeps_weaken; [apply keeps_and|intros; exact Logic.I].
  - unfold second_charts, plotly. frame_walk.
  - unfold second_charts, plotly, assign_column.
    shows_walk_with not_negative_profit_metric.
Qed.

(** The forecast step does not return. *)
Lemma forecast_panel_before_ratio :
  keeps (before_ratio h0 out0) (forecast_panel env w f) (fun _ => False).
Proof.
  intros st [Hframe Hshows]. unfold forecast_panel.
  rewrite (run_bind _ _ st (mkState (heap st) (out st ++ [st_subheader _])) tt eq_refl).
  cbv beta.
  assert (Hshows1 : shows_only (fun e => ~ negative_profit_metric e) out0
                      (mkState (heap st) (out st ++ [st_subheader "Sales Forecasting"]))).
  { apply shows_only_emit; [not_negative_profit_metric | exact Hshows]. }
  destruct (create_sales_forecast_without_days env f (forecast_days w)
              (mkState (heap st) (out st ++ [st_subheader "Sales Forecasting"])) filtered
              Hneeds (frame_lookup h0 f filtered st Hf Hframe) Hnone)
    as [(fresh & e & Hrun) | Hrun].
  - rewrite (run_bind_raise _ _ _ _ _ Hrun). cbn [fst snd heap out] in *.
    split; [|intros a [=]]. split.
    + destruct Hframe as [rest Hrest]. exists (rest ++ fresh)%list. cbn [heap].
      rewrite Hrest, app_assoc. reflexivity.
    + exact Hshows1.
  - rewrite (run_bind _ _ _ _ _ Hrun). cbv beta iota.
    unfold plotly, subscript, raise, mbind, M_bind, mret, M_ret.
    cbn [heap out]. destruct (PLOTLY_AVAILABLE env); cbn [fst snd].
    + split; [|intros a [=]]. split; [exact Hframe|].
      apply (shows_only_emit _ out0 _ (mkState (heap st) _));
        [not_negative_profit_metric | exact Hshows1].
    + split; [|intros a [=]]. split; [exact Hframe|].
      apply (shows_only_emit _ out0 _ (mkState (heap st) _));
        [not_negative_profit_metric | exact Hshows1].
Qed.

End NoRows.

(** C9, as the code behaves.  On a table that has an order date, when the
    filter keeps no row and the forecasting library refuses a history
    without a day, the run of [show_analysis] ends in an exception, and
    the share of orders with a negative profit is never shown: neither 0
    nor any other value. *)
Theorem no_rows_never_reach_the_ratio (parse_datetime : string -> option Z)
    (csv_field : Dtype -> Cell -> string) (env : Env) (w : Widgets)
    (df : nat) (st : State) (d filtered : DataFrame) :
  heap st !! df = Some d ->
  normalized d ->
  (exists i day, order_day d i = Some day) ->
  filtered_df d (date_range w) (categories w) = Ok filtered ->
  nrows filtered = 0%nat ->
  forecast_needs_history env ->
  (exists e, snd (show_analysis parse_datetime csv_field env w df st) = Raise e)
  /\ exists events,
       out (fst (show_analysis parse_datetime csv_field env w df st))
       = (out st ++ events)%list
       /\ Forall (fun e => ~ negative_profit_metric e) events.
Proof.
  intros Hd Hnorm (i & day & Hday) Hfiltered Hrows Hneeds.
  destruct (filtered_df_inv _ _ _ _ Hfiltered) as (od & cat & Hod & Hdt & Hcat & Hout).
  destruct (order_day_bounds d od i day Hod Hday) as (lo & hi & Hlo & Hhi).
  assert (Hnone : forall s, getitem filtered "Order Date" = Ok s -> values s = []).
  { intros s Hs. apply getitem_Ok in Hs. rewrite Hout, lookup_col_bool_index, Hod in Hs.
    injection Hs as <-. cbn [values]. apply select_none, count_true_zero.
    rewrite Hout in Hrows. exact Hrows. }
  unfold show_analysis.
  rewrite (run_bind _ _ st (mkState (heap st) (out st ++ [st_success _])) tt eq_refl).
  cbv beta.
  erewrite run_bind;
    [|apply run_try, (convert_dates_noop parse_datetime _ _ d); [exact Hd | exact Hnorm]].
  cbv beta iota.
  erewrite run_bind;
    [|apply run_try, (date_bounds_run _ _ d od lo hi); assumption].
  cbv beta iota.
  erewrite run_bind; [|apply (filter_data_run w df _ d filtered); assumption].
  cbv beta. cbn [heap out].
  match goal with
  | |- context [fst (?m ?s2)] =>
      assert (Htail : keeps (before_ratio (heap st ++ [filtered]) (out st)) m
                        (fun _ => False))
  end.
  { eapply keeps_bind; [apply kpi_panel_before_ratio | intros _ _].
    eapply keeps_bind; [apply first_charts_before_ratio | intros _ _].
    eapply keeps_bind; [apply second_charts_before_ratio | intros _ _].
    eapply keeps_bind with (Q := fun _ => False); [|intros ? []].
    apply (forecast_panel_before_ratio env w _ _ _ filtered Hneeds); [|exact Hnone].
    rewrite lookup_app_r, Nat.sub_diag by lia. reflexivity. }
  match goal with
  | |- context [fst (?m ?s2)] =>
      destruct (Htail s2) as [[_ (events & Hevents & Hall)] Hres]
  end.
  { split.
    - exists []. cbn [heap]. rewrite app_nil_r. reflexivity.
    - exists [st_success "Data uploaded successfully! Here's your analysis:"].
      split; [reflexivity|]. constructor; [not_negative_profit_metric | constructor]. }
  split.
  - match goal with
    | |- exists e, ?r = Raise e =>
        assert (Hne : forall a, r <> Ok a) by (intros a Ha; exact (Hres a Ha));
        clear Hres Hevents; destruct r as [a|e]; [destruct (Hne a eq_refl) | eauto]
    end.
  - exists events. split; assumption.
Qed.

(** The stand-in of the forecasting library refuses a history without a
    day, as Prophet does. *)
Lemma mean_forecast_needs_history : forecast_needs_history env_full.
Proof.
  intros history periods Hnone. cbn [env_full prophet_forecast]. unfold mean_forecast.
  destruct (getitem history "ds") as [ds|e] eqn:Hds; [|eauto].
  cbn [mbind result_bind rbind].
  destruct (getitem history "y") as [y|e]; [|eauto].
  cbn [rbind]. rewrite (Hnone ds eq_refl). cbn. eauto.
Qed.

Lemma no_rows_never_reach_the_ratio_witness :
  (heap (mkState [sample_dataset] []) !! 0%nat = Some sample_dataset
   /\ normalized sample_dataset
   /\ (exists i day, order_day sample_dataset i = Some day)
   /\ filtered_df sample_dataset (date_range nothing_selected) (categories nothing_selected)
      = Ok sample_without_rows
   /\ nrows sample_without_rows = 0%nat
   /\ forecast_needs_history env_full)
  /\ (exists e,
        snd (show_analysis iso_datetime plain_field env_full nothing_selected 0
               (mkState [sample_dataset] [])) = Raise e)
  /\ exists events,
       out (fst (show_analysis iso_datetime plain_field env_full nothing_selected 0
                   (mkState [sample_dataset] [])))
       = (out (mkState [sample_dataset] []) ++ events)%list
       /\ Forall (fun e => ~ negative_profit_metric e) events.
Proof.
  assert (H1 : heap (mkState [sample_dataset] []) !! 0%nat = Some sample_dataset)
    by reflexivity.
  assert (H2 : exists i day, order_day sample_dataset i = Some day).
  { exists 0%nat. eexists. vm_compute. reflexivity. }
  assert (H3 : filtered_df sample_dataset (date_range nothing_selected)
                 (categories nothing_selected) = Ok sample_without_rows)
    by (vm_compute; reflexivity).
  assert (H4 : nrows sample_without_rows = 0%nat) by reflexivity.
  split; [auto 10 using sample_dataset_normalized, mean_forecast_needs_history|].
  exact (no_rows_never_reach_the_ratio iso_datetime plain_field env_full nothing_selected
           0 (mkState [sample_dataset] []) sample_dataset sample_without_rows
           H1 sample_dataset_normalized H2 H3 H4 mean_forecast_needs_history).
Defined.
